(** * Session lifecycle, lockout policy and RBAC of the authentication service

    A shallow embedding of [05.auth-authorization-system]: the [User] and
    [Role] models, [TokenService], the parts of [AuthService] and
    [RoleController] built on them, and the SQL schema with its triggers.

    - Timestamps are milliseconds since the epoch, as [Z].  Every operation
      takes the reading of the clock ([Date.now()], [CURRENT_TIMESTAMP]) as
      its [now] argument.
    - PostgreSQL tables are lists of rows in insertion order; a query whose
      constraint is violated rejects with a [PgError].
    - Redis is a finite map from keys to values with a deadline; any command
      may be rejected, which the client's [rejects] oracle decides.
    - [async] methods are computations in the monad [M]: they thread the
      [World] and either return a value or throw.  Nothing is rolled back on
      a throw, as the source opens no transaction. *)

From Stdlib Require Import ZArith String List Bool Lia.
From stdpp Require Import gmap strings.
Import ListNotations.

Local Open Scope string_scope.
Local Open Scope Z_scope.

Definition Timestamp := Z.

Definition minutes (n : Z) : Z := n * 60 * 1000.
Definition hours (n : Z) : Z := n * 60 * 60 * 1000.

(** ** Hashing primitives

    [bcryptjs] and the SHA-256 digest of [crypto] are collaborators of the
    program; the development is parametric in them. *)

Class Crypto := {
  bcrypt_hash : string -> Z -> string;
  bcrypt_compare : string -> string -> bool;
  sha256_hex : string -> string
}.

(** ** Rows of the schema *)

(** [users].  The profile, e-mail verification and two-factor columns play
    no part in what follows and are left out.  The same record is the
    in-memory [User] object; a column the query did not select is [None]
    there ([undefined]). *)
Record UserRow := mkUser {
  u_id : Z;
  u_email : string;
  u_password_hash : option string;
  u_password_reset_token : option string;
  u_password_reset_expires : option Timestamp;
  u_last_password_change : option Timestamp;
  u_failed_login_attempts : Z;
  u_account_locked_until : option Timestamp;
  u_last_login : option Timestamp;
  u_is_active : bool;
  u_updated_at : Timestamp
}.

(** [roles] *)
Record RoleRow := mkRole {
  r_id : Z;
  r_name : string;
  r_description : option string;
  r_is_system_role : bool;
  r_is_default : bool;
  r_parent_role_id : option Z;
  r_level : Z;
  r_updated_at : Timestamp;
  r_updated_by : option Z
}.

(** [permissions] *)
Record PermissionRow := mkPermission {
  p_id : Z;
  p_name : string;
  p_resource : string;
  p_action : string;
  p_category : option string;
  p_is_system_permission : bool
}.

(** [user_roles]; the surrogate [id] is read by no query and left out. *)
Record UserRoleRow := mkUserRole {
  ur_user_id : Z;
  ur_role_id : Z;
  ur_assigned_at : Timestamp;
  ur_assigned_by : option Z;
  ur_expires_at : option Timestamp;
  ur_is_active : bool
}.

(** [role_permissions] *)
Record RolePermissionRow := mkRolePermission {
  rp_role_id : Z;
  rp_permission_id : Z;
  rp_granted : bool;
  rp_granted_by : option Z
}.

(** [user_sessions] *)
Record SessionRow := mkSession {
  s_id : Z;
  s_user_id : Z;
  s_session_token : string;
  s_refresh_token : option string;
  s_device_info : string;
  s_ip_address : option string;
  s_user_agent : option string;
  s_created_at : Timestamp;
  s_last_accessed : Timestamp;
  s_expires_at : Timestamp;
  s_is_active : bool;
  s_is_remembered : bool;
  s_force_logout : bool
}.

(** [audit_logs], the columns the services fill in. *)
Record AuditEvent := mkAudit {
  a_user_id : option Z;
  a_session_id : option Z;
  a_event_type : string;
  a_event_category : string;
  a_success : bool;
  a_error_message : option string
}.

(** ** Errors *)

Inductive JsError :=
| Error (message : string)
| TypeError (message : string)
| PgError (code : string) (constraint : string)
| RedisError (message : string).

Definition error_message (e : JsError) : string :=
  match e with
  | Error m | TypeError m | RedisError m => m
  | PgError code constraint => "violates constraint " +:+ constraint
  end.

(** ** The cache *)

(** What travels as "a session" outside the Ledger: the compact record
    [createSession] mirrors to the cache, or a whole row (what the Ledger
    query returns and what [findSessionByToken] writes back). *)
Inductive SessionObj :=
| Compact (id user_id : Z) (is_active : bool) (expires_at : Timestamp)
| FullRow (row : SessionRow).

Definition obj_id (o : SessionObj) : Z :=
  match o with Compact i _ _ _ => i | FullRow r => s_id r end.
Definition obj_user_id (o : SessionObj) : Z :=
  match o with Compact _ u _ _ => u | FullRow r => s_user_id r end.
Definition obj_is_active (o : SessionObj) : bool :=
  match o with Compact _ _ a _ => a | FullRow r => s_is_active r end.
Definition obj_expires_at (o : SessionObj) : Timestamp :=
  match o with Compact _ _ _ e => e | FullRow r => s_expires_at r end.
(** [session.force_logout]: [undefined] on the compact record. *)
Definition obj_force_logout (o : SessionObj) : option bool :=
  match o with Compact _ _ _ _ => None | FullRow r => Some (s_force_logout r) end.

Inductive RedisCmd :=
| GET (key : string)
| SETEX (key : string) (seconds : Z) (value : SessionObj)
| DEL (key : string).

(** A connected client: the stored entries with the instant each one
    expires, and the commands the server rejects. *)
Record Redis := mkRedis {
  entries : gmap string (SessionObj * Timestamp);
  rejects : RedisCmd -> bool
}.

(** ** The world the services run in *)

Record World := mkWorld {
  users : list UserRow;
  roles : list RoleRow;
  permissions : list PermissionRow;
  role_permissions : list RolePermissionRow;
  user_roles : list UserRoleRow;
  user_sessions : list SessionRow;
  user_sessions_id_seq : Z;
  audit_logs : list AuditEvent;
  (** [require('../config/redis')]: [null] when no Redis is configured *)
  redis : option Redis;
  (** lines written by [console.error] *)
  console : list (string * JsError);
  (** every [bcrypt.compare(plain, hash)] made so far, latest first *)
  bcrypt_compares : list (string * string)
}.

Definition set_users (f : list UserRow -> list UserRow) (w : World) : World :=
  mkWorld (f (users w)) (roles w) (permissions w) (role_permissions w)
    (user_roles w) (user_sessions w) (user_sessions_id_seq w) (audit_logs w)
    (redis w) (console w) (bcrypt_compares w).
Definition set_roles (f : list RoleRow -> list RoleRow) (w : World) : World :=
  mkWorld (users w) (f (roles w)) (permissions w) (role_permissions w)
    (user_roles w) (user_sessions w) (user_sessions_id_seq w) (audit_logs w)
    (redis w) (console w) (bcrypt_compares w).
Definition set_user_roles (f : list UserRoleRow -> list UserRoleRow) (w : World) : World :=
  mkWorld (users w) (roles w) (permissions w) (role_permissions w)
    (f (user_roles w)) (user_sessions w) (user_sessions_id_seq w) (audit_logs w)
    (redis w) (console w) (bcrypt_compares w).
Definition set_user_sessions (f : list SessionRow -> list SessionRow) (w : World) : World :=
  mkWorld (users w) (roles w) (permissions w) (role_permissions w)
    (user_roles w) (f (user_sessions w)) (user_sessions_id_seq w) (audit_logs w)
    (redis w) (console w) (bcrypt_compares w).
Definition set_user_sessions_id_seq (f : Z -> Z) (w : World) : World :=
  mkWorld (users w) (roles w) (permissions w) (role_permissions w)
    (user_roles w) (user_sessions w) (f (user_sessions_id_seq w)) (audit_logs w)
    (redis w) (console w) (bcrypt_compares w).
Definition set_audit_logs (f : list AuditEvent -> list AuditEvent) (w : World) : World :=
  mkWorld (users w) (roles w) (permissions w) (role_permissions w)
    (user_roles w) (user_sessions w) (user_sessions_id_seq w) (f (audit_logs w))
    (redis w) (console w) (bcrypt_compares w).
Definition set_redis (f : option Redis -> option Redis) (w : World) : World :=
  mkWorld (users w) (roles w) (permissions w) (role_permissions w)
    (user_roles w) (user_sessions w) (user_sessions_id_seq w) (audit_logs w)
    (f (redis w)) (console w) (bcrypt_compares w).
Definition set_console (f : list (string * JsError) -> list (string * JsError)) (w : World) : World :=
  mkWorld (users w) (roles w) (permissions w) (role_permissions w)
    (user_roles w) (user_sessions w) (user_sessions_id_seq w) (audit_logs w)
    (redis w) (f (console w)) (bcrypt_compares w).
Definition set_bcrypt_compares (f : list (string * string) -> list (string * string)) (w : World) : World :=
  mkWorld (users w) (roles w) (permissions w) (role_permissions w)
    (user_roles w) (user_sessions w) (user_sessions_id_seq w) (audit_logs w)
    (redis w) (console w) (f (bcrypt_compares w)).

(** ** Promises as a state-and-exception monad *)

Inductive Result (A : Type) :=
| Ok (a : A)
| Throw (e : JsError).
Arguments Ok {A} a.
Arguments Throw {A} e.

Definition M (A : Type) : Type := World -> Result A * World.

Definition ret {A} (a : A) : M A := fun w => (Ok a, w).
Definition throw {A} (e : JsError) : M A := fun w => (Throw e, w).
Definition bind {A B} (c : M A) (k : A -> M B) : M B :=
  fun w => match c w with
           | (Ok a, w') => k a w'
           | (Throw e, w') => (Throw e, w')
           end.
Definition get_world : M World := fun w => (Ok w, w).
Definition modify (f : World -> World) : M unit := fun w => (Ok tt, f w).

Notation "'let*' x ':=' c 'in' k" := (bind c (fun x => k))
  (at level 10, x pattern, c at level 100, k at level 200).
Notation "c ';;' k" := (bind c (fun _ => k))
  (at level 100, k at level 200, right associativity).

(** [try { body } catch (error) { handler(error) }] *)
Definition try_catch {A} (body : M A) (handler : JsError -> M A) : M A :=
  fun w => match body w with
           | (Ok a, w') => (Ok a, w')
           | (Throw e, w') => handler e w'
           end.

Definition console_error (label : string) (e : JsError) : M unit :=
  modify (set_console (cons (label, e))).

(** The pattern every model and service method is wrapped in:
    [catch (error) { console.error(label, error); throw error; }] *)
Definition logged {A} (label : string) (body : M A) : M A :=
  try_catch body (fun e => console_error label e ;; throw e).

Definition run {A} (c : M A) (w : World) : Result A := fst (c w).
Definition exec {A} (c : M A) (w : World) : World := snd (c w).

(** ** The [users] table: triggers and statements *)

Definition with_password_hash (h : option string) (r : UserRow) : UserRow :=
  mkUser (u_id r) (u_email r) h (u_password_reset_token r)
    (u_password_reset_expires r) (u_last_password_change r)
    (u_failed_login_attempts r) (u_account_locked_until r) (u_last_login r)
    (u_is_active r) (u_updated_at r).
Definition with_password_reset (token : option string) (expires : option Timestamp)
    (r : UserRow) : UserRow :=
  mkUser (u_id r) (u_email r) (u_password_hash r) token expires
    (u_last_password_change r) (u_failed_login_attempts r)
    (u_account_locked_until r) (u_last_login r) (u_is_active r) (u_updated_at r).
Definition with_last_password_change (t : option Timestamp) (r : UserRow) : UserRow :=
  mkUser (u_id r) (u_email r) (u_password_hash r) (u_password_reset_token r)
    (u_password_reset_expires r) t (u_failed_login_attempts r)
    (u_account_locked_until r) (u_last_login r) (u_is_active r) (u_updated_at r).
Definition with_failed_login_attempts (n : Z) (r : UserRow) : UserRow :=
  mkUser (u_id r) (u_email r) (u_password_hash r) (u_password_reset_token r)
    (u_password_reset_expires r) (u_last_password_change r) n
    (u_account_locked_until r) (u_last_login r) (u_is_active r) (u_updated_at r).
Definition with_account_locked_until (t : option Timestamp) (r : UserRow) : UserRow :=
  mkUser (u_id r) (u_email r) (u_password_hash r) (u_password_reset_token r)
    (u_password_reset_expires r) (u_last_password_change r)
    (u_failed_login_attempts r) t (u_last_login r) (u_is_active r) (u_updated_at r).
Definition with_last_login (t : option Timestamp) (r : UserRow) : UserRow :=
  mkUser (u_id r) (u_email r) (u_password_hash r) (u_password_reset_token r)
    (u_password_reset_expires r) (u_last_password_change r)
    (u_failed_login_attempts r) (u_account_locked_until r) t (u_is_active r)
    (u_updated_at r).
Definition with_updated_at (t : Timestamp) (r : UserRow) : UserRow :=
  mkUser (u_id r) (u_email r) (u_password_hash r) (u_password_reset_token r)
    (u_password_reset_expires r) (u_last_password_change r)
    (u_failed_login_attempts r) (u_account_locked_until r) (u_last_login r)
    (u_is_active r) t.

(** [CREATE FUNCTION update_updated_at_column()] *)
Definition update_updated_at_column (now : Timestamp) (NEW : UserRow) : UserRow :=
  with_updated_at now NEW.

(** [CREATE FUNCTION check_account_lockout()]: three [IF]s in a row, each
    overwriting what the one before assigned. *)
Definition check_account_lockout (now : Timestamp) (NEW : UserRow) : UserRow :=
  let NEW :=
    if 5 <=? u_failed_login_attempts NEW
    then with_account_locked_until (Some (now + minutes 30)) NEW else NEW in
  let NEW :=
    if 10 <=? u_failed_login_attempts NEW
    then with_account_locked_until (Some (now + hours 1)) NEW else NEW in
  let NEW :=
    if 15 <=? u_failed_login_attempts NEW
    then with_account_locked_until (Some (now + hours 24)) NEW else NEW in
  NEW.

(** The [BEFORE UPDATE ... FOR EACH ROW] triggers on [users], fired in the
    order of their names: [check_user_account_lockout], then
    [update_users_updated_at]. *)
Definition before_update_users (now : Timestamp) (NEW : UserRow) : UserRow :=
  update_updated_at_column now (check_account_lockout now NEW).

(** [UPDATE users SET ... WHERE ... RETURNING ...]: the rows as they now are. *)
Definition update_users (now : Timestamp) (where_ : UserRow -> bool)
    (set_ : UserRow -> UserRow) : M (list UserRow) :=
  fun w =>
    let fire r := before_update_users now (set_ r) in
    (Ok (map fire (List.filter where_ (users w))),
     set_users (map (fun r => if where_ r then fire r else r)) w).

Definition user_exists (id : Z) (w : World) : bool :=
  existsb (fun r => u_id r =? id) (users w).
Definition role_exists (id : Z) (w : World) : bool :=
  existsb (fun r => r_id r =? id) (roles w).
(** a nullable reference to [users (id)] *)
Definition user_ref_ok (ref : option Z) (w : World) : bool :=
  match ref with None => true | Some id => user_exists id w end.

Definition foreign_key_violation : string := "23503".
Definition unique_violation : string := "23505".
Definition numeric_value_out_of_range : string := "22003".
Definition string_data_right_truncation : string := "22001".

(** The largest value of an [INTEGER] column. *)
Definition int4_max : Z := 2147483647.
Definition integer_out_of_range : JsError :=
  PgError numeric_value_out_of_range "integer out of range".

(** [VARCHAR(n)]: a longer value is refused. *)
Definition fits_varchar (n : Z) (value : string) : bool :=
  Z.of_nat (String.length value) <=? n.
Definition value_too_long (n : string) : JsError :=
  PgError string_data_right_truncation
    ("value too long for type character varying(" +:+ n +:+ ")").
(** A parameter that does not fit the [INTEGER] column it is bound to. *)
Definition value_out_of_range : JsError :=
  PgError numeric_value_out_of_range "value is out of range for type integer".

Definition opt_string_eqb (o : option string) (s : string) : bool :=
  match o with Some x => String.eqb x s | None => false end.

(** [await bcrypt.compare(plain, hash)]; the call is put on record.  A
    hash that is [undefined] makes the library throw. *)
Definition await_bcrypt_compare `{Crypto} (plain : string) (hash : option string)
    : M bool :=
  match hash with
  | None => throw (Error "Illegal arguments: string, undefined")
  | Some h =>
      modify (set_bcrypt_compares (cons (plain, h))) ;;
      ret (bcrypt_compare plain h)
  end.

(** ** [models/User.js] *)

Module User.
Section Methods.
Context `{Crypto}.

(** The column list of [findByEmail] (without the hash) and of [findById]. *)
Definition public_columns (r : UserRow) : UserRow :=
  mkUser (u_id r) (u_email r) None None None None
    (u_failed_login_attempts r) (u_account_locked_until r) (u_last_login r)
    (u_is_active r) (u_updated_at r).

Definition findByEmail (email : string) (includePasswordHash : bool)
    : M (option UserRow) :=
  logged "Error finding user by email:" (
    let* w := get_world in
    match List.filter (fun r => String.eqb (u_email r) email) (users w) with
    | [] => ret None
    | row :: _ => ret (Some (if includePasswordHash then row else public_columns row))
    end).

(** [findById(id)], with [includeRoles] left at its default [false]. *)
Definition findById (id : Z) : M (option UserRow) :=
  logged "Error finding user by ID:" (
    let* w := get_world in
    match List.filter (fun r => u_id r =? id) (users w) with
    | [] => ret None
    | row :: _ => ret (Some (public_columns row))
    end).

Definition isAccountLocked (now : Timestamp) (this : UserRow) : bool :=
  match u_account_locked_until this with
  | None => false
  | Some until => now <? until
  end.

(** [failed_login_attempts] is an [INTEGER]: where [failed_login_attempts + 1]
    leaves its range the [UPDATE] fails as a whole. *)
Definition incrementFailedLoginAttempts (now : Timestamp) (this : UserRow)
    : M UserRow :=
  logged "Error incrementing failed login attempts:" (
    let* w := get_world in
    if existsb (fun r => (u_id r =? u_id this)
                         && (int4_max <? u_failed_login_attempts r + 1)) (users w)
    then throw integer_out_of_range
    else
      let* rows :=
        update_users now (fun r => u_id r =? u_id this)
          (fun r => with_failed_login_attempts (u_failed_login_attempts r + 1) r) in
      match rows with
      | row :: _ =>
          ret (with_account_locked_until (u_account_locked_until row)
                 (with_failed_login_attempts (u_failed_login_attempts row) this))
      | [] => ret this
      end).

Definition resetFailedLoginAttempts (now : Timestamp) (this : UserRow)
    : M UserRow :=
  logged "Error resetting failed login attempts:" (
    update_users now (fun r => u_id r =? u_id this)
      (fun r => with_last_login (Some now)
                  (with_account_locked_until None
                     (with_failed_login_attempts 0 r))) ;;
    ret (with_last_login (Some now)
           (with_account_locked_until None
              (with_failed_login_attempts 0 this)))).

Definition AccountLockedError : JsError :=
  Error "Account is temporarily locked due to failed login attempts".

(** Returns [this] as the method leaves it, with the boolean it resolves to. *)
Definition verifyPassword (now : Timestamp) (this : UserRow)
    (plainPassword : string) : M (UserRow * bool) :=
  logged "Error verifying password:" (
    if isAccountLocked now this then throw AccountLockedError
    else
      let* userWithPassword := findByEmail (u_email this) true in
      match userWithPassword with
      | None => throw (Error "User not found")
      | Some userWithPassword =>
          let* isValid :=
            await_bcrypt_compare plainPassword (u_password_hash userWithPassword) in
          if isValid then
            let* this := resetFailedLoginAttempts now this in
            ret (this, true)
          else
            let* this := incrementFailedLoginAttempts now this in
            ret (this, false)
      end).

(** [token] is the draw of [crypto.randomBytes(32).toString('hex')]. *)
Definition generatePasswordResetToken (now : Timestamp) (token : string)
    (this : UserRow) : M (UserRow * string) :=
  logged "Error generating password reset token:" (
    let expires := now + hours 1 in
    update_users now (fun r => u_id r =? u_id this)
      (with_password_reset (Some token) (Some expires)) ;;
    ret (with_password_reset (Some token) (Some expires) this, token)).

Definition verifyPasswordResetToken (now : Timestamp) (token : string)
    : M (option UserRow) :=
  logged "Error verifying password reset token:" (
    let* w := get_world in
    match List.filter
            (fun r => opt_string_eqb (u_password_reset_token r) token
                      && match u_password_reset_expires r with
                         | Some expires => now <? expires
                         | None => false
                         end) (users w) with
    | [] => ret None
    | row :: _ => ret (Some row)
    end).

Definition InvalidResetTokenError : JsError :=
  Error "Invalid or expired password reset token".

Definition resetPassword (now : Timestamp) (this : UserRow)
    (newPassword resetToken : string) : M UserRow :=
  logged "Error resetting password:" (
    if negb (opt_string_eqb (u_password_reset_token this) resetToken)
       || match u_password_reset_expires this with
          | None => true
          | Some expires => expires <? now
          end
    then throw InvalidResetTokenError
    else
      let saltRounds := 12 in
      let password_hash := bcrypt_hash newPassword saltRounds in
      update_users now (fun r => u_id r =? u_id this)
        (fun r => with_account_locked_until None
                    (with_failed_login_attempts 0
                       (with_last_password_change (Some now)
                          (with_password_reset None None
                             (with_password_hash (Some password_hash) r))))) ;;
      ret (with_account_locked_until None
             (with_failed_login_attempts 0
                (with_last_password_change (Some now)
                   (with_password_reset None None this))))).

(** *** Roles and permissions of a user *)

(** [ur.is_active = TRUE AND (ur.expires_at IS NULL OR ur.expires_at > CURRENT_TIMESTAMP)] *)
Definition assignment_in_force (now : Timestamp) (ur : UserRoleRow) : bool :=
  ur_is_active ur
  && match ur_expires_at ur with
     | None => true
     | Some expires => now <? expires
     end.

(** The rows of
    [permissions p INNER JOIN role_permissions rp ON p.id = rp.permission_id
     INNER JOIN user_roles ur ON rp.role_id = ur.role_id]
    that pass the [WHERE] clause of [hasPermission]. *)
Definition hasPermission_rows (now : Timestamp) (user_id : Z)
    (permissionName : string) (w : World)
    : list (PermissionRow * RolePermissionRow * UserRoleRow) :=
  flat_map (fun p =>
    flat_map (fun rp =>
      flat_map (fun ur =>
        if (p_id p =? rp_permission_id rp)
           && (rp_role_id rp =? ur_role_id ur)
           && (ur_user_id ur =? user_id)
           && String.eqb (p_name p) permissionName
           && assignment_in_force now ur
           && rp_granted rp
        then [(p, rp, ur)] else [])
      (user_roles w))
    (role_permissions w))
  (permissions w).

Definition hasPermission (now : Timestamp) (this : UserRow)
    (permissionName : string) : M bool :=
  logged "Error checking user permission:" (
    let* w := get_world in
    let count := Z.of_nat (length (hasPermission_rows now (u_id this) permissionName w)) in
    ret (0 <? count)).

(** [INSERT INTO user_roles ... ON CONFLICT (user_id, role_id) DO UPDATE SET ...].
    The three references of the row are checked first; a new row takes the
    column defaults [assigned_at = CURRENT_TIMESTAMP], [is_active = TRUE]. *)
Definition assignRole (now : Timestamp) (this : UserRow) (roleId : Z)
    (assignedBy : option Z) (expiresAt : option Timestamp) : M unit :=
  logged "Error assigning role to user:" (
    let* w := get_world in
    if negb (user_exists (u_id this) w) then
      throw (PgError foreign_key_violation "user_roles_user_id_fkey")
    else if negb (role_exists roleId w) then
      throw (PgError foreign_key_violation "user_roles_role_id_fkey")
    else if negb (user_ref_ok assignedBy w) then
      throw (PgError foreign_key_violation "user_roles_assigned_by_fkey")
    else
      let conflict ur := (ur_user_id ur =? u_id this) && (ur_role_id ur =? roleId) in
      if existsb conflict (user_roles w) then
        modify (set_user_roles (map (fun ur =>
          if conflict ur
          then mkUserRole (ur_user_id ur) (ur_role_id ur) now assignedBy expiresAt true
          else ur)))
      else
        modify (set_user_roles (fun rows =>
          (rows ++ [mkUserRole (u_id this) roleId now assignedBy expiresAt true])%list))).

Definition removeRole (this : UserRow) (roleId : Z) : M unit :=
  logged "Error removing role from user:" (
    modify (set_user_roles (map (fun ur =>
      if (ur_user_id ur =? u_id this) && (ur_role_id ur =? roleId)
      then mkUserRole (ur_user_id ur) (ur_role_id ur) (ur_assigned_at ur)
             (ur_assigned_by ur) (ur_expires_at ur) false
      else ur)))).

(** [SELECT id FROM roles WHERE is_default = TRUE LIMIT 1], then
    [assignRole] with its defaults. *)
Definition assignDefaultRole (now : Timestamp) (this : UserRow) : M unit :=
  logged "Error assigning default role:" (
    let* w := get_world in
    match List.filter r_is_default (roles w) with
    | row :: _ => assignRole now this (r_id row) None None
    | [] => ret tt
    end).

End Methods.
End User.

(** ** [models/Role.js] *)

(** The fields of [updateData] that pass the [allowedFields] filter of
    [Role.update]; [None] is a key that is absent or [undefined]. *)
Record RoleUpdate := mkRoleUpdate {
  upd_name : option string;
  upd_description : option string;
  upd_is_default : option bool
}.

Definition opt_default {A} (d : A) (o : option A) : A :=
  match o with Some x => x | None => d end.

(** [DELETE FROM roles WHERE id = $1].  [roles.parent_role_id] references
    [roles (id)] with no action, so a role that another role names as its
    parent cannot go; [user_roles] and [role_permissions] cascade. *)
Definition delete_from_roles (id : Z) : M unit :=
  let* w := get_world in
  if existsb (fun r => r_id r =? id) (roles w)
     && existsb (fun r => negb (r_id r =? id)
                          && match r_parent_role_id r with
                             | Some parent => parent =? id
                             | None => false
                             end) (roles w)
  then throw (PgError foreign_key_violation "roles_parent_role_id_fkey")
  else
    modify (fun w =>
      mkWorld (users w)
        (List.filter (fun r => negb (r_id r =? id)) (roles w))
        (permissions w)
        (List.filter (fun rp => negb (rp_role_id rp =? id)) (role_permissions w))
        (List.filter (fun ur => negb (ur_role_id ur =? id)) (user_roles w))
        (user_sessions w) (user_sessions_id_seq w) (audit_logs w)
        (redis w) (console w) (bcrypt_compares w)).

(** The [roleData] of [Role.create], with the defaults of its destructuring
    applied: [parent_role_id = null], [is_default = false]. *)
Record RoleData := mkRoleData {
  rd_name : string;
  rd_description : option string;
  rd_parent_role_id : option Z;
  rd_is_default : bool
}.

Module Role.

Definition findById (id : Z) : M (option RoleRow) :=
  logged "Error finding role by ID:" (
    let* w := get_world in
    ret (head (List.filter (fun r => r_id r =? id) (roles w)))).

Definition findByName (name : string) : M (option RoleRow) :=
  logged "Error finding role by name:" (
    let* w := get_world in
    ret (head (List.filter (fun r => String.eqb (r_name r) name) (roles w)))).

(** Resolves to [this] as the method leaves it. *)
Definition update (now : Timestamp) (this : RoleRow) (updateData : RoleUpdate)
    (updatedBy : option Z) : M RoleRow :=
  logged "Error updating role:" (
    match updateData with
    | mkRoleUpdate None None None => ret this
    | mkRoleUpdate name description is_default =>
        let* w := get_world in
        let target r := r_id r =? r_id this in
        let set_ r :=
          mkRole (r_id r) (opt_default (r_name r) name)
            (match description with Some d => Some d | None => r_description r end)
            (r_is_system_role r) (opt_default (r_is_default r) is_default)
            (r_parent_role_id r) (r_level r) now updatedBy in
        match List.filter target (roles w) with
        | [] => ret this
        | row :: _ =>
            if match name with
               | Some n => existsb (fun r => negb (target r) && String.eqb (r_name r) n) (roles w)
               | None => false
               end
            then throw (PgError unique_violation "roles_name_key")
            else if negb (user_ref_ok updatedBy w)
            then throw (PgError foreign_key_violation "roles_updated_by_fkey")
            else
              modify (set_roles (map (fun r => if target r then set_ r else r))) ;;
              ret (set_ row)
        end
    end).

Definition SystemRoleError : JsError := Error "Cannot delete system role".
Definition RoleAssignedError : JsError :=
  Error "Cannot delete role that is assigned to users".

(** [SELECT COUNT( * ) FROM user_roles WHERE role_id = $1 AND is_active = TRUE] *)
Definition active_assignments (role_id : Z) (w : World) : list UserRoleRow :=
  List.filter (fun ur => (ur_role_id ur =? role_id) && ur_is_active ur) (user_roles w).

Definition delete (this : RoleRow) : M bool :=
  logged "Error deleting role:" (
    if r_is_system_role this then throw SystemRoleError
    else
      let* w := get_world in
      let userCount := Z.of_nat (length (active_assignments (r_id this) w)) in
      if 0 <? userCount then throw RoleAssignedError
      else
        delete_from_roles (r_id this) ;;
        ret true).

(** [Role.create].  [id] is the value the insert draws from the id
    sequence.  The level must fit the [INTEGER] column and the name
    [VARCHAR(100)].  Any unique violation is reported as a taken name; any
    other rejection is rethrown as it is.  The reference to the parent is
    checked once the row is in, so a row may name itself. *)
Definition create (now : Timestamp) (id : Z) (roleData : RoleData)
    (createdBy : option Z) : M RoleRow :=
  let* w := get_world in
  let level :=
    match rd_parent_role_id roleData with
    | Some parent_role_id =>
        if parent_role_id =? 0 then 0
        else match List.filter (fun r => r_id r =? parent_role_id) (roles w) with
             | parent :: _ => r_level parent + 1
             | [] => 0
             end
    | None => 0
    end in
  if int4_max <? level then throw value_out_of_range
  else if negb (fits_varchar 100 (rd_name roleData)) then throw (value_too_long "100")
  else if existsb (fun r => (r_id r =? id) || String.eqb (r_name r) (rd_name roleData))
            (roles w)
  then throw (Error "Role name already exists")
  else if negb (match rd_parent_role_id roleData with
                | Some parent_role_id =>
                    (parent_role_id =? id) || role_exists parent_role_id w
                | None => true
                end)
  then throw (PgError foreign_key_violation "roles_parent_role_id_fkey")
  else if negb (user_ref_ok createdBy w)
  then throw (PgError foreign_key_violation "roles_created_by_fkey")
  else
    let row :=
      mkRole id (rd_name roleData) (rd_description roleData) false
        (rd_is_default roleData) (rd_parent_role_id roleData) level now None in
    modify (set_roles (fun rows => (rows ++ [row])%list)) ;;
    ret row.

Definition permission_exists (id : Z) (w : World) : bool :=
  existsb (fun p => p_id p =? id) (permissions w).

(** [INSERT INTO role_permissions ... ON CONFLICT (role_id, permission_id)
    DO UPDATE SET granted = TRUE, granted_by = $3]; a new row takes the
    default [granted = TRUE]. *)
Definition addPermission (this : RoleRow) (permissionId : Z)
    (grantedBy : option Z) : M unit :=
  logged "Error adding permission to role:" (
    let* w := get_world in
    if negb (role_exists (r_id this) w) then
      throw (PgError foreign_key_violation "role_permissions_role_id_fkey")
    else if negb (permission_exists permissionId w) then
      throw (PgError foreign_key_violation "role_permissions_permission_id_fkey")
    else if negb (user_ref_ok grantedBy w) then
      throw (PgError foreign_key_violation "role_permissions_granted_by_fkey")
    else
      let conflict rp :=
        (rp_role_id rp =? r_id this) && (rp_permission_id rp =? permissionId) in
      if existsb conflict (role_permissions w) then
        modify (fun w =>
          mkWorld (users w) (roles w) (permissions w)
            (map (fun rp =>
               if conflict rp
               then mkRolePermission (rp_role_id rp) (rp_permission_id rp) true grantedBy
               else rp) (role_permissions w))
            (user_roles w) (user_sessions w) (user_sessions_id_seq w) (audit_logs w)
            (redis w) (console w) (bcrypt_compares w))
      else
        modify (fun w =>
          mkWorld (users w) (roles w) (permissions w)
            (role_permissions w
             ++ [mkRolePermission (r_id this) permissionId true grantedBy])%list
            (user_roles w) (user_sessions w) (user_sessions_id_seq w) (audit_logs w)
            (redis w) (console w) (bcrypt_compares w))).

(** [UPDATE role_permissions SET granted = FALSE WHERE role_id = $1 AND
    permission_id = $2] *)
Definition removePermission (this : RoleRow) (permissionId : Z) : M unit :=
  logged "Error removing permission from role:" (
    modify (fun w =>
      mkWorld (users w) (roles w) (permissions w)
        (map (fun rp =>
           if (rp_role_id rp =? r_id this) && (rp_permission_id rp =? permissionId)
           then mkRolePermission (rp_role_id rp) (rp_permission_id rp) false
                  (rp_granted_by rp)
           else rp) (role_permissions w))
        (user_roles w) (user_sessions w) (user_sessions_id_seq w) (audit_logs w)
        (redis w) (console w) (bcrypt_compares w))).

End Role.

(** ** [services/auditService.js] *)

Module AuditService.

(** The [INSERT INTO audit_logs]; its references to [users] and
    [user_sessions] are checked.  A failure is written to the console and
    goes no further. *)
Definition logEvent (eventData : AuditEvent) : M unit :=
  try_catch
    (let* w := get_world in
     if negb (user_ref_ok (a_user_id eventData) w) then
       throw (PgError foreign_key_violation "audit_logs_user_id_fkey")
     else if negb (match a_session_id eventData with
                   | None => true
                   | Some sid => existsb (fun s => s_id s =? sid) (user_sessions w)
                   end) then
       throw (PgError foreign_key_violation "audit_logs_session_id_fkey")
     else modify (set_audit_logs (fun rows => (rows ++ [eventData])%list)))
    (fun error => console_error "Error logging audit event:" error).

End AuditService.

(** ** The Redis client *)

Definition redis_is_null : JsError :=
  TypeError "Cannot read properties of null".
Definition redis_rejected : JsError := RedisError "command rejected".

(** [await redis.get(key)]: the value, unless absent or past its deadline *)
Definition redis_get (now : Timestamp) (key : string) : M (option SessionObj) :=
  fun w =>
    match redis w with
    | None => (Throw redis_is_null, w)
    | Some r =>
        if rejects r (GET key) then (Throw redis_rejected, w)
        else match entries r !! key with
             | Some (value, deadline) =>
                 (Ok (if now <? deadline then Some value else None), w)
             | None => (Ok None, w)
             end
    end.

(** [await redis.setex(key, seconds, JSON.stringify(value))] *)
Definition redis_setex (now : Timestamp) (key : string) (seconds : Z)
    (value : SessionObj) : M unit :=
  fun w =>
    match redis w with
    | None => (Throw redis_is_null, w)
    | Some r =>
        if rejects r (SETEX key seconds value) then (Throw redis_rejected, w)
        else (Ok tt,
              set_redis (fun _ =>
                Some (mkRedis (<[key := (value, now + seconds * 1000)]> (entries r))
                        (rejects r))) w)
    end.

(** [await redis.del(key)] *)
Definition redis_del (key : string) : M unit :=
  fun w =>
    match redis w with
    | None => (Throw redis_is_null, w)
    | Some r =>
        if rejects r (DEL key) then (Throw redis_rejected, w)
        else (Ok tt,
              set_redis (fun _ =>
                Some (mkRedis (delete key (entries r)) (rejects r))) w)
    end.

(** [await Promise.all(keys.map(key => redis.del(key)))]: every command is
    issued before any is awaited, so the accepted ones take effect even when
    another one is rejected. *)
Definition redis_del_all (keys : list string) : M unit :=
  fun w =>
    match redis w with
    | None => (Throw redis_is_null, w)
    | Some r =>
        let accepted := List.filter (fun key => negb (rejects r (DEL key))) keys in
        let w' :=
          set_redis (fun _ =>
            Some (mkRedis (fold_right delete (entries r) accepted) (rejects r))) w in
        if forallb (fun key => negb (rejects r (DEL key))) keys
        then (Ok tt, w') else (Throw redis_rejected, w')
    end.

(** [if (redis)] *)
Definition redis_configured (w : World) : bool :=
  match redis w with Some _ => true | None => false end.

(** ** The [user_sessions] table *)

Definition with_session_is_active (b : bool) (s : SessionRow) : SessionRow :=
  mkSession (s_id s) (s_user_id s) (s_session_token s) (s_refresh_token s)
    (s_device_info s) (s_ip_address s) (s_user_agent s) (s_created_at s)
    (s_last_accessed s) (s_expires_at s) b (s_is_remembered s) (s_force_logout s).

(** [INSERT INTO user_sessions (...) VALUES (...) RETURNING *].  The id is
    drawn from the sequence whether or not the row goes in; the columns not
    listed take their defaults. *)
Definition insert_user_session (now : Timestamp) (user_id : Z)
    (session_token refresh_token device_info : string)
    (ip_address user_agent : option string) (expires_at : Timestamp)
    (is_remembered : bool) : M SessionRow :=
  fun w =>
    let id := user_sessions_id_seq w in
    let w := set_user_sessions_id_seq Z.succ w in
    if existsb (fun s => String.eqb (s_session_token s) session_token) (user_sessions w)
    then (Throw (PgError unique_violation "user_sessions_session_token_key"), w)
    else if existsb (fun s => opt_string_eqb (s_refresh_token s) refresh_token) (user_sessions w)
    then (Throw (PgError unique_violation "user_sessions_refresh_token_key"), w)
    else if negb (user_exists user_id w)
    then (Throw (PgError foreign_key_violation "user_sessions_user_id_fkey"), w)
    else
      let row :=
        mkSession id user_id session_token (Some refresh_token) device_info
          ip_address user_agent now now expires_at true is_remembered false in
      (Ok row, set_user_sessions (fun rows => (rows ++ [row])%list) w).

(** ** [services/tokenService.js] *)

(** The [refresh_token] handed to [createSession]: the [{token, hash}] pair
    of [generateRefreshToken], or a bare string. *)
Inductive RefreshToken :=
| RefreshPair (token hash : string)
| RefreshString (s : string).

Record SessionData := mkSessionData {
  sd_user_id : Z;
  sd_access_token : string;
  sd_refresh_token : RefreshToken;
  sd_device_info : string;
  sd_ip_address : option string;
  sd_user_agent : option string;
  sd_is_remembered : bool
}.

Definition invoke {A B} (name : string) (method : option (A -> M B)) (arg : A)
    : M B :=
  match method with
  | Some f => f arg
  | None => throw (TypeError (name +:+ " is not a function"))
  end.

Module TokenService.
Section Methods.
Context `{Crypto}.

Definition session_key (token : string) : string := "session:" +:+ token.

(** [refresh_token.token || refresh_token]: the [token] of a pair unless it
    is the empty string, in which case the pair itself, which is no string. *)
Definition digest_input (refresh_token : RefreshToken) : option string :=
  match refresh_token with
  | RefreshPair "" _ => None
  | RefreshPair token _ => Some token
  | RefreshString s => Some s
  end.

Definition createSession (now : Timestamp) (sessionData : SessionData)
    : M SessionRow :=
  logged "Error creating session:" (
    let access_token := sd_access_token sessionData in
    let is_remembered := sd_is_remembered sessionData in
    let expirationHours := if is_remembered then 24 * 30 else 24 in
    let expiresAt := now + expirationHours * 60 * 60 * 1000 in
    let* refreshTokenHash :=
      match digest_input (sd_refresh_token sessionData) with
      | Some data => ret (sha256_hex data)
      | None => throw (TypeError "The data argument must be of type string")
      end in
    let* row :=
      insert_user_session now (sd_user_id sessionData) access_token
        refreshTokenHash (sd_device_info sessionData)
        (sd_ip_address sessionData) (sd_user_agent sessionData)
        expiresAt is_remembered in
    let* w := get_world in
    (if redis_configured w then
       redis_setex now (session_key access_token) (expirationHours * 3600)
         (Compact (s_id row) (s_user_id row) true (s_expires_at row))
     else ret tt) ;;
    ret row).

(** The [WHERE] clause of the Ledger query of [findSessionByToken]. *)
Definition ledger_match (now : Timestamp) (token : string) (s : SessionRow) : bool :=
  String.eqb (s_session_token s) token
  && s_is_active s
  && (now <? s_expires_at s)
  && negb (s_force_logout s).

Definition findSessionByToken (now : Timestamp) (token : string)
    : M (option SessionObj) :=
  logged "Error finding session by token:" (
    let* w := get_world in
    let* hit :=
      if redis_configured w then
        let* cachedSession := redis_get now (session_key token) in
        match cachedSession with
        | Some session =>
            if (now <? obj_expires_at session) && obj_is_active session
            then ret (Some session) else ret None
        | None => ret None
        end
      else ret None in
    match hit with
    | Some session => ret (Some session)
    | None =>
        match List.filter (ledger_match now token) (user_sessions w) with
        | [] => ret None
        | session :: _ =>
            (if redis_configured w then
               let expirationSeconds := (s_expires_at session - now) / 1000 in
               redis_setex now (session_key token) expirationSeconds (FullRow session)
             else ret tt) ;;
            ret (Some (FullRow session))
        end
    end).

Definition invalidateSession (sessionId : Z) : M unit :=
  logged "Error invalidating session:" (
    let* w := get_world in
    let sessionResult := List.filter (fun s => s_id s =? sessionId) (user_sessions w) in
    modify (set_user_sessions (map (fun s =>
      if s_id s =? sessionId then with_session_is_active false s else s))) ;;
    match sessionResult with
    | row :: _ =>
        if redis_configured w then redis_del (session_key (s_session_token row))
        else ret tt
    | [] => ret tt
    end).

Definition invalidateAllUserSessions (userId : Z) : M unit :=
  logged "Error invalidating all user sessions:" (
    let* w := get_world in
    let sessionsResult :=
      List.filter (fun s => (s_user_id s =? userId) && s_is_active s) (user_sessions w) in
    modify (set_user_sessions (map (fun s =>
      if s_user_id s =? userId then with_session_is_active false s else s))) ;;
    if redis_configured w then
      redis_del_all (map (fun row => session_key (s_session_token row)) sessionsResult)
    else ret tt).

(** [id != $2]: with [exceptSessionId] null or undefined the comparison is
    unknown and selects no row. *)
Definition id_differs (exceptSessionId : option Z) (s : SessionRow) : bool :=
  match exceptSessionId with
  | Some except => negb (s_id s =? except)
  | None => false
  end.

Definition invalidateAllUserSessionsExcept (userId : Z)
    (exceptSessionId : option Z) : M unit :=
  logged "Error invalidating user sessions except one:" (
    let* w := get_world in
    let sessionsResult :=
      List.filter (fun s => (s_user_id s =? userId) && s_is_active s
                            && id_differs exceptSessionId s) (user_sessions w) in
    modify (set_user_sessions (map (fun s =>
      if (s_user_id s =? userId) && id_differs exceptSessionId s
      then with_session_is_active false s else s))) ;;
    if redis_configured w then
      redis_del_all (map (fun row => session_key (s_session_token row)) sessionsResult)
    else ret tt).

(** [generateRefreshToken]; [refreshToken] is the draw of
    [crypto.randomBytes(64).toString('hex')]. *)
Definition generateRefreshToken (refreshToken : string) : M RefreshToken :=
  logged "Error generating refresh token:" (
    let tokenHash := sha256_hex refreshToken in
    ret (RefreshPair refreshToken tokenHash)).

Definition verifyRefreshToken (now : Timestamp) (refreshToken : string)
    : M (option SessionRow) :=
  logged "Error verifying refresh token:" (
    let tokenHash := sha256_hex refreshToken in
    let* w := get_world in
    ret (head (List.filter
                 (fun s => opt_string_eqb (s_refresh_token s) tokenHash
                           && s_is_active s
                           && (now <? s_expires_at s))
                 (user_sessions w)))).

(** [expires_at < CURRENT_TIMESTAMP OR force_logout = TRUE] *)
Definition cleanup_match (now : Timestamp) (s : SessionRow) : bool :=
  (s_expires_at s <? now) || s_force_logout s.

(** [DELETE FROM user_sessions WHERE ...], resolving to its [rowCount].
    [audit_logs.session_id] references [user_sessions (id)] with no action:
    a row that an audit record points to cannot go, and then none goes. *)
Definition delete_from_user_sessions (where_ : SessionRow -> bool) : M Z :=
  let* w := get_world in
  let doomed := List.filter where_ (user_sessions w) in
  if existsb (fun a =>
       match a_session_id a with
       | Some sid => existsb (fun s => s_id s =? sid) doomed
       | None => false
       end) (audit_logs w)
  then throw (PgError foreign_key_violation "audit_logs_session_id_fkey")
  else
    modify (set_user_sessions (List.filter (fun s => negb (where_ s)))) ;;
    ret (Z.of_nat (length doomed)).

(** The count is also written with [console.log], which is not kept. *)
Definition cleanupExpiredSessions (now : Timestamp) : M Z :=
  logged "Error cleaning up expired sessions:" (
    let* w := get_world in
    let expiredSessions := List.filter (cleanup_match now) (user_sessions w) in
    let* rowCount := delete_from_user_sessions (cleanup_match now) in
    (match expiredSessions with
     | _ :: _ =>
         if redis_configured w then
           redis_del_all (map (fun row => session_key (s_session_token row)) expiredSessions)
         else ret tt
     | [] => ret tt
     end) ;;
    ret rowCount).

(** The members of the class are [generateAccessToken],
    [generateRefreshToken], [createSession], [findSessionByToken],
    [verifyRefreshToken], [updateSessionLastAccessed], [invalidateSession],
    [invalidateAllUserSessions], [invalidateAllUserSessionsExcept],
    [cleanupExpiredSessions] and [getUserSessions]; reading any other
    property of it gives [undefined]. *)
Definition findSessionByUserId : option (Z -> M (option SessionObj)) := None.

End Methods.
End TokenService.

(** ** [services/authService.js] *)

Module AuthService.
Section Methods.
Context `{Crypto}.

Definition audit (user_id : option Z) (event_type : string) (success : bool)
    (error_message : option string) : AuditEvent :=
  mkAudit user_id None event_type "authentication" success error_message.

Definition resetPassword (now : Timestamp) (token newPassword : string)
    : M string :=
  try_catch
    (let* user := User.verifyPasswordResetToken now token in
     match user with
     | None => throw User.InvalidResetTokenError
     | Some user =>
         let* user := User.resetPassword now user newPassword token in
         TokenService.invalidateAllUserSessions (u_id user) ;;
         AuditService.logEvent
           (audit (Some (u_id user)) "password_reset_completed" true None) ;;
         ret "Password reset successful. Please log in with your new password."
     end)
    (fun error =>
       AuditService.logEvent
         (audit None "password_reset_failed" false (Some (error_message error))) ;;
       throw error).

Definition changePassword (now : Timestamp) (userId : Z)
    (currentPassword newPassword : string) : M string :=
  try_catch
    (let* user := User.findById userId in
     match user with
     | None => throw (Error "User not found")
     | Some user =>
         let* userWithPassword := User.findByEmail (u_email user) true in
         let* isValidCurrentPassword :=
           match userWithPassword with
           | None => throw (TypeError "Cannot read properties of null")
           | Some userWithPassword =>
               await_bcrypt_compare currentPassword (u_password_hash userWithPassword)
           end in
         if negb isValidCurrentPassword then
           throw (Error "Current password is incorrect")
         else
           let saltRounds := 12 in
           let newPasswordHash := bcrypt_hash newPassword saltRounds in
           update_users now (fun r => u_id r =? userId)
             (fun r => with_last_password_change (Some now)
                         (with_password_hash (Some newPasswordHash) r)) ;;
           let* currentSession :=
             invoke "tokenService.findSessionByUserId"
               TokenService.findSessionByUserId userId in
           TokenService.invalidateAllUserSessionsExcept userId
             (option_map obj_id currentSession) ;;
           AuditService.logEvent
             (audit (Some userId) "password_changed" true None) ;;
           ret "Password changed successfully"
     end)
    (fun error =>
       AuditService.logEvent
         (audit (Some userId) "password_change_failed" false
            (Some (error_message error))) ;;
       throw error).

Definition logout (now : Timestamp) (sessionToken : string) : M string :=
  logged "Logout error:" (
    let* session := TokenService.findSessionByToken now sessionToken in
    (match session with
     | Some session =>
         TokenService.invalidateSession (obj_id session) ;;
         AuditService.logEvent
           (mkAudit (Some (obj_user_id session)) (Some (obj_id session))
              "logout" "authentication" true None)
     | None => ret tt
     end) ;;
    ret "Logout successful").

End Methods.
End AuthService.

(** ** [controllers/roleController.js] *)

(** What the handler sends: the status code and the [success] and [error]
    members of the JSON body. *)
Record Response := mkResponse {
  status : Z;
  success : bool;
  error : option string
}.

Module RoleController.

(** The Joi schema of [updateRole]: [name] of 2 to 100 characters,
    [description] of 1 to 500, all keys optional. *)
Definition valid_update (value : RoleUpdate) : bool :=
  match upd_name value with
  | Some n => (2 <=? Z.of_nat (String.length n)) && (Z.of_nat (String.length n) <=? 100)
  | None => true
  end
  && match upd_description value with
     | Some d => (1 <=? Z.of_nat (String.length d)) && (Z.of_nat (String.length d) <=? 500)
     | None => true
     end.

Definition admin_event (user_id : Z) (event_type : string) : AuditEvent :=
  mkAudit (Some user_id) None event_type "admin" true None.

(** [roleId] is [parseInt(req.params.roleId)], [None] for [NaN];
    [body] is [req.body]; [req_user_id] is [req.user.id]. *)
Definition updateRole (now : Timestamp) (roleId : option Z) (body : RoleUpdate)
    (req_user_id : Z) : M Response :=
  try_catch
    (match roleId with
     | None => ret (mkResponse 400 false (Some "Invalid role ID"))
     | Some roleId =>
         if negb (valid_update body) then
           ret (mkResponse 400 false (Some "Validation failed"))
         else
           let* role := Role.findById roleId in
           match role with
           | None => ret (mkResponse 404 false (Some "Role not found"))
           | Some role =>
               if r_is_system_role role then
                 ret (mkResponse 403 false (Some "Cannot modify system role"))
               else
                 let* existingRole :=
                   match upd_name body with
                   | Some name =>
                       if negb (String.eqb name "") && negb (String.eqb name (r_name role))
                       then Role.findByName name else ret None
                   | None => ret None
                   end in
                 match existingRole with
                 | Some _ => ret (mkResponse 409 false (Some "Role name already exists"))
                 | None =>
                     Role.update now role body (Some req_user_id) ;;
                     AuditService.logEvent (admin_event req_user_id "role_updated") ;;
                     ret (mkResponse 200 true None)
                 end
           end
     end)
    (fun error =>
       console_error "Error updating role:" error ;;
       ret (mkResponse 500 false (Some "Failed to update role"))).

Definition deleteRole (roleId : option Z) (req_user_id : Z) : M Response :=
  try_catch
    (match roleId with
     | None => ret (mkResponse 400 false (Some "Invalid role ID"))
     | Some roleId =>
         let* role := Role.findById roleId in
         match role with
         | None => ret (mkResponse 404 false (Some "Role not found"))
         | Some role =>
             if r_is_system_role role then
               ret (mkResponse 403 false (Some "Cannot delete system role"))
             else
               let* deleted := Role.delete role in
               if negb deleted then
                 ret (mkResponse 400 false
                        (Some "Role cannot be deleted (may have assigned users)"))
               else
                 AuditService.logEvent (admin_event req_user_id "role_deleted") ;;
                 ret (mkResponse 200 true None)
         end
     end)
    (fun error =>
       console_error "Error deleting role:" error ;;
       ret (mkResponse 500 false (Some "Failed to delete role"))).

End RoleController.

(** ** [models/Permission.js] *)

(** [permissionData] with the default [category = 'general'] applied. *)
Record PermissionData := mkPermissionData {
  pd_name : string;
  pd_resource : string;
  pd_action : string;
  pd_category : string
}.

Module Permission.

Definition findById (id : Z) : M (option PermissionRow) :=
  logged "Error finding permission by ID:" (
    let* w := get_world in
    ret (head (List.filter (fun p => p_id p =? id) (permissions w)))).

Definition findByName (name : string) : M (option PermissionRow) :=
  logged "Error finding permission by name:" (
    let* w := get_world in
    ret (head (List.filter (fun p => String.eqb (p_name p) name) (permissions w)))).

(** [id] is the value the insert draws from the id sequence.  [name] and
    [resource] are [VARCHAR(100)], [action] and [category] [VARCHAR(50)]. *)
Definition create (id : Z) (permissionData : PermissionData)
    (createdBy : option Z) : M PermissionRow :=
  let* w := get_world in
  if negb (fits_varchar 100 (pd_name permissionData)
           && fits_varchar 100 (pd_resource permissionData))
  then throw (value_too_long "100")
  else if negb (fits_varchar 50 (pd_action permissionData)
                && fits_varchar 50 (pd_category permissionData))
  then throw (value_too_long "50")
  else if existsb (fun p => (p_id p =? id) || String.eqb (p_name p) (pd_name permissionData))
            (permissions w)
  then throw (Error "Permission name already exists")
  else if negb (user_ref_ok createdBy w)
  then throw (PgError foreign_key_violation "permissions_created_by_fkey")
  else
    let row :=
      mkPermission id (pd_name permissionData) (pd_resource permissionData)
        (pd_action permissionData) (Some (pd_category permissionData)) false in
    modify (fun w =>
      mkWorld (users w) (roles w) (permissions w ++ [row])%list (role_permissions w)
        (user_roles w) (user_sessions w) (user_sessions_id_seq w) (audit_logs w)
        (redis w) (console w) (bcrypt_compares w)) ;;
    ret row.

Definition SystemPermissionError : JsError := Error "Cannot delete system permission".

(** [DELETE FROM permissions WHERE id = $1]; [role_permissions] cascades. *)
Definition delete (this : PermissionRow) : M bool :=
  logged "Error deleting permission:" (
    if p_is_system_permission this then throw SystemPermissionError
    else
      modify (fun w =>
        mkWorld (users w) (roles w)
          (List.filter (fun p => negb (p_id p =? p_id this)) (permissions w))
          (List.filter (fun rp => negb (rp_permission_id rp =? p_id this))
             (role_permissions w))
          (user_roles w) (user_sessions w) (user_sessions_id_seq w) (audit_logs w)
          (redis w) (console w) (bcrypt_compares w)) ;;
      ret true).

End Permission.

(** ** [services/twoFactorService.js] *)

Module TwoFactorService.
Section BackupCodes.

(** [String.prototype.toUpperCase] *)
Variable toUpperCase : string -> string.

(** [array.indexOf(x)], [None] for -1 *)
Fixpoint indexOf (array : list string) (x : string) : option nat :=
  match array with
  | [] => None
  | y :: rest =>
      if String.eqb y x then Some O
      else option_map S (indexOf rest x)
  end.

(** [array.splice(index, 1)]: the array as the call leaves it *)
Fixpoint splice1 (array : list string) (index : nat) : list string :=
  match array, index with
  | [], _ => []
  | _ :: rest, O => rest
  | y :: rest, S index => y :: splice1 rest index
  end.

(** Resolves to the answer and to [storedCodes] as the call leaves the
    array, which it changes in place. *)
Definition verifyBackupCode (storedCodes : list string) (providedCode : string)
    : bool * list string :=
  match indexOf storedCodes (toUpperCase providedCode) with
  | Some index => (true, splice1 storedCodes index)
  | None => (false, storedCodes)
  end.

End BackupCodes.
End TwoFactorService.

(** ** [middleware/authorization.js] *)

(** What the middleware reads of the request: [req.user], whether
    [req.user.permissions] is set, and [req.session?.id]. *)
Record Request := mkRequest {
  req_user : option UserRow;
  req_user_has_permissions : bool;
  req_session_id : option Z
}.

(** A middleware either calls [next()] or sends a response. *)
Inductive Outcome :=
| Next
| Respond (response : Response).

Module Authorization.

Definition denied (user_id : option Z) (session_id : option Z)
    (event_type message : string) : AuditEvent :=
  mkAudit user_id session_id event_type "authorization" false (Some message).

(** [User.findById(req.user.id, true)].  The roles and permissions it
    attaches to the user are read by the middleware for the audit metadata
    only, which [AuditEvent] leaves out. *)
Definition reload (req : Request) (user : UserRow) : M (option UserRow) :=
  if req_user_has_permissions req then ret (Some user)
  else User.findById (u_id user).

Definition requirePermission (now : Timestamp) (permissionName : string)
    (logSuccess : bool) (req : Request) : M Outcome :=
  try_catch
    (match req_user req with
     | None => ret (Respond (mkResponse 401 false (Some "Authentication required")))
     | Some user =>
         let* user := reload req user in
         match user with
         | None => ret (Respond (mkResponse 401 false (Some "User not found")))
         | Some user =>
             let* hasPermission := User.hasPermission now user permissionName in
             if negb hasPermission then
               AuditService.logEvent
                 (denied (Some (u_id user)) (req_session_id req) "authorization_denied"
                    ("Missing permission: " +:+ permissionName)) ;;
               ret (Respond (mkResponse 403 false (Some "Insufficient permissions")))
             else
               (if logSuccess then
                  AuditService.logEvent
                    (mkAudit (Some (u_id user)) (req_session_id req)
                       "authorization_granted" "authorization" true None)
                else ret tt) ;;
               ret Next
         end
     end)
    (fun error =>
       console_error "Authorization middleware error:" error ;;
       AuditService.logEvent
         (denied (option_map u_id (req_user req)) None "authorization_error"
            (error_message error)) ;;
       ret (Respond (mkResponse 500 false (Some "Authorization check failed")))).

(** [permissions.join(', ')] *)
Fixpoint join (permissions : list string) : string :=
  match permissions with
  | [] => ""
  | [p] => p
  | p :: rest => p +:+ ", " +:+ join rest
  end.

(** [await Promise.all(permissions.map(permission => user.hasPermission(permission)))] *)
Fixpoint hasPermissions (now : Timestamp) (user : UserRow) (permissions : list string)
    : M (list bool) :=
  match permissions with
  | [] => ret []
  | permission :: rest =>
      let* answer := User.hasPermission now user permission in
      let* answers := hasPermissions now user rest in
      ret (answer :: answers)
  end.

Definition null_user : JsError := TypeError "Cannot read properties of null".

Definition requireAnyPermission (now : Timestamp) (permissions : list string)
    (req : Request) : M Outcome :=
  try_catch
    (match req_user req with
     | None => ret (Respond (mkResponse 401 false (Some "Authentication required")))
     | Some user =>
         let* user := reload req user in
         let* hasAnyPermission :=
           match user, permissions with
           | None, _ :: _ => throw null_user
           | None, [] => ret []
           | Some user, _ => hasPermissions now user permissions
           end in
         if negb (existsb (fun answer => answer) hasAnyPermission) then
           match user with
           | None => throw null_user
           | Some user =>
               AuditService.logEvent
                 (denied (Some (u_id user)) None "authorization_denied"
                    ("Missing any of permissions: " +:+ join permissions)) ;;
               ret (Respond (mkResponse 403 false (Some "Insufficient permissions")))
           end
         else ret Next
     end)
    (fun error =>
       console_error "Multiple permission check error:" error ;;
       ret (Respond (mkResponse 500 false (Some "Permission verification failed")))).

End Authorization.

(** ** [controllers/userController.js] *)

Module UserController.

(** [userId] is [parseInt(req.params.userId)], [None] for [NaN], which the
    database refuses as an integer. *)
Definition find_user (userId : option Z) : M (option UserRow) :=
  match userId with
  | Some id => User.findById id
  | None =>
      logged "Error finding user by ID:"
        (throw (PgError "22P02" "invalid input syntax for type integer"))
  end.

Definition forceLogout (userId : option Z) (req_user_id : Z) : M Response :=
  try_catch
    (let* user := find_user userId in
     match user with
     | None => ret (mkResponse 404 false (Some "User not found"))
     | Some user =>
         TokenService.invalidateAllUserSessions (u_id user) ;;
         AuditService.logEvent
           (mkAudit (Some req_user_id) None "force_logout" "admin" true None) ;;
         ret (mkResponse 200 true None)
     end)
    (fun error =>
       console_error "Error forcing logout:" error ;;
       ret (mkResponse 500 false (Some "Failed to terminate user sessions"))).

End UserController.

(** * Specification *)

(** ** A concrete instance of the primitives, for the closed examples *)

Definition toy_crypto : Crypto := {|
  bcrypt_hash := fun plain _ => "$2a$" +:+ plain;
  bcrypt_compare := fun plain hash => String.eqb ("$2a$" +:+ plain) hash;
  sha256_hex := fun data => "sha256:" +:+ data
|}.

Definition empty_world : World :=
  mkWorld [] [] [] [] [] [] 1 [] None [] [].

(** A registered user who has never failed a login, and one whose 30-minute
    lock, set at the seventh failure, has run out by the instant 5000000. *)
Definition alice : UserRow :=
  mkUser 7 "alice@example.org" (Some "$2a$correct horse") None None None
    0 None None true 0.
Definition carol : UserRow :=
  mkUser 9 "carol@example.org" (Some "$2a$tr0ub4dor") None None None
    7 (Some 2000000) None true 200000.
Definition two_users : World := set_users (fun _ => [alice; carol]) empty_world.

(** ** The lockout policy, in the words of the specification *)

(** How the row [r] of the user [id] reads once a failed attempt has been
    recorded at [now] ([r'] is the row afterwards); other rows stay. *)
Definition after_failed_attempt (now : Timestamp) (id : Z) (r r' : UserRow) : Prop :=
  if u_id r =? id then
    u_failed_login_attempts r' = u_failed_login_attempts r + 1
    /\ (u_failed_login_attempts r' < 5 ->
        u_account_locked_until r' = u_account_locked_until r)
    /\ (5 <= u_failed_login_attempts r' < 10 ->
        u_account_locked_until r' = Some (now + minutes 30))
    /\ (10 <= u_failed_login_attempts r' < 15 ->
        u_account_locked_until r' = Some (now + hours 1))
    /\ (15 <= u_failed_login_attempts r' ->
        u_account_locked_until r' = Some (now + hours 24))
  else r' = r.

(** The count of the user [id] can still be raised: it is below the largest
    [INTEGER]. *)
Definition counter_can_rise (id : Z) (w : World) : Prop :=
  forall r, In r (users w) -> u_id r = id -> u_failed_login_attempts r < int4_max.

(** How the row reads after a successful authentication. *)
Definition after_success (id : Z) (r r' : UserRow) : Prop :=
  if u_id r =? id then
    u_failed_login_attempts r' = 0 /\ u_account_locked_until r' = None
  else r' = r.

(** ** Permission resolution, in the words of the specification *)

(** An assignment is effective when it is active and has not expired. *)
Definition effective (now : Timestamp) (ur : UserRoleRow) : Prop :=
  ur_is_active ur = true
  /\ (ur_expires_at ur = None
      \/ exists expires, ur_expires_at ur = Some expires /\ now < expires).

(** Some effective assignment of the user is to a role with a granted edge
    to the permission of that name. *)
Definition granted_through_a_role (now : Timestamp) (user_id : Z)
    (permissionName : string) (w : World) : Prop :=
  exists ur rp p,
    In ur (user_roles w) /\ ur_user_id ur = user_id /\ effective now ur
    /\ In rp (role_permissions w) /\ rp_role_id rp = ur_role_id ur
    /\ rp_granted rp = true
    /\ In p (permissions w) /\ p_id p = rp_permission_id rp
    /\ p_name p = permissionName.

(** The rows of [user_roles] for one (user, role) pair. *)
Definition same_pair (user_id role_id : Z) (ur : UserRoleRow) : bool :=
  (ur_user_id ur =? user_id) && (ur_role_id ur =? role_id).

(** A role hierarchy in which only the parent is granted a permission, and a
    user assigned to the child alone. *)
Definition hierarchy_world : World :=
  mkWorld [alice]
    [mkRole 1 "Editor" None false false None 0 0 None;
     mkRole 2 "Junior Editor" None false false (Some 1) 1 0 None]
    [mkPermission 30 "content.update" "content" "update" (Some "content") false]
    [mkRolePermission 1 30 true None]
    [mkUserRole 7 2 0 None None true]
    [] 1 [] None [] [].

(** A role that is not a system role, whose one assignment is active but
    ran out at the instant 500. *)
Definition expired_assignment_world : World :=
  mkWorld [alice]
    [mkRole 20 "Reviewer" None false false None 0 0 None]
    [] []
    [mkUserRole 7 20 0 None (Some 500) true]
    [] 1 [] None [] [].

(** ** Sessions, in the words of the specification *)

(** A session is valid when it is active, not force-logged-out, and expires
    in the future. *)
Definition session_valid (now : Timestamp) (s : SessionRow) : bool :=
  s_is_active s && negb (s_force_logout s) && (now <? s_expires_at s).

(** [UNIQUE (session_token)] *)
Definition session_tokens_unique (w : World) : Prop :=
  forall s1 s2,
    In s1 (user_sessions w) -> In s2 (user_sessions w) ->
    s_session_token s1 = s_session_token s2 -> s1 = s2.

(** Every cache entry that says "active" stands for a Ledger row that is. *)
Definition cache_coherent (w : World) : Prop :=
  forall r token value deadline,
    redis w = Some r ->
    entries r !! TokenService.session_key token = Some (value, deadline) ->
    obj_is_active value = true ->
    exists s, In s (user_sessions w)
              /\ s_session_token s = token /\ s_is_active s = true.

(** The same, seen from one user: no session of the user that the Ledger
    has as inactive is cached as active. *)
Definition cache_faithful_to (user_id : Z) (w : World) : Prop :=
  forall r s value deadline,
    redis w = Some r ->
    In s (user_sessions w) -> s_user_id s = user_id ->
    entries r !! TokenService.session_key (s_session_token s) = Some (value, deadline) ->
    obj_is_active value = true ->
    s_is_active s = true.

(** The cache, if there is one, turns no command down. *)
Definition cache_healthy (w : World) : Prop :=
  forall r cmd, redis w = Some r -> rejects r cmd = false.

(** [u] is the one row that stores [token] as its reset token, and the
    token has not expired at [now]. *)
Definition holds_reset_token (now : Timestamp) (token : string) (u : UserRow)
    (w : World) : Prop :=
  List.filter (fun r => opt_string_eqb (u_password_reset_token r) token) (users w) = [u]
  /\ exists expires, u_password_reset_expires u = Some expires /\ now < expires.

(** A cache that accepts everything, and one that turns down every write. *)
Definition accept_all : RedisCmd -> bool := fun _ => false.
Definition reject_writes : RedisCmd -> bool :=
  fun cmd => match cmd with SETEX _ _ _ => true | _ => false end.

Definition with_cache (rejects : RedisCmd -> bool) (w : World) : World :=
  set_redis (fun _ => Some (mkRedis ∅ rejects)) w.

Definition alice_login : SessionData :=
  mkSessionData 7 "tok-alice" (RefreshString "refresh-alice") "{}" None None false.

(** Alice logs in at the instant 0 with the cache on; then the row of her
    session has [force_logout] set in the Ledger, behind the service's
    back, which is the only way the column is ever set. *)
Definition force_logged_out_world : World :=
  set_user_sessions
    (map (fun s =>
       mkSession (s_id s) (s_user_id s) (s_session_token s) (s_refresh_token s)
         (s_device_info s) (s_ip_address s) (s_user_agent s) (s_created_at s)
         (s_last_accessed s) (s_expires_at s) (s_is_active s) (s_is_remembered s)
         true))
    (exec (@TokenService.createSession toy_crypto 0 alice_login)
       (with_cache accept_all two_users)).

Section SessionCreation.
Context `{Crypto}.

(** The [INSERT] that [createSession now sessionData] issues, given the
    string [data] it digests. *)
Definition ledger_insert (now : Timestamp) (sessionData : SessionData)
    (data : string) : M SessionRow :=
  insert_user_session now (sd_user_id sessionData) (sd_access_token sessionData)
    (sha256_hex data) (sd_device_info sessionData) (sd_ip_address sessionData)
    (sd_user_agent sessionData)
    (now + (if sd_is_remembered sessionData then 24 * 30 else 24) * 60 * 60 * 1000)
    (sd_is_remembered sessionData).

(** The cache write that follows it. *)
Definition cache_write (sessionData : SessionData) (row : SessionRow) : RedisCmd :=
  SETEX (TokenService.session_key (sd_access_token sessionData))
    ((if sd_is_remembered sessionData then 24 * 30 else 24) * 3600)
    (Compact (s_id row) (s_user_id row) true (s_expires_at row)).

End SessionCreation.

(** ** Auxiliary notions of the proofs *)

(** No other role names [id] as its parent. *)
Definition childless (id : Z) (w : World) : Prop :=
  existsb (fun r => negb (r_id r =? id)
                    && match r_parent_role_id r with
                       | Some parent => parent =? id
                       | None => false
                       end) (roles w) = false.

Definition findSessionByUserId_missing : JsError :=
  TypeError "tokenService.findSessionByUserId is not a function".

(** How the user's row reads once [changePassword] has stored the hash of
    the new password; other rows stay. *)
Definition password_changed `{Crypto} (userId : Z) (newPassword : string)
    (r r' : UserRow) : Prop :=
  if u_id r =? userId
  then u_password_hash r' = Some (bcrypt_hash newPassword 12)
  else r' = r.

(** The sessions of [userId] that are active, whose cache keys
    [invalidateAllUserSessions] deletes. *)
Definition active_sessions_of (userId : Z) (w : World) : list SessionRow :=
  List.filter (fun s => (s_user_id s =? userId) && s_is_active s) (user_sessions w).

Definition deactivate_sessions_of (userId : Z) (s : SessionRow) : SessionRow :=
  if s_user_id s =? userId then with_session_is_active false s else s.

Section PasswordReset.
Context `{Crypto}.

(** The [UPDATE] of [User.resetPassword], trigger included, on the rows of
    the user [id]. *)
Definition reset_row (now : Timestamp) (newPassword : string) (id : Z)
    (r : UserRow) : UserRow :=
  if u_id r =? id
  then before_update_users now
         (with_account_locked_until None
            (with_failed_login_attempts 0
               (with_last_password_change (Some now)
                  (with_password_reset None None
                     (with_password_hash (Some (bcrypt_hash newPassword 12)) r)))))
  else r.

End PasswordReset.

(** Alice, logged in at the instant 0 and cached, asks for a password reset
    at the instant 500 and is sent the token "reset-123". *)
Definition alice_session : SessionRow :=
  mkSession 1 7 "tok-alice" (Some "sha256:refresh-alice") "{}" None None
    0 0 86400000 true false false.
Definition reset_pending_world : World :=
  mkWorld
    [mkUser 7 "alice@example.org" (Some "$2a$correct horse") (Some "reset-123")
       (Some 3600500) None 0 None None true 500;
     carol]
    [] [] [] [] [alice_session] 2 []
    (Some (mkRedis
             (<[TokenService.session_key "tok-alice" :=
                  (Compact 1 7 true 86400000, 86400000)]> ∅)
             accept_all))
    [] [].

(** A cache that turns every deletion down, and the cache taking every
    command again, its entries as they were. *)
Definition reject_deletes : RedisCmd -> bool :=
  fun cmd => match cmd with DEL _ => true | _ => false end.
Definition with_oracle (rejects : RedisCmd -> bool) (w : World) : World :=
  set_redis (option_map (fun r => mkRedis (entries r) rejects)) w.

(** Alice, with her reset pending, logs out at the instant 600 while the
    cache turns deletions down; later the cache takes every command again. *)
Definition failed_logout_world : World :=
  with_oracle accept_all
    (exec (AuthService.logout 600 "tok-alice")
       (with_oracle reject_deletes reset_pending_world)).

(** ** Scenarios *)

(** [r] is the one row with its id and the one row with its e-mail address,
    as the primary key and [UNIQUE (email)] have it. *)
Definition only_row (r : UserRow) (w : World) : Prop :=
  List.filter (fun x => u_id x =? u_id r) (users w) = [r]
  /\ List.filter (fun x => String.eqb (u_email x) (u_email r)) (users w) = [r].

(** The object [this] was loaded from the row [r] and kept in step with it. *)
Definition loaded_from (r this : UserRow) : Prop :=
  u_id this = u_id r
  /\ u_email this = u_email r
  /\ u_failed_login_attempts this = u_failed_login_attempts r
  /\ u_account_locked_until this = u_account_locked_until r.

Section Scenarios.
Context `{Crypto}.

(** Password attempts in turn on one [User] object, each at its own instant;
    resolves to the object as the last attempt leaves it. *)
Fixpoint attempts (this : UserRow) (tries : list (Timestamp * string)) : M UserRow :=
  match tries with
  | [] => ret this
  | (now, plain) :: tries =>
      let* r := User.verifyPassword now this plain in
      attempts (fst r) tries
  end.

(** The same, with every one of them expected to be thrown out: the object
    is as before each time. *)
Fixpoint rejected_attempts (this : UserRow) (tries : list (Timestamp * string))
    (w : World) : World :=
  match tries with
  | [] => w
  | (now, plain) :: tries =>
      rejected_attempts this tries (exec (User.verifyPassword now this plain) w)
  end.

End Scenarios.

(** ** Notions of the further properties *)

(** The primary key of [user_sessions]. *)
Definition session_ids_unique (w : World) : Prop :=
  forall s1 s2,
    In s1 (user_sessions w) -> In s2 (user_sessions w) ->
    s_id s1 = s_id s2 -> s1 = s2.

(** How long a session lives: 30 days when remembered, one day otherwise. *)
Definition lifetime (sessionData : SessionData) : Z :=
  if sd_is_remembered sessionData then hours (24 * 30) else hours 24.

(** The [UPDATE] of [invalidateSession]. *)
Definition deactivate_session (sessionId : Z) (s : SessionRow) : SessionRow :=
  if s_id s =? sessionId then with_session_is_active false s else s.

(** No audit record points to a session that the sweep at [now] would
    delete. *)
Definition sweep_unreferenced (now : Timestamp) (w : World) : Prop :=
  forall a sid s,
    In a (audit_logs w) -> a_session_id a = Some sid ->
    In s (user_sessions w) -> s_id s = sid ->
    TokenService.cleanup_match now s = false.

(** How a session row reads after "log out everywhere but [keep]" for the
    user [user_id]. *)
Definition after_logout_others (user_id keep : Z) (s s' : SessionRow) : Prop :=
  if (s_user_id s =? user_id) && negb (s_id s =? keep)
  then s' = with_session_is_active false s
  else s' = s.

(** The lock that [check_account_lockout] sets for a count of 5 or more. *)
Definition lock_window (failed_login_attempts : Z) : Z :=
  if failed_login_attempts <? 10 then minutes 30
  else if failed_login_attempts <? 15 then hours 1
  else hours 24.

(** No row of another user than [id] stores [token] as its reset token. *)
Definition token_unused_by_others (token : string) (id : Z) (w : World) : Prop :=
  forall x, In x (users w) -> u_id x <> id -> u_password_reset_token x <> Some token.

(** The user holds the role through an assignment in force at [now]. *)
Definition holds_role (now : Timestamp) (user_id role_id : Z) (w : World) : Prop :=
  exists ur,
    In ur (user_roles w) /\ ur_user_id ur = user_id /\ ur_role_id ur = role_id
    /\ effective now ur.

(** The role has a granted edge to a permission of that name. *)
Definition role_grants (role_id : Z) (permissionName : string) (w : World) : Prop :=
  exists rp p,
    In rp (role_permissions w) /\ rp_role_id rp = role_id /\ rp_granted rp = true
    /\ In p (permissions w) /\ p_id p = rp_permission_id rp
    /\ p_name p = permissionName.

(** The permission [id] is on record under that name. *)
Definition permission_named (id : Z) (permissionName : string) (w : World) : Prop :=
  exists p, In p (permissions w) /\ p_id p = id /\ p_name p = permissionName.

(** An expiry date that has not been reached at [now]; none is never reached. *)
Definition not_yet (now : Timestamp) (expiresAt : option Timestamp) : Prop :=
  match expiresAt with None => True | Some expires => now < expires end.

(** The role hierarchy as the schema and [Role.create] mean it: ids are
    the primary key, every parent named is on record, and a role sits one
    level below its parent. *)
Record hierarchy_sound (w : World) : Prop := {
  role_ids_unique :
    forall r1 r2, In r1 (roles w) -> In r2 (roles w) -> r_id r1 = r_id r2 -> r1 = r2;
  parents_on_record :
    forall r parent_role_id,
      In r (roles w) -> r_parent_role_id r = Some parent_role_id ->
      exists parent, In parent (roles w) /\ r_id parent = parent_role_id;
  levels_follow :
    forall r parent,
      In r (roles w) -> In parent (roles w) ->
      r_parent_role_id r = Some (r_id parent) -> r_level r = r_level parent + 1
}.


(** Neither the id nor the name is taken. *)
Definition role_is_new (id : Z) (name : string) (w : World) : Prop :=
  forall r, In r (roles w) -> r_id r <> id /\ r_name r <> name.

(** * Proofs *)

Ltac unfold_m :=
  unfold logged, console_error, try_catch, bind, ret, throw, get_world,
    modify, run, exec in *.

Lemma Forall2_map_same {A} (R : A -> A -> Prop) (g : A -> A) (l : list A) :
  (forall x, In x l -> R x (g x)) -> Forall2 R l (map g l).
Proof.
  induction l as [|x l IH]; intros HR; simpl; constructor.
  - apply HR. now left.
  - apply IH. intros y Hy. apply HR. now right.
Qed.

(** A map that leaves a test unchanged commutes with filtering by it. *)
Lemma filter_map_stable {A} (q : A -> bool) (g : A -> A) (l : list A) :
  (forall x, q (g x) = q x) ->
  List.filter q (map g l) = map g (List.filter q l).
Proof.
  intros Hq. induction l as [|x l IH]; simpl; [reflexivity|].
  rewrite Hq. destruct (q x); simpl; now rewrite IH.
Qed.

Section UserProofs.
Context `{Crypto}.

Lemma check_account_lockout_id now r :
  u_id (check_account_lockout now r) = u_id r.
Proof. unfold check_account_lockout. repeat case_match; reflexivity. Qed.

Lemma check_account_lockout_below now r :
  u_failed_login_attempts r < 5 -> check_account_lockout now r = r.
Proof.
  intros Hlt. unfold check_account_lockout.
  destruct (5 <=? u_failed_login_attempts r) eqn:E5; [lia|].
  destruct (10 <=? u_failed_login_attempts r) eqn:E10; [lia|].
  destruct (15 <=? u_failed_login_attempts r) eqn:E15; [lia|].
  reflexivity.
Qed.

Lemma counter_can_rise_check id w :
  existsb (fun r => (u_id r =? id) && (int4_max <? u_failed_login_attempts r + 1))
    (users w) = false
  <-> counter_can_rise id w.
Proof.
  unfold counter_can_rise. split.
  - intros Hnone r Hr Hid.
    destruct (int4_max <? u_failed_login_attempts r + 1) eqn:Hover;
      [exfalso|apply Z.ltb_ge in Hover; lia].
    assert (Hex : existsb (fun r => (u_id r =? id)
                                    && (int4_max <? u_failed_login_attempts r + 1))
                    (users w) = true).
    { apply existsb_exists. exists r. split; [exact Hr|].
      rewrite Hid, Z.eqb_refl. exact Hover. }
    congruence.
  - intros Hbelow.
    destruct (existsb _ (users w)) eqn:Hex; [exfalso|reflexivity].
    apply existsb_exists in Hex as (r & Hr & Hc).
    apply andb_true_iff in Hc as [Hid Hover].
    apply Z.eqb_eq in Hid. apply Z.ltb_lt in Hover.
    specialize (Hbelow r Hr Hid). lia.
Qed.

Lemma incrementFailedLoginAttempts_users now this w :
  counter_can_rise (u_id this) w ->
  users (exec (User.incrementFailedLoginAttempts now this) w)
  = map (fun r => if u_id r =? u_id this
                  then before_update_users now
                         (with_failed_login_attempts (u_failed_login_attempts r + 1) r)
                  else r) (users w).
Proof.
  intros Hrise. apply counter_can_rise_check in Hrise.
  unfold User.incrementFailedLoginAttempts, update_users. unfold_m.
  rewrite Hrise.
  destruct (map _ (List.filter _ (users w))); reflexivity.
Qed.

(** At the largest [INTEGER] the count cannot be raised: the [UPDATE]
    fails and no row changes. *)
Lemma incrementFailedLoginAttempts_overflow now this w r :
  In r (users w) -> u_id r = u_id this -> int4_max <= u_failed_login_attempts r ->
  User.incrementFailedLoginAttempts now this w
  = (Throw integer_out_of_range,
     set_console (cons ("Error incrementing failed login attempts:",
                        integer_out_of_range)) w).
Proof.
  intros Hr Hid Hmax.
  assert (Hex : existsb (fun r => (u_id r =? u_id this)
                                  && (int4_max <? u_failed_login_attempts r + 1))
                  (users w) = true).
  { apply existsb_exists. exists r. split; [exact Hr|].
    rewrite Hid, Z.eqb_refl. apply Z.ltb_lt. lia. }
  unfold User.incrementFailedLoginAttempts. unfold_m. now rewrite Hex.
Qed.

Lemma resetFailedLoginAttempts_run now this w :
  User.resetFailedLoginAttempts now this w
  = (Ok (with_last_login (Some now)
           (with_account_locked_until None (with_failed_login_attempts 0 this))),
     set_users (map (fun r =>
       if u_id r =? u_id this
       then with_updated_at now
              (with_last_login (Some now)
                 (with_account_locked_until None (with_failed_login_attempts 0 r)))
       else r)) w).
Proof. reflexivity. Qed.

Lemma after_failed_attempt_holds now id r :
  after_failed_attempt now id r
    (if u_id r =? id
     then before_update_users now
            (with_failed_login_attempts (u_failed_login_attempts r + 1) r)
     else r).
Proof.
  unfold after_failed_attempt. destruct (u_id r =? id); [|reflexivity].
  unfold before_update_users, update_updated_at_column, check_account_lockout.
  simpl.
  destruct (5 <=? u_failed_login_attempts r + 1) eqn:E5; simpl;
  destruct (10 <=? u_failed_login_attempts r + 1) eqn:E10; simpl;
  destruct (15 <=? u_failed_login_attempts r + 1) eqn:E15; simpl;
  repeat split; intros; try reflexivity; lia.
Qed.

Lemma after_success_holds now id r :
  after_success id r
    (if u_id r =? id
     then with_updated_at now
            (with_last_login (Some now)
               (with_account_locked_until None (with_failed_login_attempts 0 r)))
     else r).
Proof.
  unfold after_success. destruct (u_id r =? id); [|reflexivity].
  split; reflexivity.
Qed.

(** What [verifyPassword] does on an account that is locked. *)
Lemma verifyPassword_locked_run now this plain w :
  User.isAccountLocked now this = true ->
  User.verifyPassword now this plain w
  = (Throw User.AccountLockedError,
     set_console (cons ("Error verifying password:", User.AccountLockedError)) w).
Proof.
  intros Hlocked. unfold User.verifyPassword. rewrite Hlocked. reflexivity.
Qed.

(** What it does on one that is not, when the stored hash is [h]. *)
Lemma verifyPassword_unlocked_run now this plain w row rest h :
  User.isAccountLocked now this = false ->
  List.filter (fun r => String.eqb (u_email r) (u_email this)) (users w) = row :: rest ->
  u_password_hash row = Some h ->
  User.verifyPassword now this plain w
  = if bcrypt_compare plain h
    then let (r, w') :=
           User.resetFailedLoginAttempts now this
             (set_bcrypt_compares (cons (plain, h)) w) in
         match r with
         | Ok this' => (Ok (this', true), w')
         | Throw e => (Throw e, set_console (cons ("Error verifying password:", e)) w')
         end
    else let (r, w') :=
           User.incrementFailedLoginAttempts now this
             (set_bcrypt_compares (cons (plain, h)) w) in
         match r with
         | Ok this' => (Ok (this', false), w')
         | Throw e => (Throw e, set_console (cons ("Error verifying password:", e)) w')
         end.
Proof.
  intros Hlocked Hrow Hhash. unfold User.verifyPassword. rewrite Hlocked.
  unfold User.findByEmail. unfold_m. rewrite Hrow. unfold await_bcrypt_compare.
  rewrite Hhash. unfold_m.
  destruct (bcrypt_compare plain h).
  - reflexivity.
  - unfold User.incrementFailedLoginAttempts, update_users. unfold_m.
    cbn [users set_bcrypt_compares].
    match goal with
    | |- context [existsb ?overflows ?rows] => destruct (existsb overflows rows)
    end; [reflexivity|].
    match goal with
    | |- context [map ?fire (List.filter ?target ?rows)] =>
        destruct (map fire (List.filter target rows))
    end; reflexivity.
Qed.

End UserProofs.

Section AttemptProofs.
Context `{Crypto}.

Lemma only_row_update now (set_ : UserRow -> UserRow) r w :
  (forall x, u_id (set_ x) = u_id x) ->
  (forall x, u_email (set_ x) = u_email x) ->
  only_row r w ->
  only_row (before_update_users now (set_ r))
    (snd (update_users now (fun x => u_id x =? u_id r) set_ w)).
Proof.
  intros Hid Hemail [Hr1 Hr2].
  assert (Hid' : forall x, u_id (before_update_users now (set_ x)) = u_id x).
  { intros x. unfold before_update_users, update_updated_at_column.
    cbn [u_id with_updated_at]. now rewrite check_account_lockout_id. }
  assert (Hemail' : forall x, u_email (before_update_users now (set_ x)) = u_email x).
  { intros x. unfold before_update_users, update_updated_at_column, check_account_lockout.
    repeat case_match; cbn; apply Hemail. }
  unfold only_row, update_users. cbn [snd users set_users].
  rewrite Hid', Hemail'. split.
  - rewrite filter_map_stable.
    + rewrite Hr1. cbn. now rewrite Z.eqb_refl.
    + intros x. cbv beta. destruct (u_id x =? u_id r) eqn:E; [now rewrite Hid'|exact E].
  - rewrite filter_map_stable.
    + rewrite Hr2. cbn. now rewrite Z.eqb_refl.
    + intros x. cbv beta. destruct (u_id x =? u_id r); [now rewrite Hemail'|reflexivity].
Qed.

Lemma only_row_can_rise r w :
  only_row r w -> u_failed_login_attempts r < int4_max ->
  counter_can_rise (u_id r) w.
Proof.
  intros [Hrow _] Hbelow x Hx Hid.
  assert (Hin : In x (List.filter (fun x => u_id x =? u_id r) (users w)))
    by (apply filter_In; split; [exact Hx|now apply Z.eqb_eq]).
  rewrite Hrow in Hin. destruct Hin as [<-|[]]. exact Hbelow.
Qed.

(** One wrong password on an account that is not locked and whose count
    can still be raised: the attempt is compared, counted, and the object
    follows the row. *)
Lemma wrong_password_step now this plain w r h :
  only_row r w -> loaded_from r this ->
  u_password_hash r = Some h ->
  bcrypt_compare plain h = false ->
  User.isAccountLocked now this = false ->
  u_failed_login_attempts r < int4_max ->
  exists this' r' w',
    User.verifyPassword now this plain w = (Ok (this', false), w')
    /\ only_row r' w' /\ loaded_from r' this'
    /\ u_password_hash r' = Some h
    /\ u_failed_login_attempts r' = u_failed_login_attempts r + 1
    /\ (u_failed_login_attempts r + 1 < 5 ->
        u_account_locked_until r' = u_account_locked_until r)
    /\ (u_failed_login_attempts r + 1 = 5 ->
        u_account_locked_until r' = Some (now + minutes 30))
    /\ bcrypt_compares w' = (plain, h) :: bcrypt_compares w.
Proof.
  intros Honly Hload Hhash Hwrong Hunlocked Hrise.
  destruct Hload as (Hid & Hemail & Hn & Hl).
  pose proof Honly as [Hr1 Hr2].
  pose proof (proj2 (counter_can_rise_check (u_id r) w)
                (only_row_can_rise r w Honly Hrise)) as Hcheck.
  set (r' := before_update_users now
               (with_failed_login_attempts (u_failed_login_attempts r + 1) r)).
  rewrite (verifyPassword_unlocked_run now this plain w r [] h);
    [|assumption|rewrite Hemail; exact Hr2|assumption].
  rewrite Hwrong.
  unfold User.incrementFailedLoginAttempts, update_users. unfold_m.
  cbn [users set_bcrypt_compares]. rewrite Hid, Hcheck. cbv beta iota.
  cbn [users set_bcrypt_compares]. rewrite Hr1. cbn [map].
  fold r'.
  pose proof (after_failed_attempt_holds now (u_id r) r) as Hafter.
  unfold after_failed_attempt in Hafter. rewrite Z.eqb_refl in Hafter.
  fold r' in Hafter. destruct Hafter as (Hcount & Hbelow & H5 & _).
  eexists _, r', _. split; [reflexivity|].
  assert (Honly' : only_row r'
            (snd (update_users now (fun x => u_id x =? u_id r)
                    (fun x => with_failed_login_attempts (u_failed_login_attempts x + 1) x)
                    (set_bcrypt_compares (cons (plain, h)) w)))).
  { apply (only_row_update now
             (fun x => with_failed_login_attempts (u_failed_login_attempts x + 1) x));
      try reflexivity.
    unfold only_row. cbn [users set_bcrypt_compares]. exact Honly. }
  split; [exact Honly'|].
  assert (Hid' : u_id r' = u_id r).
  { unfold r', before_update_users, update_updated_at_column.
    cbn [u_id with_updated_at]. now rewrite check_account_lockout_id. }
  assert (Hemail' : u_email r' = u_email r).
  { unfold r', before_update_users, update_updated_at_column, check_account_lockout.
    repeat case_match; reflexivity. }
  assert (Hhash' : u_password_hash r' = u_password_hash r).
  { unfold r', before_update_users, update_updated_at_column, check_account_lockout.
    repeat case_match; reflexivity. }
  clearbody r'. unfold loaded_from.
  repeat split; cbn; try congruence.
  - intros Hlt. apply Hbelow. lia.
  - intros Heq. apply H5. lia.
Qed.

Lemma rejected_attempts_locked (this : UserRow) (tries : list (Timestamp * string))
    (w : World) :
  Forall (fun try => User.isAccountLocked (fst try) this = true) tries ->
  users (rejected_attempts this tries w) = users w
  /\ bcrypt_compares (rejected_attempts this tries w) = bcrypt_compares w.
Proof.
  intros Hall. revert w. induction Hall as [|[now plain] tries Hlocked _ IH];
    intros w; [split; reflexivity|].
  cbn [rejected_attempts]. cbn [fst] in Hlocked. unfold exec.
  rewrite verifyPassword_locked_run by assumption. cbn [snd].
  destruct (IH (set_console (cons ("Error verifying password:", User.AccountLockedError)) w))
    as [Hu Hb].
  rewrite Hu, Hb. split; reflexivity.
Qed.

Lemma attempts_app (tries more : list (Timestamp * string)) :
  forall this w,
    attempts this (tries ++ more) w
    = match attempts this tries w with
      | (Ok this', w') => attempts this' more w'
      | (Throw e, w') => (Throw e, w')
      end.
Proof.
  induction tries as [|[now plain] tries IH]; intros this w; [reflexivity|].
  cbn [app attempts]. unfold bind.
  destruct (User.verifyPassword now this plain w) as [[res|e] w1]; [|reflexivity].
  apply IH.
Qed.

Lemma unlocked_without_lock now this :
  u_account_locked_until this = None -> User.isAccountLocked now this = false.
Proof. intros Hnone. unfold User.isAccountLocked. now rewrite Hnone. Qed.

(** Wrong passwords that keep the count below the first threshold: each is
    compared and counted, and no lock appears. *)
Lemma wrong_passwords_below_threshold h (tries : list (Timestamp * string)) :
  forall this r w,
    only_row r w -> loaded_from r this ->
    u_password_hash r = Some h ->
    u_account_locked_until r = None ->
    Forall (fun try => bcrypt_compare (snd try) h = false) tries ->
    u_failed_login_attempts r + Z.of_nat (length tries) < 5 ->
    exists this' r' w',
      attempts this tries w = (Ok this', w')
      /\ only_row r' w' /\ loaded_from r' this'
      /\ u_password_hash r' = Some h
      /\ u_failed_login_attempts r'
         = u_failed_login_attempts r + Z.of_nat (length tries)
      /\ u_account_locked_until r' = None
      /\ bcrypt_compares w'
         = (rev (map (fun try => (snd try, h)) tries) ++ bcrypt_compares w)%list.
Proof.
  induction tries as [|[now plain] tries IH];
    intros this r w Honly Hload Hhash Hnone Hwrong Hlen.
  - exists this, r, w. cbn. repeat split; try assumption; try apply Honly;
      try apply Hload. lia.
  - inversion Hwrong as [|? ? Hw1 Hwrest]; subst. cbn [snd] in Hw1.
    cbn [length] in Hlen.
    destruct (wrong_password_step now this plain w r h)
      as (this1 & r1 & w1 & Hrun & Honly1 & Hload1 & Hhash1 & Hcount1 & Hbelow1 & _ & Hlog1);
      try assumption.
    { apply unlocked_without_lock. destruct Hload as (_ & _ & _ & ->). exact Hnone. }
    { unfold int4_max. lia. }
    destruct (IH this1 r1 w1) as (this' & r' & w' & Hrun' & Honly' & Hload' & Hhash' & Hcount' & Hnone' & Hlog');
      try assumption.
    { rewrite Hbelow1 by lia. exact Hnone. }
    { lia. }
    exists this', r', w'. cbn [attempts]. unfold bind. rewrite Hrun. cbn [fst].
    repeat split; try assumption; try apply Honly'; try apply Hload'.
    + cbn [length]. lia.
    + rewrite Hlog', Hlog1. cbn [map rev snd]. now rewrite <- app_assoc.
Qed.

End AttemptProofs.

Section LockoutTheorems.
Context `{Crypto}.

(** C2.  Lockout escalation.  Recording a failed attempt at [now] raises the
    counter of the user's row by one and, through the trigger, leaves the
    lock alone while the new count is below 5, sets it to [now] + 30 minutes
    from 5 on, to [now] + 1 hour from 10 on and to [now] + 24 hours from 15
    on; no other row changes.  That is so wherever the count can be raised
    at all: at the largest [INTEGER] the update fails with "integer out of
    range" and no row changes.  [resetFailedLoginAttempts], and with it every
    [verifyPassword] that resolves to [true], leaves the row with a count of
    0 and no lock whatever the count was, and the [User] object likewise. *)
Theorem lockout_escalation (now : Timestamp) (this : UserRow) (plain : string)
    (w : World) :
  (counter_can_rise (u_id this) w ->
   (exists this', run (User.incrementFailedLoginAttempts now this) w = Ok this')
   /\ Forall2 (after_failed_attempt now (u_id this)) (users w)
        (users (exec (User.incrementFailedLoginAttempts now this) w)))
  /\ (forall r,
        In r (users w) -> u_id r = u_id this -> int4_max <= u_failed_login_attempts r ->
        run (User.incrementFailedLoginAttempts now this) w = Throw integer_out_of_range
        /\ users (exec (User.incrementFailedLoginAttempts now this) w) = users w)
  /\ Forall2 (after_success (u_id this)) (users w)
       (users (exec (User.resetFailedLoginAttempts now this) w))
  /\ (forall this',
        run (User.verifyPassword now this plain) w = Ok (this', true) ->
        Forall2 (after_success (u_id this)) (users w)
          (users (exec (User.verifyPassword now this plain) w))
        /\ u_failed_login_attempts this' = 0
        /\ u_account_locked_until this' = None).
Proof.
  split; [|split; [|split]].
  - intros Hrise. split.
    + apply counter_can_rise_check in Hrise.
      unfold run, User.incrementFailedLoginAttempts, update_users. unfold_m.
      rewrite Hrise.
      match goal with
      | |- context [map ?fire (List.filter ?target ?rows)] =>
          destruct (map fire (List.filter target rows))
      end; eexists; reflexivity.
    + rewrite incrementFailedLoginAttempts_users by exact Hrise.
      apply Forall2_map_same. intros r _. apply after_failed_attempt_holds.
  - intros r Hr Hid Hmax. unfold run, exec.
    rewrite (incrementFailedLoginAttempts_overflow now this w r Hr Hid Hmax).
    now split.
  - unfold exec. rewrite resetFailedLoginAttempts_run. cbn [snd users set_users].
    apply Forall2_map_same. intros r _. apply after_success_holds.
  - intros this' Hrun. unfold run, exec in *.
    destruct (User.isAccountLocked now this) eqn:Hlocked.
    { rewrite verifyPassword_locked_run in Hrun by assumption. discriminate. }
    revert Hrun. unfold User.verifyPassword. rewrite Hlocked.
    unfold User.findByEmail. unfold_m.
    destruct (List.filter _ (users w)) as [|row rest]; [discriminate|].
    unfold await_bcrypt_compare. destruct (u_password_hash row) as [h|]; [|discriminate].
    unfold_m. destruct (bcrypt_compare plain h).
    + cbn. intros [= <-]. split; [|split; reflexivity].
      apply Forall2_map_same. intros r _. apply after_success_holds.
    + unfold User.incrementFailedLoginAttempts, update_users. unfold_m.
      cbn [users set_bcrypt_compares].
      match goal with
      | |- context [existsb ?overflows ?rows] => destruct (existsb overflows rows)
      end; [discriminate|].
      match goal with
      | |- context [map ?fire (List.filter ?target ?rows)] =>
          destruct (map fire (List.filter target rows))
      end; discriminate.
Qed.

(** C4.  A locked account is thrown out before the hash is looked at.
    While [account_locked_until] is in the future, [verifyPassword] throws
    the account-locked error whatever the password, and makes no call to
    [bcrypt.compare].  In particular: a user with no failed attempt and no
    lock enters five wrong passwords; a sixth attempt inside the 30 minutes
    that follow the fifth, with the right password, is thrown out with the
    account-locked error, and only the five wrong passwords were ever
    compared. *)
Theorem locked_account_fails_before_hash :
  (forall now this plain w,
     User.isAccountLocked now this = true ->
     run (User.verifyPassword now this plain) w = Throw User.AccountLockedError
     /\ bcrypt_compares (exec (User.verifyPassword now this plain) w)
        = bcrypt_compares w)
  /\ (forall w r h t1 p1 t2 p2 t3 p3 t4 p4 t5 p5 t6 good,
        only_row r w ->
        u_failed_login_attempts r = 0 ->
        u_account_locked_until r = None ->
        u_password_hash r = Some h ->
        Forall (fun plain => bcrypt_compare plain h = false) [p1; p2; p3; p4; p5] ->
        bcrypt_compare good h = true ->
        t5 <= t6 < t5 + minutes 30 ->
        run (let* this :=
               attempts (User.public_columns r)
                 [(t1, p1); (t2, p2); (t3, p3); (t4, p4); (t5, p5)] in
             User.verifyPassword t6 this good) w
        = Throw User.AccountLockedError
        /\ bcrypt_compares
             (exec (let* this :=
                      attempts (User.public_columns r)
                        [(t1, p1); (t2, p2); (t3, p3); (t4, p4); (t5, p5)] in
                    User.verifyPassword t6 this good) w)
           = ([(p5, h); (p4, h); (p3, h); (p2, h); (p1, h)] ++ bcrypt_compares w)%list).
Proof.
  split.
  - intros now this plain w Hlocked. unfold run, exec.
    rewrite verifyPassword_locked_run by assumption. split; reflexivity.
  - intros w r h t1 p1 t2 p2 t3 p3 t4 p4 t5 p5 t6 good
      Honly Hzero Hnone Hhash Hwrong Hgood Hwindow.
    assert (Hw5 : bcrypt_compare p5 h = false).
    { do 4 (apply Forall_inv_tail in Hwrong). now apply Forall_inv in Hwrong. }
    destruct (wrong_passwords_below_threshold h
                [(t1, p1); (t2, p2); (t3, p3); (t4, p4)] (User.public_columns r) r w)
      as (this4 & r4 & w4 & Hrun4 & Honly4 & Hload4 & Hhash4 & Hcount4 & Hnone4 & Hlog4);
      try assumption.
    { repeat split. }
    { repeat constructor; cbn [snd].
      - now apply Forall_inv in Hwrong.
      - apply Forall_inv_tail in Hwrong. now apply Forall_inv in Hwrong.
      - do 2 (apply Forall_inv_tail in Hwrong). now apply Forall_inv in Hwrong.
      - do 3 (apply Forall_inv_tail in Hwrong). now apply Forall_inv in Hwrong. }
    { rewrite Hzero. cbn. lia. }
    destruct (wrong_password_step t5 this4 p5 w4 r4 h)
      as (this5 & r5 & w5 & Hrun5 & Honly5 & Hload5 & Hhash5 & Hcount5 & _ & Hlock5 & Hlog5);
      try assumption.
    { apply unlocked_without_lock. destruct Hload4 as (_ & _ & _ & ->). exact Hnone4. }
    { rewrite Hcount4, Hzero. unfold int4_max. cbn. lia. }
    assert (Hlocked : User.isAccountLocked t6 this5 = true).
    { unfold User.isAccountLocked. destruct Hload5 as (_ & _ & _ & ->).
      rewrite Hlock5 by (rewrite Hcount4, Hzero; cbn; lia).
      apply Z.ltb_lt. lia. }
    assert (Hrun : attempts (User.public_columns r)
                     [(t1, p1); (t2, p2); (t3, p3); (t4, p4); (t5, p5)] w
                   = (Ok this5, w5)).
    { change [(t1, p1); (t2, p2); (t3, p3); (t4, p4); (t5, p5)]
        with ([(t1, p1); (t2, p2); (t3, p3); (t4, p4)] ++ [(t5, p5)])%list.
      rewrite attempts_app, Hrun4. cbn [attempts]. unfold bind.
      rewrite Hrun5. reflexivity. }
    unfold run, exec, bind. rewrite Hrun.
    rewrite verifyPassword_locked_run by assumption.
    cbn [fst snd bcrypt_compares set_console]. split; [reflexivity|].
    rewrite Hlog5, Hlog4. reflexivity.
Qed.

(** C10.  A locked account is not counted against.  While
    [account_locked_until] is in the future, [verifyPassword] throws and
    leaves the [users] table as it was, counter and lock included; so does
    any run of attempts made while the lock holds, which therefore never
    moves the counter towards the next threshold. *)
Theorem locked_attempts_leave_counter (this : UserRow) (w : World) :
  (forall now plain,
     User.isAccountLocked now this = true ->
     run (User.verifyPassword now this plain) w = Throw User.AccountLockedError
     /\ users (exec (User.verifyPassword now this plain) w) = users w)
  /\ (forall tries,
        Forall (fun try => User.isAccountLocked (fst try) this = true) tries ->
        users (rejected_attempts this tries w) = users w).
Proof.
  split.
  - intros now plain Hlocked. unfold run, exec.
    rewrite verifyPassword_locked_run by assumption. split; reflexivity.
  - intros tries Hall. now apply rejected_attempts_locked.
Qed.

End LockoutTheorems.

Lemma lockout_escalation_witness :
  run (@User.verifyPassword toy_crypto 5000000 carol "tr0ub4dor") two_users
  = Ok (with_last_login (Some 5000000)
          (with_account_locked_until None (with_failed_login_attempts 0 carol)), true)
  /\ Forall2 (after_success 9) (users two_users)
       (users (exec (@User.verifyPassword toy_crypto 5000000 carol "tr0ub4dor") two_users))
  /\ Forall2 (after_failed_attempt 5000000 9) (users two_users)
       (users (exec (User.incrementFailedLoginAttempts 5000000 carol) two_users))
  /\ run (User.incrementFailedLoginAttempts 5000000 carol)
       (set_users (map (with_failed_login_attempts int4_max)) two_users)
     = Throw integer_out_of_range.
Proof.
  destruct (@lockout_escalation toy_crypto 5000000 carol "tr0ub4dor" two_users)
    as (Hrise & _ & _ & Hsuccess).
  destruct (@lockout_escalation toy_crypto 5000000 carol "tr0ub4dor"
              (set_users (map (with_failed_login_attempts int4_max)) two_users))
    as (_ & Hoverflow & _).
  split; [reflexivity|]. split; [|split].
  - apply (Hsuccess
             (with_last_login (Some 5000000)
                (with_account_locked_until None (with_failed_login_attempts 0 carol)))).
    reflexivity.
  - apply Hrise. intros r [<-|[<-|[]]] _; unfold int4_max; cbn; lia.
  - apply (Hoverflow (with_failed_login_attempts int4_max carol)).
    + right. now left.
    + reflexivity.
    + cbn. lia.
Defined.

Lemma locked_account_fails_before_hash_witness :
  run (@User.verifyPassword toy_crypto 1000000 carol "tr0ub4dor") two_users
  = Throw User.AccountLockedError
  /\ run (let* this :=
            @attempts toy_crypto (User.public_columns alice)
              [(1000, "a"); (2000, "b"); (3000, "c"); (4000, "d"); (5000, "e")] in
          @User.verifyPassword toy_crypto 60000 this "correct horse") two_users
     = Throw User.AccountLockedError.
Proof.
  destruct (@locked_account_fails_before_hash toy_crypto) as [Hlocked Hscenario].
  split.
  - apply Hlocked. reflexivity.
  - apply (Hscenario two_users alice "$2a$correct horse"
             1000 "a" 2000 "b" 3000 "c" 4000 "d" 5000 "e" 60000 "correct horse").
    + split; reflexivity.
    + reflexivity.
    + reflexivity.
    + reflexivity.
    + repeat constructor.
    + reflexivity.
    + unfold minutes. lia.
Defined.

Lemma locked_attempts_leave_counter_witness :
  users (exec (@User.verifyPassword toy_crypto 1000000 carol "tr0ub4dor") two_users)
  = users two_users
  /\ users (@rejected_attempts toy_crypto carol
              [(1000000, "x"); (1500000, "tr0ub4dor"); (1999999, "y")] two_users)
     = users two_users.
Proof.
  destruct (@locked_attempts_leave_counter toy_crypto carol two_users) as [Hone Hmany].
  split.
  - apply Hone. reflexivity.
  - apply Hmany. repeat constructor.
Defined.


(** ** Roles and permissions *)

Lemma effective_iff now ur :
  User.assignment_in_force now ur = true <-> effective now ur.
Proof.
  unfold User.assignment_in_force, effective. rewrite andb_true_iff. split.
  - intros [Hactive Hexp]. split; [exact Hactive|].
    destruct (ur_expires_at ur) as [e|]; [right|now left].
    exists e. split; [reflexivity|]. now apply Z.ltb_lt.
  - intros [Hactive [Hnone | (e & He & Hlt)]]; split; try exact Hactive.
    + now rewrite Hnone.
    + rewrite He. now apply Z.ltb_lt.
Qed.

Lemma hasPermission_rows_nonempty now user_id name w :
  User.hasPermission_rows now user_id name w <> []
  <-> granted_through_a_role now user_id name w.
Proof.
  unfold User.hasPermission_rows, granted_through_a_role. split.
  - intros Hne.
    destruct (flat_map _ (permissions w)) as [|[[p rp] ur] rest] eqn:Hrows;
      [congruence|].
    assert (Hin : In (p, rp, ur) (flat_map (fun p =>
              flat_map (fun rp =>
                flat_map (fun ur =>
                  if (p_id p =? rp_permission_id rp)
                     && (rp_role_id rp =? ur_role_id ur)
                     && (ur_user_id ur =? user_id)
                     && String.eqb (p_name p) name
                     && User.assignment_in_force now ur
                     && rp_granted rp
                  then [(p, rp, ur)] else [])
                (user_roles w))
              (role_permissions w))
            (permissions w))) by (rewrite Hrows; now left).
    apply in_flat_map in Hin as (p0 & Hp & Hin).
    apply in_flat_map in Hin as (rp0 & Hrp & Hin).
    apply in_flat_map in Hin as (ur0 & Hur & Hin).
    destruct ((p_id p0 =? rp_permission_id rp0)
              && (rp_role_id rp0 =? ur_role_id ur0)
              && (ur_user_id ur0 =? user_id)
              && String.eqb (p_name p0) name
              && User.assignment_in_force now ur0
              && rp_granted rp0) eqn:Hcond; [|destruct Hin].
    repeat (apply andb_true_iff in Hcond as [Hcond ?]).
    exists ur0, rp0, p0. split_and!; try assumption.
    + now apply Z.eqb_eq.
    + now apply effective_iff.
    + now apply Z.eqb_eq.
    + now apply Z.eqb_eq.
    + now apply String.eqb_eq.
  - intros (ur & rp & p & Hur & Huser & Heff & Hrp & Hrole & Hgranted & Hp & Hpid & Hname).
    intros Hempty.
    assert (Hin : In (p, rp, ur) (flat_map (fun p =>
              flat_map (fun rp =>
                flat_map (fun ur =>
                  if (p_id p =? rp_permission_id rp)
                     && (rp_role_id rp =? ur_role_id ur)
                     && (ur_user_id ur =? user_id)
                     && String.eqb (p_name p) name
                     && User.assignment_in_force now ur
                     && rp_granted rp
                  then [(p, rp, ur)] else [])
                (user_roles w))
              (role_permissions w))
            (permissions w))).
    { apply in_flat_map. exists p. split; [exact Hp|].
      apply in_flat_map. exists rp. split; [exact Hrp|].
      apply in_flat_map. exists ur. split; [exact Hur|].
      apply effective_iff in Heff.
      rewrite Hpid, Hrole, Huser, Hname, Heff, Hgranted.
      rewrite !Z.eqb_refl, String.eqb_refl. now left. }
    rewrite Hempty in Hin. destruct Hin.
Qed.

(** C5.  [hasPermission] resolves, without touching anything, to [true]
    exactly when some assignment of the user that is active and unexpired is
    to a role holding a granted edge to the permission of that name.  The
    [roles] table, which holds [parent_role_id] and [level], has no say:
    the answer is the same whatever it contains. *)
Theorem hasPermission_iff (now : Timestamp) (this : UserRow) (name : string)
    (w : World) :
  exists answer,
    User.hasPermission now this name w = (Ok answer, w)
    /\ (answer = true <-> granted_through_a_role now (u_id this) name w)
    /\ forall hierarchy,
         run (User.hasPermission now this name) (set_roles (fun _ => hierarchy) w)
         = Ok answer.
Proof.
  exists (0 <? Z.of_nat (length (User.hasPermission_rows now (u_id this) name w))).
  split; [reflexivity|]. split; [|reflexivity].
  rewrite <- hasPermission_rows_nonempty.
  destruct (User.hasPermission_rows now (u_id this) name w); cbn.
  - split; [discriminate|congruence].
  - split; [discriminate|reflexivity].
Qed.

(** A child role does not inherit: the user holds "Junior Editor", whose
    parent "Editor" is granted [content.update], and is refused it. *)
Example child_role_does_not_inherit :
  run (User.hasPermission 1000 alice "content.update") hierarchy_world = Ok false.
Proof. reflexivity. Qed.


Lemma existsb_filter_nil {A} (q : A -> bool) (l : list A) :
  existsb q l = false <-> List.filter q l = [].
Proof.
  induction l as [|x l IH]; simpl; [tauto|].
  destruct (q x); simpl; [split; discriminate|exact IH].
Qed.


(** One [assignRole] whose references hold: the upsert, spelled out. *)
Lemma assignRole_run now this roleId assignedBy expiresAt w :
  user_exists (u_id this) w = true ->
  role_exists roleId w = true ->
  user_ref_ok assignedBy w = true ->
  User.assignRole now this roleId assignedBy expiresAt w
  = (Ok tt,
     set_user_roles (fun rows =>
       if existsb (same_pair (u_id this) roleId) rows
       then map (fun ur =>
              if same_pair (u_id this) roleId ur
              then mkUserRole (ur_user_id ur) (ur_role_id ur) now assignedBy expiresAt true
              else ur) rows
       else (rows ++ [mkUserRole (u_id this) roleId now assignedBy expiresAt true])%list) w).
Proof.
  intros Huser Hrole Href. unfold User.assignRole. unfold_m.
  rewrite Huser, Hrole, Href. cbn [negb].
  change (fun ur => (ur_user_id ur =? u_id this) && (ur_role_id ur =? roleId))
    with (same_pair (u_id this) roleId).
  unfold set_user_roles.
  destruct (existsb (same_pair (u_id this) roleId) (user_roles w)); reflexivity.
Qed.

Lemma same_pair_eq user_id role_id ur :
  same_pair user_id role_id ur = true ->
  ur_user_id ur = user_id /\ ur_role_id ur = role_id.
Proof.
  unfold same_pair. rewrite andb_true_iff, !Z.eqb_eq. tauto.
Qed.




(** ** Guards on role mutation *)

Lemma active_assignments_nonempty role_id w :
  Role.active_assignments role_id w <> []
  <-> exists ur, In ur (user_roles w) /\ ur_role_id ur = role_id /\ ur_is_active ur = true.
Proof.
  unfold Role.active_assignments. split.
  - destruct (List.filter _ (user_roles w)) as [|ur rest] eqn:Hf; [congruence|].
    intros _. exists ur.
    assert (Hin : In ur (List.filter
              (fun ur => (ur_role_id ur =? role_id) && ur_is_active ur) (user_roles w)))
      by (rewrite Hf; now left).
    apply filter_In in Hin as [Hin Hcond].
    apply andb_true_iff in Hcond as [Hrole Hactive].
    apply Z.eqb_eq in Hrole. auto.
  - intros (ur & Hin & Hrole & Hactive) Hempty.
    assert (Hin' : In ur (List.filter
              (fun ur => (ur_role_id ur =? role_id) && ur_is_active ur) (user_roles w))).
    { apply filter_In. split; [exact Hin|]. rewrite Hrole, Z.eqb_refl. exact Hactive. }
    rewrite Hempty in Hin'. destruct Hin'.
Qed.

(** What [delete] does, case by case. *)
Lemma delete_run (this : RoleRow) (w : World) :
  Role.delete this w
  = if r_is_system_role this then
      (Throw Role.SystemRoleError,
       set_console (cons ("Error deleting role:", Role.SystemRoleError)) w)
    else match Role.active_assignments (r_id this) w with
         | _ :: _ =>
             (Throw Role.RoleAssignedError,
              set_console (cons ("Error deleting role:", Role.RoleAssignedError)) w)
         | [] =>
             match delete_from_roles (r_id this) w with
             | (Ok _, w') => (Ok true, w')
             | (Throw e, w') =>
                 (Throw e, set_console (cons ("Error deleting role:", e)) w')
             end
         end.
Proof.
  unfold Role.delete. destruct (r_is_system_role this); [reflexivity|].
  unfold_m. destruct (Role.active_assignments (r_id this) w); cbn [length].
  - change (0 <? Z.of_nat 0) with false. cbv beta iota.
    destruct (delete_from_roles (r_id this) w) as [[[]|e] w']; reflexivity.
  - rewrite Nat2Z.inj_succ.
    destruct (0 <? Z.succ (Z.of_nat (length l))) eqn:E; [reflexivity|].
    apply Z.ltb_ge in E. lia.
Qed.

(** C7, as stated, fails: [delete] turns down a role whose only assignment
    is active but expired, although no assignment of it is currently
    effective. *)
Lemma delete_rejects_on_expired_assignment :
  ~ (forall (now : Timestamp) (this : RoleRow) (w : World),
       r_is_system_role this = false ->
       ((exists e, run (Role.delete this) w = Throw e)
        <-> exists ur, In ur (user_roles w) /\ ur_role_id ur = r_id this
                       /\ effective now ur)).
Proof.
  intros Hclaim.
  specialize (Hclaim 1000 (mkRole 20 "Reviewer" None false false None 0 0 None)
                expired_assignment_world eq_refl).
  destruct Hclaim as [Hrejects _].
  destruct Hrejects as (ur & Hin & _ & _ & Hexp).
  { exists Role.RoleAssignedError. reflexivity. }
  destruct Hin as [<- | []].
  destruct Hexp as [Hnone | (e & He & Hlt)].
  - discriminate.
  - cbn in He. injection He as <-. lia.
Qed.

(** [Role.update] itself has no guard for system roles; the guard of the
    update operation is in the controller. *)
Example update_of_system_role_unguarded :
  run (Role.update 1000 (mkRole 1 "Admin" None true false None 0 0 None)
         (mkRoleUpdate (Some "Root") None None) None)
      (set_roles (fun _ => [mkRole 1 "Admin" None true false None 0 0 None]) empty_world)
  = Ok (mkRole 1 "Root" None true false None 0 1000 None).
Proof. reflexivity. Qed.

(** C7, amended.  The update and delete operations of the controller
    ([updateRole], [deleteRole]) answer 403 for a system role and change
    nothing.  [delete] itself throws for a system role and changes no table.  For a role that is not a system role and that no
    other role names as its parent, [delete] throws exactly when some
    assignment of the role has [is_active] set, expired or not, and changes
    no table then; otherwise it resolves to [true] and the role is gone. *)
Theorem role_mutation_guards :
  (forall now roleId body req_user_id w role,
     head (List.filter (fun r => r_id r =? roleId) (roles w)) = Some role ->
     r_is_system_role role = true ->
     RoleController.valid_update body = true ->
     RoleController.updateRole now (Some roleId) body req_user_id w
     = (Ok (mkResponse 403 false (Some "Cannot modify system role")), w))
  /\ (forall roleId req_user_id w role,
        head (List.filter (fun r => r_id r =? roleId) (roles w)) = Some role ->
        r_is_system_role role = true ->
        RoleController.deleteRole (Some roleId) req_user_id w
        = (Ok (mkResponse 403 false (Some "Cannot delete system role")), w))
  /\ (forall this w,
        r_is_system_role this = true ->
        run (Role.delete this) w = Throw Role.SystemRoleError
        /\ roles (exec (Role.delete this) w) = roles w
        /\ user_roles (exec (Role.delete this) w) = user_roles w)
  /\ (forall this w,
        r_is_system_role this = false ->
        childless (r_id this) w ->
        ((exists e, run (Role.delete this) w = Throw e)
         <-> exists ur, In ur (user_roles w) /\ ur_role_id ur = r_id this
                        /\ ur_is_active ur = true)
        /\ ((exists e, run (Role.delete this) w = Throw e) ->
            run (Role.delete this) w = Throw Role.RoleAssignedError
            /\ roles (exec (Role.delete this) w) = roles w
            /\ user_roles (exec (Role.delete this) w) = user_roles w)
        /\ ((forall e, run (Role.delete this) w <> Throw e) ->
            run (Role.delete this) w = Ok true
            /\ roles (exec (Role.delete this) w)
               = List.filter (fun r => negb (r_id r =? r_id this)) (roles w))).
Proof.
  split; [|split; [|split]].
  - intros now roleId body req_user_id w role Hfind Hsystem Hvalid.
    unfold RoleController.updateRole, Role.findById. unfold_m.
    rewrite Hvalid. cbv beta iota. cbn [negb]. rewrite Hfind, Hsystem. reflexivity.
  - intros roleId req_user_id w role Hfind Hsystem.
    unfold RoleController.deleteRole, Role.findById. unfold_m.
    rewrite Hfind, Hsystem. reflexivity.
  - intros this w Hsystem. unfold run, exec. rewrite delete_run, Hsystem.
    repeat split.
  - intros this w Hsystem Hchildless.
    rewrite <- active_assignments_nonempty.
    unfold run, exec. rewrite delete_run, Hsystem.
    destruct (Role.active_assignments (r_id this) w) as [|ur rest] eqn:Hactive.
    + unfold delete_from_roles. unfold_m. unfold childless in Hchildless.
      rewrite Hchildless, andb_false_r. cbn [fst snd roles].
      split; [|split].
      * split; [intros [e He]; discriminate|congruence].
      * intros [e He]. discriminate.
      * intros _. split; reflexivity.
    + cbn [fst snd roles user_roles set_console]. split; [|split].
      * split; [discriminate|]. intros _. eexists. reflexivity.
      * intros _. repeat split.
      * intros Hnever. exfalso. now apply (Hnever Role.RoleAssignedError).
Qed.

Lemma role_mutation_guards_witness :
  RoleController.updateRole 1000 (Some 1) (mkRoleUpdate (Some "Root") None None) 7
    (set_roles (fun _ => [mkRole 1 "Admin" None true false None 0 0 None]) two_users)
  = (Ok (mkResponse 403 false (Some "Cannot modify system role")),
     set_roles (fun _ => [mkRole 1 "Admin" None true false None 0 0 None]) two_users)
  /\ run (Role.delete (mkRole 1 "Admin" None true false None 0 0 None))
       (set_roles (fun _ => [mkRole 1 "Admin" None true false None 0 0 None]) two_users)
     = Throw Role.SystemRoleError
  /\ run (Role.delete (mkRole 20 "Reviewer" None false false None 0 0 None))
       expired_assignment_world
     = Throw Role.RoleAssignedError
  /\ run (Role.delete (mkRole 2 "Junior Editor" None false false (Some 1) 1 0 None))
       (set_user_roles (fun _ => []) hierarchy_world)
     = Ok true.
Proof.
  destruct role_mutation_guards as (Hupdate & _ & Hsystem & Hdelete).
  split; [|split; [|split]].
  - apply (Hupdate 1000 1 (mkRoleUpdate (Some "Root") None None) 7
             (set_roles (fun _ => [mkRole 1 "Admin" None true false None 0 0 None]) two_users)
             (mkRole 1 "Admin" None true false None 0 0 None)); reflexivity.
  - apply (Hsystem (mkRole 1 "Admin" None true false None 0 0 None)
             (set_roles (fun _ => [mkRole 1 "Admin" None true false None 0 0 None]) two_users)).
    reflexivity.
  - apply (Hdelete (mkRole 20 "Reviewer" None false false None 0 0 None)
             expired_assignment_world eq_refl eq_refl).
    eexists. reflexivity.
  - apply (Hdelete (mkRole 2 "Junior Editor" None false false (Some 1) 1 0 None)
             (set_user_roles (fun _ => []) hierarchy_world) eq_refl eq_refl).
    intros e. discriminate.
Defined.

(** ** Sessions and the cache *)

Example force_logged_out_world_sessions :
  user_sessions force_logged_out_world
  = [mkSession 1 7 "tok-alice" (Some "sha256:refresh-alice") "{}" None None
       0 0 86400000 true false true].
Proof. reflexivity. Qed.

Lemma ledger_match_valid now s :
  TokenService.ledger_match now (s_session_token s) s = session_valid now s.
Proof.
  unfold TokenService.ledger_match, session_valid.
  rewrite String.eqb_refl. cbn [andb].
  destruct (s_is_active s), (s_force_logout s), (now <? s_expires_at s); reflexivity.
Qed.

Lemma filter_andb {A} (p q : A -> bool) (l : list A) :
  List.filter (fun x => p x && q x) l = List.filter q (List.filter p l).
Proof.
  induction l as [|x l IH]; simpl; [reflexivity|].
  destruct (p x); simpl; [|exact IH]. destruct (q x); now rewrite IH.
Qed.

(** The Ledger query of [findSessionByToken], for a token that one row has. *)
Lemma ledger_query_unique now s w :
  In s (user_sessions w) -> session_tokens_unique w ->
  List.filter (TokenService.ledger_match now (s_session_token s)) (user_sessions w)
  = if session_valid now s
    then List.filter (TokenService.ledger_match now (s_session_token s)) (user_sessions w)
    else [].
Proof.
  intros Hin Hunique. destruct (session_valid now s) eqn:Hvalid; [reflexivity|].
  destruct (List.filter _ (user_sessions w)) as [|x rest] eqn:Hf; [reflexivity|].
  assert (Hx : In x (List.filter (TokenService.ledger_match now (s_session_token s))
                       (user_sessions w))) by (rewrite Hf; now left).
  apply filter_In in Hx as [Hx Hmatch].
  assert (Htoken : s_session_token x = s_session_token s).
  { unfold TokenService.ledger_match in Hmatch.
    repeat (apply andb_true_iff in Hmatch as [Hmatch ?]).
    now apply String.eqb_eq. }
  rewrite (Hunique x s Hx Hin Htoken) in Hmatch.
  rewrite ledger_match_valid in Hmatch. congruence.
Qed.

(** With the cache off, [findSessionByToken] answers by validity alone:
    for the token of a stored session, non-null exactly when it is valid. *)
Lemma findSessionByToken_without_cache now s w :
  redis w = None ->
  In s (user_sessions w) -> session_tokens_unique w ->
  exists answer,
    TokenService.findSessionByToken now (s_session_token s) w = (Ok answer, w)
    /\ (answer <> None <-> session_valid now s = true).
Proof.
  intros Hoff Hin Hunique. unfold TokenService.findSessionByToken. unfold_m.
  unfold redis_configured. rewrite Hoff.
  rewrite (ledger_query_unique now s w Hin Hunique).
  destruct (session_valid now s) eqn:Hvalid.
  - destruct (List.filter _ (user_sessions w)) as [|x rest] eqn:Hf.
    + exfalso.
      assert (Hs : In s (List.filter (TokenService.ledger_match now (s_session_token s))
                           (user_sessions w))).
      { apply filter_In. split; [exact Hin|]. now rewrite ledger_match_valid. }
      rewrite Hf in Hs. destruct Hs.
    + eexists. split; [reflexivity|]. split; [reflexivity|discriminate].
  - eexists. split; [reflexivity|]. split; [congruence|discriminate].
Qed.

(** The cache-hit path in general: a live entry that says "active" and
    "unexpired" is the answer, whatever the Ledger holds. *)
Lemma findSessionByToken_cache_hit now token w r session deadline :
  redis w = Some r ->
  rejects r (GET (TokenService.session_key token)) = false ->
  entries r !! TokenService.session_key token = Some (session, deadline) ->
  now < deadline -> now < obj_expires_at session -> obj_is_active session = true ->
  TokenService.findSessionByToken now token w = (Ok (Some session), w).
Proof.
  intros Hredis Hget Hentry Hlive Hunexpired Hactive.
  unfold TokenService.findSessionByToken. unfold_m.
  unfold redis_configured, redis_get. rewrite Hredis. cbv beta iota.
  rewrite Hredis, Hget, Hentry.
  apply Z.ltb_lt in Hlive, Hunexpired. now rewrite Hlive, Hunexpired, Hactive.
Qed.

(** C1, at the failing input.  Alice's session is cached at login; its
    Ledger row then has [force_logout] set, so the session is not valid.
    The cache-hit path still hands the session out, where the Ledger path
    (the same world with the cache off) answers null. *)
Theorem cache_hit_ignores_force_logout :
  Forall (fun s => session_valid 1000 s = false) (user_sessions force_logged_out_world)
  /\ run (TokenService.findSessionByToken 1000 "tok-alice") force_logged_out_world
     = Ok (Some (Compact 1 7 true 86400000))
  /\ run (TokenService.findSessionByToken 1000 "tok-alice")
       (set_redis (fun _ => None) force_logged_out_world)
     = Ok None.
Proof.
  split; [|split]; try reflexivity.
  repeat constructor.
Qed.

(** ** [createSession] and a failing cache *)

Section CreateSession.
Context `{Crypto}.

Lemma insert_user_session_redis now user_id token refresh device ip agent expires
    remembered w r w1 :
  insert_user_session now user_id token refresh device ip agent expires remembered w
  = (r, w1) ->
  redis w1 = redis w /\ console w1 = console w.
Proof.
  unfold insert_user_session. repeat case_match; intros [= <- <-]; split; reflexivity.
Qed.

Lemma createSession_run now sessionData data row w w1 :
  TokenService.digest_input (sd_refresh_token sessionData) = Some data ->
  ledger_insert now sessionData data w = (Ok row, w1) ->
  TokenService.createSession now sessionData w
  = match redis w with
    | None => (Ok row, w1)
    | Some r =>
        if rejects r (cache_write sessionData row)
        then (Throw redis_rejected,
              set_console (cons ("Error creating session:", redis_rejected)) w1)
        else (Ok row,
              set_redis (fun _ =>
                Some (mkRedis
                        (<[TokenService.session_key (sd_access_token sessionData) :=
                             (Compact (s_id row) (s_user_id row) true (s_expires_at row),
                              now + (if sd_is_remembered sessionData then 24 * 30 else 24)
                                    * 3600 * 1000)]> (entries r))
                        (rejects r))) w1)
    end.
Proof.
  intros Hdata Hinsert. unfold TokenService.createSession. unfold_m.
  rewrite Hdata. unfold ledger_insert in Hinsert. rewrite Hinsert.
  destruct (insert_user_session_redis _ _ _ _ _ _ _ _ _ _ _ _ Hinsert) as [Hredis _].
  rewrite <- Hredis. unfold redis_configured, redis_setex.
  destruct (redis w1) as [r|] eqn:E; cbv beta iota; rewrite ?E; [|reflexivity].
  unfold cache_write. destruct (rejects r _); reflexivity.
Qed.

End CreateSession.

(** C6, as stated, fails: with a cache that turns the write down, the
    Ledger insert goes through and [createSession] still throws. *)
Lemma createSession_surfaces_cache_failure :
  ~ (forall (now : Timestamp) (sessionData : SessionData) (w : World)
            (r : Redis) (data : string) (row : SessionRow) (w1 : World),
       redis w = Some r ->
       rejects r (cache_write sessionData row) = true ->
       TokenService.digest_input (sd_refresh_token sessionData) = Some data ->
       @ledger_insert toy_crypto now sessionData data w = (Ok row, w1) ->
       run (@TokenService.createSession toy_crypto now sessionData) w = Ok row).
Proof.
  intros Hclaim.
  specialize (Hclaim 0 alice_login (with_cache reject_writes two_users)
                (mkRedis ∅ reject_writes) "refresh-alice"
                (mkSession 1 7 "tok-alice" (Some "sha256:refresh-alice") "{}" None None
                   0 0 86400000 true false false)
                (set_user_sessions (fun _ =>
                   [mkSession 1 7 "tok-alice" (Some "sha256:refresh-alice") "{}" None None
                      0 0 86400000 true false false])
                   (set_user_sessions_id_seq Z.succ (with_cache reject_writes two_users)))
                eq_refl eq_refl eq_refl eq_refl).
  discriminate Hclaim.
Qed.

(** C6, amended.  When the Ledger insert goes through and the cache turns
    the write down, [createSession] throws the cache's error, having written
    it to the console; the Ledger keeps the new row.  With no cache
    configured, or a cache that takes the write, it resolves to the row. *)
Theorem createSession_cache_failure `{Crypto} (now : Timestamp)
    (sessionData : SessionData) (w : World) (data : string) (row : SessionRow)
    (w1 : World) :
  TokenService.digest_input (sd_refresh_token sessionData) = Some data ->
  ledger_insert now sessionData data w = (Ok row, w1) ->
  (forall r, redis w = Some r ->
     rejects r (cache_write sessionData row) = true ->
     run (TokenService.createSession now sessionData) w = Throw redis_rejected
     /\ user_sessions (exec (TokenService.createSession now sessionData) w)
        = (user_sessions w ++ [row])%list
     /\ console (exec (TokenService.createSession now sessionData) w)
        = ("Error creating session:", redis_rejected) :: console w)
  /\ (redis w = None ->
      TokenService.createSession now sessionData w = (Ok row, w1))
  /\ (forall r, redis w = Some r ->
        rejects r (cache_write sessionData row) = false ->
        run (TokenService.createSession now sessionData) w = Ok row).
Proof.
  intros Hdata Hinsert.
  pose proof (createSession_run now sessionData data row w w1 Hdata Hinsert) as Hrun.
  assert (Hrows : user_sessions w1 = (user_sessions w ++ [row])%list
                  /\ console w1 = console w).
  { unfold ledger_insert, insert_user_session in Hinsert.
    revert Hinsert. repeat case_match; intros Heq; try discriminate.
    all: injection Heq as <- <-; split; reflexivity. }
  split; [|split].
  - intros r Hredis Hrejects. unfold run, exec. rewrite Hrun, Hredis, Hrejects.
    cbn [fst snd user_sessions console set_console].
    destruct Hrows as [-> ->]. repeat split.
  - intros Hoff. now rewrite Hrun, Hoff.
  - intros r Hredis Haccepts. unfold run. now rewrite Hrun, Hredis, Haccepts.
Qed.

Lemma createSession_cache_failure_witness :
  run (@TokenService.createSession toy_crypto 0 alice_login)
    (with_cache reject_writes two_users)
  = Throw redis_rejected
  /\ user_sessions (exec (@TokenService.createSession toy_crypto 0 alice_login)
                      (with_cache reject_writes two_users))
     = [mkSession 1 7 "tok-alice" (Some "sha256:refresh-alice") "{}" None None
          0 0 86400000 true false false]
  /\ console (exec (@TokenService.createSession toy_crypto 0 alice_login)
                (with_cache reject_writes two_users))
     = [("Error creating session:", redis_rejected)].
Proof.
  apply (proj1 (@createSession_cache_failure toy_crypto 0 alice_login
                  (with_cache reject_writes two_users) "refresh-alice"
                  (mkSession 1 7 "tok-alice" (Some "sha256:refresh-alice") "{}" None None
                     0 0 86400000 true false false)
                  _ eq_refl eq_refl)
           (mkRedis ∅ reject_writes)); reflexivity.
Defined.

(** ** [changePassword] *)

Lemma existsb_filter_cons {A} (q : A -> bool) (l : list A) x rest :
  List.filter q l = x :: rest -> existsb q l = true.
Proof.
  intros Hf. destruct (existsb q l) eqn:E; [reflexivity|].
  apply existsb_filter_nil in E. congruence.
Qed.

Lemma existsb_map_stable {A} (q : A -> bool) (g : A -> A) (l : list A) :
  (forall x, q (g x) = q x) -> existsb q (map g l) = existsb q l.
Proof.
  intros Hq. induction l as [|x l IH]; simpl; [reflexivity|].
  now rewrite Hq, IH.
Qed.

Lemma before_update_users_id now r : u_id (before_update_users now r) = u_id r.
Proof.
  unfold before_update_users, update_updated_at_column.
  cbn [u_id with_updated_at]. apply check_account_lockout_id.
Qed.

Lemma before_update_users_password_hash now r :
  u_password_hash (before_update_users now r) = u_password_hash r.
Proof.
  unfold before_update_users, update_updated_at_column, check_account_lockout.
  repeat case_match; reflexivity.
Qed.

Lemma before_update_users_reset_token now r :
  u_password_reset_token (before_update_users now r) = u_password_reset_token r.
Proof.
  unfold before_update_users, update_updated_at_column, check_account_lockout.
  repeat case_match; reflexivity.
Qed.

(** An audit event about a user on record, with no session, is stored. *)
Lemma logEvent_stored ev w :
  user_ref_ok (a_user_id ev) w = true -> a_session_id ev = None ->
  AuditService.logEvent ev w
  = (Ok tt, set_audit_logs (fun rows => (rows ++ [ev])%list) w).
Proof.
  intros Huser Hsession. unfold AuditService.logEvent. unfold_m.
  now rewrite Huser, Hsession.
Qed.

(** Stored or not, logging an event never throws and keeps to its own
    table and the console. *)
Lemma logEvent_frame ev w :
  exists w',
    AuditService.logEvent ev w = (Ok tt, w')
    /\ users w' = users w /\ user_sessions w' = user_sessions w
    /\ redis w' = redis w.
Proof.
  unfold AuditService.logEvent. unfold_m.
  destruct (user_ref_ok (a_user_id ev) w); cbn [negb].
  - destruct (a_session_id ev) as [sid|].
    + destruct (existsb _ (user_sessions w)); cbn [negb];
        eexists; (split; [reflexivity|]); repeat split.
    + eexists; (split; [reflexivity|]); repeat split.
  - eexists; (split; [reflexivity|]); repeat split.
Qed.

(** C9.  [changePassword] stores the new hash and then throws.  For a user
    on record who gives the current password, the call throws the
    [TypeError] of invoking [tokenService.findSessionByUserId], which
    [TokenService] does not define.  By then the user's row carries the hash
    of the new password; no session row and no cache entry has changed; the
    failure is in the audit log. *)
Theorem changePassword_always_throws `{Crypto} (now : Timestamp) (userId : Z)
    (currentPassword newPassword : string) (w : World)
    (user account : UserRow) (others others' : list UserRow) (hash : string) :
  List.filter (fun r => u_id r =? userId) (users w) = user :: others ->
  List.filter (fun r => String.eqb (u_email r) (u_email user)) (users w)
  = account :: others' ->
  u_password_hash account = Some hash ->
  bcrypt_compare currentPassword hash = true ->
  run (AuthService.changePassword now userId currentPassword newPassword) w
  = Throw findSessionByUserId_missing
  /\ Forall2 (password_changed userId newPassword) (users w)
       (users (exec (AuthService.changePassword now userId currentPassword newPassword) w))
  /\ user_sessions (exec (AuthService.changePassword now userId currentPassword newPassword) w)
     = user_sessions w
  /\ redis (exec (AuthService.changePassword now userId currentPassword newPassword) w)
     = redis w
  /\ audit_logs (exec (AuthService.changePassword now userId currentPassword newPassword) w)
     = (audit_logs w
        ++ [AuthService.audit (Some userId) "password_change_failed" false
              (Some "tokenService.findSessionByUserId is not a function")])%list.
Proof.
  intros Huser Haccount Hhash Hvalid.
  set (stored := fun r : UserRow =>
         if u_id r =? userId
         then before_update_users now
                (with_last_password_change (Some now)
                   (with_password_hash (Some (bcrypt_hash newPassword 12)) r))
         else r).
  assert (Hrun :
    AuthService.changePassword now userId currentPassword newPassword w
    = (Throw findSessionByUserId_missing,
       set_audit_logs (fun rows =>
         (rows ++ [AuthService.audit (Some userId) "password_change_failed" false
                     (Some "tokenService.findSessionByUserId is not a function")])%list)
         (set_users (map stored)
            (set_bcrypt_compares (cons (currentPassword, hash)) w)))).
  { unfold AuthService.changePassword, User.findById, User.findByEmail.
    unfold_m. rewrite Huser. cbv beta iota.
    cbn [u_email User.public_columns]. rewrite Haccount. cbv beta iota.
    unfold await_bcrypt_compare. rewrite Hhash. unfold_m. rewrite Hvalid.
    cbn [negb]. unfold update_users, invoke, TokenService.findSessionByUserId.
    unfold_m. cbv beta iota. fold stored.
    rewrite logEvent_stored; [reflexivity| |reflexivity].
    cbn [a_user_id AuthService.audit user_ref_ok]. unfold user_exists.
    cbn [users set_users set_bcrypt_compares].
    rewrite existsb_map_stable.
    - exact (existsb_filter_cons _ _ _ _ Huser).
    - intros r. unfold stored. destruct (u_id r =? userId) eqn:E; [|exact E].
      now rewrite before_update_users_id. }
  unfold run, exec. rewrite Hrun.
  cbn [fst snd users user_sessions redis audit_logs set_audit_logs set_users
       set_bcrypt_compares].
  split; [reflexivity|]. split; [|repeat split].
  apply Forall2_map_same. intros r _. unfold password_changed, stored.
  destruct (u_id r =? userId); [|reflexivity].
  now rewrite before_update_users_password_hash.
Qed.

Lemma changePassword_always_throws_witness :
  run (@AuthService.changePassword toy_crypto 1000 7 "correct horse" "battery staple")
    force_logged_out_world
  = Throw findSessionByUserId_missing
  /\ u_password_hash
       <$> users (exec (@AuthService.changePassword toy_crypto 1000 7
                          "correct horse" "battery staple") force_logged_out_world)
     = [Some "$2a$battery staple"; Some "$2a$tr0ub4dor"]
  /\ user_sessions (exec (@AuthService.changePassword toy_crypto 1000 7
                            "correct horse" "battery staple") force_logged_out_world)
     = user_sessions force_logged_out_world.
Proof.
  destruct (@changePassword_always_throws toy_crypto 1000 7 "correct horse"
              "battery staple" force_logged_out_world alice alice [] [] "$2a$correct horse"
              eq_refl eq_refl eq_refl eq_refl)
    as (Hthrows & _ & Hsessions & _).
  split; [exact Hthrows|]. split; [reflexivity|exact Hsessions].
Defined.

(** ** Password reset *)

Lemma session_key_inj t1 t2 :
  TokenService.session_key t1 = TokenService.session_key t2 -> t1 = t2.
Proof. unfold TokenService.session_key. cbn. now intros [=]. Qed.

Lemma lookup_fold_delete_deleted {V} (keys : list string) (m : gmap string V)
    (k : string) :
  In k keys -> fold_right delete m keys !! k = None.
Proof.
  induction keys as [|key keys IH]; cbn [fold_right]; intros Hin; [destruct Hin|].
  destruct (decide (key = k)) as [->|Hne].
  - apply lookup_delete_eq.
  - rewrite lookup_delete_ne by exact Hne. apply IH.
    destruct Hin as [Heq|Hin]; [contradiction|exact Hin].
Qed.

Lemma lookup_fold_delete_kept {V} (keys : list string) (m : gmap string V)
    (k : string) (v : V) :
  fold_right delete m keys !! k = Some v -> m !! k = Some v.
Proof.
  induction keys as [|key keys IH]; cbn [fold_right]; intros Hsome; [exact Hsome|].
  destruct (decide (key = k)) as [->|Hne].
  - rewrite lookup_delete_eq in Hsome. discriminate.
  - rewrite lookup_delete_ne in Hsome by exact Hne. now apply IH.
Qed.

Lemma redis_del_all_healthy keys w r :
  redis w = Some r -> (forall cmd, rejects r cmd = false) ->
  redis_del_all keys w
  = (Ok tt,
     set_redis (fun _ => Some (mkRedis (fold_right delete (entries r) keys) (rejects r))) w).
Proof.
  intros Hredis Hhealthy. unfold redis_del_all. rewrite Hredis.
  assert (Hall : forallb (fun key => negb (rejects r (DEL key))) keys = true).
  { apply forallb_forall. intros key _. now rewrite Hhealthy. }
  rewrite Hall. f_equal. f_equal.
  assert (Hkeep : List.filter (fun key => negb (rejects r (DEL key))) keys = keys).
  { clear Hall. induction keys as [|key keys IH]; [reflexivity|].
    cbn [List.filter]. rewrite Hhealthy. cbn [negb]. now rewrite IH. }
  now rewrite Hkeep.
Qed.

Lemma invalidateAllUserSessions_healthy userId w :
  cache_healthy w ->
  exists w',
    TokenService.invalidateAllUserSessions userId w = (Ok tt, w')
    /\ users w' = users w
    /\ user_sessions w' = map (deactivate_sessions_of userId) (user_sessions w)
    /\ match redis w with
       | None => redis w' = None
       | Some r =>
           redis w'
           = Some (mkRedis
                     (fold_right delete (entries r)
                        (map (fun row => TokenService.session_key (s_session_token row))
                           (active_sessions_of userId w)))
                     (rejects r))
       end.
Proof.
  intros Hhealthy. unfold TokenService.invalidateAllUserSessions. unfold_m.
  unfold redis_configured. destruct (redis w) as [r|] eqn:Hredis.
  - rewrite (redis_del_all_healthy _ _ r).
    + eexists. split; [reflexivity|]. repeat split.
    + exact Hredis.
    + intros cmd. now apply (Hhealthy r cmd).
  - eexists. split; [reflexivity|]. cbn. rewrite Hredis. repeat split.
Qed.

(** When the cache holds no entry marked active under the key of [token]
    and the Ledger query finds no row, the answer is null. *)
Lemma findSessionByToken_null now token w :
  (forall r, redis w = Some r ->
     rejects r (GET (TokenService.session_key token)) = false
     /\ forall value deadline,
          entries r !! TokenService.session_key token = Some (value, deadline) ->
          obj_is_active value = false) ->
  List.filter (TokenService.ledger_match now token) (user_sessions w) = [] ->
  run (TokenService.findSessionByToken now token) w = Ok None.
Proof.
  intros Hcache Hledger. unfold TokenService.findSessionByToken. unfold_m.
  unfold redis_configured, redis_get.
  destruct (redis w) as [r|] eqn:Hredis; cbv beta iota; rewrite ?Hredis.
  - destruct (Hcache r eq_refl) as [Hget Hentries]. rewrite Hget.
    destruct (entries r !! TokenService.session_key token) as [[value deadline]|] eqn:He.
    + destruct (now <? deadline); cbv beta iota;
        rewrite ?(Hentries value deadline eq_refl), ?andb_false_r;
        cbv beta iota; now rewrite Hledger.
    + cbv beta iota. now rewrite Hledger.
  - now rewrite Hledger.
Qed.

Section ResetPassword.
Context `{Crypto}.

Lemma holder_has_token now token u w :
  holds_reset_token now token u w ->
  In u (users w) /\ opt_string_eqb (u_password_reset_token u) token = true.
Proof.
  intros [Hholder _].
  assert (Hin : In u (List.filter
            (fun r => opt_string_eqb (u_password_reset_token r) token) (users w)))
    by (rewrite Hholder; now left).
  now apply filter_In in Hin.
Qed.

Lemma verifyPasswordResetToken_holder now token u w :
  holds_reset_token now token u w ->
  User.verifyPasswordResetToken now token w = (Ok (Some u), w).
Proof.
  intros [Hholder (expires & Hexpires & Hlt)].
  unfold User.verifyPasswordResetToken. unfold_m.
  rewrite filter_andb, Hholder. cbn [List.filter]. rewrite Hexpires.
  apply Z.ltb_lt in Hlt. now rewrite Hlt.
Qed.

Lemma verifyPasswordResetToken_nobody now token w :
  List.filter (fun r => opt_string_eqb (u_password_reset_token r) token) (users w) = [] ->
  User.verifyPasswordResetToken now token w = (Ok None, w).
Proof.
  intros Hnobody. unfold User.verifyPasswordResetToken. unfold_m.
  now rewrite filter_andb, Hnobody.
Qed.

Lemma resetPassword_run now token newPassword u w :
  holds_reset_token now token u w ->
  exists this',
    User.resetPassword now u newPassword token w
    = (Ok this', set_users (map (reset_row now newPassword (u_id u))) w)
    /\ u_id this' = u_id u.
Proof.
  intros Hholds. destruct (holder_has_token _ _ _ _ Hholds) as [_ Htoken].
  destruct Hholds as [_ (expires & Hexpires & Hlt)].
  unfold User.resetPassword. rewrite Htoken, Hexpires. cbn [negb orb].
  assert (Hfresh : (expires <? now) = false) by (apply Z.ltb_ge; lia).
  rewrite Hfresh. eexists. split; [reflexivity|reflexivity].
Qed.

(** After the reset nobody stores the token any more. *)
Lemma reset_clears_token now token newPassword u w :
  holds_reset_token now token u w ->
  List.filter (fun r => opt_string_eqb (u_password_reset_token r) token)
    (map (reset_row now newPassword (u_id u)) (users w)) = [].
Proof.
  intros [Hholder _].
  assert (Hu : forall x, In x (users w) ->
            opt_string_eqb (u_password_reset_token x) token = true -> x = u).
  { intros x Hx Htok.
    assert (Hin : In x (List.filter
              (fun r => opt_string_eqb (u_password_reset_token r) token) (users w)))
      by (apply filter_In; split; assumption).
    rewrite Hholder in Hin. destruct Hin as [<-|[]]. reflexivity. }
  clear Hholder. induction (users w) as [|x rows IH]; [reflexivity|].
  cbn [map List.filter].
  assert (Hx : opt_string_eqb
                 (u_password_reset_token (reset_row now newPassword (u_id u) x)) token
               = false).
  { unfold reset_row. destruct (u_id x =? u_id u) eqn:Hid.
    - now rewrite before_update_users_reset_token.
    - destruct (opt_string_eqb (u_password_reset_token x) token) eqn:Htok; [|reflexivity].
      rewrite (Hu x (or_introl eq_refl) Htok) in Hid.
      rewrite Z.eqb_refl in Hid. discriminate. }
  rewrite Hx. apply IH. intros y Hy. apply Hu. now right.
Qed.

(** The whole of [AuthService.resetPassword] on a healthy cache. *)
Lemma AuthService_resetPassword_run now token newPassword u w :
  cache_healthy w -> holds_reset_token now token u w ->
  exists message w',
    AuthService.resetPassword now token newPassword w = (Ok message, w')
    /\ users w' = map (reset_row now newPassword (u_id u)) (users w)
    /\ user_sessions w' = map (deactivate_sessions_of (u_id u)) (user_sessions w)
    /\ match redis w with
       | None => redis w' = None
       | Some r =>
           redis w'
           = Some (mkRedis
                     (fold_right delete (entries r)
                        (map (fun row => TokenService.session_key (s_session_token row))
                           (active_sessions_of (u_id u) w)))
                     (rejects r))
       end.
Proof.
  intros Hhealthy Hholds.
  destruct (resetPassword_run now token newPassword u w Hholds) as (this' & Hreset & Hid).
  set (w1 := set_users (map (reset_row now newPassword (u_id u))) w) in *.
  assert (Hhealthy1 : cache_healthy w1) by exact Hhealthy.
  destruct (invalidateAllUserSessions_healthy (u_id u) w1 Hhealthy1)
    as (w2 & Hinvalidate & Husers2 & Hsessions2 & Hredis2).
  destruct (logEvent_frame
              (AuthService.audit (Some (u_id u)) "password_reset_completed" true None) w2)
    as (w3 & Hlog & Husers3 & Hsessions3 & Hredis3).
  exists "Password reset successful. Please log in with your new password.", w3.
  split.
  - unfold AuthService.resetPassword. unfold try_catch, bind.
    rewrite (verifyPasswordResetToken_holder now token u w Hholds).
    rewrite Hreset, Hid, Hinvalidate, Hlog. reflexivity.
  - rewrite Husers3, Husers2, Hsessions3, Hsessions2, Hredis3.
    repeat split. exact Hredis2.
Qed.

(** Once the token is gone, [AuthService.resetPassword] with it throws. *)
Lemma AuthService_resetPassword_unknown now token newPassword w :
  List.filter (fun r => opt_string_eqb (u_password_reset_token r) token) (users w) = [] ->
  run (AuthService.resetPassword now token newPassword) w
  = Throw User.InvalidResetTokenError.
Proof.
  intros Hnobody. unfold run, AuthService.resetPassword, try_catch, bind.
  rewrite (verifyPasswordResetToken_nobody now token w Hnobody).
  unfold throw.
  destruct (logEvent_frame
              (AuthService.audit None "password_reset_failed" false
                 (Some (error_message User.InvalidResetTokenError))) w)
    as (w' & Hlog & _).
  now rewrite Hlog.
Qed.

(** C3, amended.  Consuming a reset token ends the user's sessions, once.  In a
    world whose session tokens are unique and whose cache turns no command
    down and shows no inactive session of the user as active, let [u] be
    the user who stores [token], unexpired.  Then [resetPassword] succeeds; afterwards
    [findSessionByToken] answers null, at any later instant, for the token
    of every session [u] had; and [resetPassword] with the same token, at
    any instant and for any new password, throws the invalid-token error. *)
Theorem reset_password_ends_sessions (now : Timestamp) (token newPassword : string)
    (u : UserRow) (w : World) :
  session_tokens_unique w ->
  cache_faithful_to (u_id u) w ->
  cache_healthy w ->
  holds_reset_token now token u w ->
  exists message w',
    AuthService.resetPassword now token newPassword w = (Ok message, w')
    /\ (forall s later,
          In s (user_sessions w) -> s_user_id s = u_id u ->
          run (TokenService.findSessionByToken later (s_session_token s)) w' = Ok None)
    /\ (forall later password,
          run (AuthService.resetPassword later token password) w'
          = Throw User.InvalidResetTokenError).
Proof.
  intros Hunique Hfaithful Hhealthy Hholds.
  destruct (AuthService_resetPassword_run now token newPassword u w Hhealthy Hholds)
    as (message & w' & Hrun & Husers & Hsessions & Hredis).
  exists message, w'. split; [exact Hrun|]. split.
  - intros s later Hs Howner. apply findSessionByToken_null.
    + intros r' Hredis'. destruct (redis w) as [r|] eqn:Hr; [|congruence].
      rewrite Hredis in Hredis'. injection Hredis' as <-. cbn [rejects entries].
      split; [now apply (Hhealthy r)|].
      intros value deadline Hentry.
      destruct (obj_is_active value) eqn:Hactive; [exfalso|reflexivity].
      pose proof (lookup_fold_delete_kept _ _ _ _ Hentry) as Hbefore.
      pose proof (Hfaithful r s value deadline Hr Hs Howner Hbefore Hactive) as Hactive'.
      rewrite lookup_fold_delete_deleted in Hentry; [discriminate|].
      apply in_map_iff. exists s. split; [reflexivity|].
      apply filter_In. split; [exact Hs|].
      now rewrite Howner, Z.eqb_refl, Hactive'.
    + rewrite Hsessions.
      destruct (List.filter _ (map _ (user_sessions w))) as [|x rest] eqn:Hf;
        [reflexivity|exfalso].
      assert (Hx : In x (List.filter
                (TokenService.ledger_match later (s_session_token s))
                (map (deactivate_sessions_of (u_id u)) (user_sessions w))))
        by (rewrite Hf; now left).
      apply filter_In in Hx as [Hx Hmatch].
      apply in_map_iff in Hx as (x0 & <- & Hx0).
      unfold TokenService.ledger_match in Hmatch.
      repeat (apply andb_true_iff in Hmatch as [Hmatch ?]).
      apply String.eqb_eq in Hmatch.
      unfold deactivate_sessions_of in *.
      destruct (s_user_id x0 =? u_id u) eqn:Hown.
      * cbn in *. discriminate.
      * assert (x0 = s) by now apply Hunique. subst x0.
        rewrite Howner, Z.eqb_refl in Hown. discriminate.
  - intros later password. apply AuthService_resetPassword_unknown.
    rewrite Husers. now apply reset_clears_token.
Qed.

End ResetPassword.

(** The logout that the cache let down: it throws, the Ledger has the
    session as inactive, and the cache still has it as active. *)
Example failed_logout_leaves_cache_entry :
  run (AuthService.logout 600 "tok-alice")
    (with_oracle reject_deletes reset_pending_world)
  = Throw redis_rejected
  /\ user_sessions failed_logout_world = [with_session_is_active false alice_session]
  /\ cache_healthy failed_logout_world
  /\ run (TokenService.findSessionByToken 700 "tok-alice") failed_logout_world
     = Ok (Some (Compact 1 7 true 86400000)).
Proof.
  split; [reflexivity|]. split; [reflexivity|]. split; [|reflexivity].
  intros r cmd [= <-]. reflexivity.
Qed.

(** C3, as stated, fails: after a logout whose cache deletion was turned
    down, the session is inactive in the Ledger and still cached;
    [invalidateAllUserSessions] deletes the keys of the sessions that are
    active in the Ledger only, so the reset succeeds and the session is
    served afterwards. *)
Lemma reset_leaves_stale_cache_entry :
  ~ (forall (now : Timestamp) (token newPassword : string) (u : UserRow) (w : World),
       session_tokens_unique w ->
       holds_reset_token now token u w ->
       exists message w',
         @AuthService.resetPassword toy_crypto now token newPassword w = (Ok message, w')
         /\ (forall s later,
               In s (user_sessions w) -> s_user_id s = u_id u ->
               run (TokenService.findSessionByToken later (s_session_token s)) w'
               = Ok None)
         /\ (forall later password,
               run (@AuthService.resetPassword toy_crypto later token password) w'
               = Throw User.InvalidResetTokenError)).
Proof.
  intros Hclaim.
  destruct (Hclaim 1000 "reset-123" "battery staple"
              (mkUser 7 "alice@example.org" (Some "$2a$correct horse") (Some "reset-123")
                 (Some 3600500) None 0 None None true 500)
              failed_logout_world)
    as (message & w' & Hrun & Hsessions & _).
  - intros s1 s2 [<-|[]] [<-|[]] _. reflexivity.
  - split; [reflexivity|]. exists 3600500. split; [reflexivity|lia].
  - assert (Hserved :
      run (TokenService.findSessionByToken 2000 "tok-alice")
        (exec (@AuthService.resetPassword toy_crypto 1000 "reset-123" "battery staple")
           failed_logout_world)
      = Ok (Some (Compact 1 7 true 86400000))) by reflexivity.
    unfold exec in Hserved. rewrite Hrun in Hserved. cbn [snd] in Hserved.
    pose proof (Hsessions (with_session_is_active false alice_session) 2000
                  (or_introl eq_refl) eq_refl) as Hnull.
    change (s_session_token (with_session_is_active false alice_session))
      with "tok-alice" in Hnull.
    rewrite Hnull in Hserved. discriminate Hserved.
Qed.

(** Nor does the reset end the sessions when the cache turns its own
    deletions down: the call throws, the token is consumed, and the
    session is served. *)
Example reset_on_failing_cache :
  run (@AuthService.resetPassword toy_crypto 1000 "reset-123" "battery staple")
    (with_oracle reject_deletes reset_pending_world)
  = Throw redis_rejected
  /\ run (TokenService.findSessionByToken 2000 "tok-alice")
       (exec (@AuthService.resetPassword toy_crypto 1000 "reset-123" "battery staple")
          (with_oracle reject_deletes reset_pending_world))
     = Ok (Some (Compact 1 7 true 86400000))
  /\ run (@AuthService.resetPassword toy_crypto 3000 "reset-123" "staple battery")
       (exec (@AuthService.resetPassword toy_crypto 1000 "reset-123" "battery staple")
          (with_oracle reject_deletes reset_pending_world))
     = Throw User.InvalidResetTokenError.
Proof. repeat split. Qed.

(** Before the reset the session is served from the cache. *)
Example reset_pending_session_is_live :
  run (TokenService.findSessionByToken 1000 "tok-alice") reset_pending_world
  = Ok (Some (Compact 1 7 true 86400000)).
Proof. reflexivity. Qed.

Lemma reset_password_ends_sessions_witness :
  exists message w',
    @AuthService.resetPassword toy_crypto 1000 "reset-123" "battery staple"
      reset_pending_world = (Ok message, w')
    /\ run (TokenService.findSessionByToken 2000 "tok-alice") w' = Ok None
    /\ run (@AuthService.resetPassword toy_crypto 3000 "reset-123" "staple battery") w'
       = Throw User.InvalidResetTokenError.
Proof.
  destruct (@reset_password_ends_sessions toy_crypto 1000 "reset-123" "battery staple"
              (mkUser 7 "alice@example.org" (Some "$2a$correct horse") (Some "reset-123")
                 (Some 3600500) None 0 None None true 500)
              reset_pending_world)
    as (message & w' & Hrun & Hsessions & Hsecond).
  - intros s1 s2 [<-|[]] [<-|[]] _. reflexivity.
  - intros r s value deadline _ [<-|[]] _ _ _. reflexivity.
  - intros r cmd [= <-]. reflexivity.
  - split; [reflexivity|]. exists 3600500. split; [reflexivity|lia].
  - exists message, w'. split; [exact Hrun|]. split.
    + apply (Hsessions alice_session 2000); [now left|reflexivity].
    + apply Hsecond.
Defined.

(** ** The hypotheses of C3 are invariants

    Unique session tokens and a coherent cache, which make the cache
    faithful to every user, hold of the empty world and are kept by the
    operations of [TokenService] that write sessions, the cache being
    healthy where a deletion is involved. *)

Lemma coherent_cache_is_faithful w :
  session_tokens_unique w -> cache_coherent w ->
  forall user_id, cache_faithful_to user_id w.
Proof.
  intros Hunique Hcoherent user_id r s value deadline Hredis Hs _ Hentry Hactive.
  destruct (Hcoherent r (s_session_token s) value deadline Hredis Hentry Hactive)
    as (s' & Hs' & Htoken & Hactive').
  now rewrite <- (Hunique s' s Hs' Hs Htoken).
Qed.

Lemma empty_world_invariants :
  session_tokens_unique empty_world /\ cache_coherent empty_world.
Proof.
  split.
  - intros s1 s2 [].
  - intros r token value deadline Hredis. discriminate.
Qed.

Lemma invalidateAllUserSessions_keeps_invariants userId w :
  cache_healthy w -> session_tokens_unique w -> cache_coherent w ->
  session_tokens_unique (exec (TokenService.invalidateAllUserSessions userId) w)
  /\ cache_coherent (exec (TokenService.invalidateAllUserSessions userId) w).
Proof.
  intros Hhealthy Hunique Hcoherent.
  destruct (invalidateAllUserSessions_healthy userId w Hhealthy)
    as (w' & Hrun & _ & Hsessions & Hredis).
  unfold exec. rewrite Hrun. cbn [snd].
  assert (Htoken : forall s,
            s_session_token (deactivate_sessions_of userId s) = s_session_token s).
  { intros s. unfold deactivate_sessions_of. now destruct (s_user_id s =? userId). }
  split.
  - intros s1 s2. rewrite Hsessions. intros Hs1 Hs2 Heq.
    apply in_map_iff in Hs1 as (x1 & <- & Hx1).
    apply in_map_iff in Hs2 as (x2 & <- & Hx2).
    rewrite !Htoken in Heq. now rewrite (Hunique x1 x2 Hx1 Hx2 Heq).
  - intros r' token value deadline Hredis' Hentry Hactive.
    destruct (redis w) as [r|] eqn:Hr; [|congruence].
    rewrite Hredis in Hredis'. injection Hredis' as <-. cbn [entries] in Hentry.
    pose proof (lookup_fold_delete_kept _ _ _ _ Hentry) as Hbefore.
    destruct (Hcoherent r token value deadline Hr Hbefore Hactive)
      as (s & Hs & Hstoken & Hsactive).
    destruct (s_user_id s =? userId) eqn:Hown.
    + exfalso. rewrite lookup_fold_delete_deleted in Hentry; [discriminate|].
      apply in_map_iff. exists s. split; [now rewrite Hstoken|].
      apply filter_In. split; [exact Hs|]. now rewrite Hown, Hsactive.
    + exists s. rewrite Hsessions. split; [|split; assumption].
      apply in_map_iff. exists s. split; [|exact Hs].
      unfold deactivate_sessions_of. now rewrite Hown.
Qed.

Lemma createSession_keeps_invariants `{Crypto} now sessionData w :
  session_tokens_unique w -> cache_coherent w ->
  session_tokens_unique (exec (TokenService.createSession now sessionData) w)
  /\ cache_coherent (exec (TokenService.createSession now sessionData) w).
Proof.
  intros Hunique Hcoherent.
  destruct (TokenService.digest_input (sd_refresh_token sessionData)) as [data|] eqn:Hdata.
  2:{ unfold exec, TokenService.createSession. unfold_m. rewrite Hdata.
      cbn [snd]. split; assumption. }
  destruct (ledger_insert now sessionData data w) as [[row|e] w1] eqn:Hinsert.
  2:{ assert (Hw1 : user_sessions w1 = user_sessions w /\ redis w1 = redis w).
      { unfold ledger_insert, insert_user_session in Hinsert. revert Hinsert.
        repeat case_match; intros Heq; try discriminate.
        all: injection Heq as <- <-; split; reflexivity. }
      unfold exec, TokenService.createSession. unfold_m. rewrite Hdata.
      unfold ledger_insert in Hinsert. rewrite Hinsert. cbn [snd].
      destruct Hw1 as [Hs Hr]. split.
      - intros s1 s2. cbn [user_sessions set_console]. rewrite Hs. apply Hunique.
      - intros r token value deadline. cbn [user_sessions redis set_console].
        rewrite Hs, Hr. apply Hcoherent. }
  assert (Hw1 : user_sessions w1 = (user_sessions w ++ [row])%list
                /\ redis w1 = redis w
                /\ s_session_token row = sd_access_token sessionData
                /\ s_is_active row = true
                /\ existsb (fun s => String.eqb (s_session_token s)
                                       (sd_access_token sessionData))
                     (user_sessions w) = false).
  { unfold ledger_insert, insert_user_session in Hinsert. revert Hinsert.
    repeat case_match; intros Heq; try discriminate.
    all: injection Heq as <- <-; repeat split; assumption. }
  destruct Hw1 as (Hs & Hr & Htoken & Hactive & Hfresh).
  assert (Hunique1 : session_tokens_unique w1).
  { assert (Hnew : forall s, In s (user_sessions w) ->
              s_session_token s <> s_session_token row).
    { intros s Hin Heq.
      assert (Hex : existsb (fun s => String.eqb (s_session_token s)
                                        (sd_access_token sessionData))
                      (user_sessions w) = true).
      { apply existsb_exists. exists s. split; [exact Hin|].
        apply String.eqb_eq. now rewrite Heq. }
      congruence. }
    intros s1 s2. rewrite Hs. intros H1 H2 Heq.
    apply in_app_or in H1 as [H1|[<-|[]]]; apply in_app_or in H2 as [H2|[<-|[]]].
    - now apply Hunique.
    - now apply Hnew in Heq.
    - symmetry in Heq. now apply Hnew in Heq.
    - reflexivity. }
  assert (Hcoherent1 : cache_coherent w1).
  { intros r token value deadline. rewrite Hr, Hs. intros Hredis Hentry Hact.
    destruct (Hcoherent r token value deadline Hredis Hentry Hact) as (s & Hin & Hrest).
    exists s. split; [apply in_or_app; now left|exact Hrest]. }
  unfold exec. rewrite (createSession_run now sessionData data row w w1 Hdata Hinsert).
  destruct (redis w) as [r|] eqn:Hredis; [|now split].
  destruct (rejects r (cache_write sessionData row)); cbn [snd].
  - split.
    + intros s1 s2. cbn [user_sessions set_console]. apply Hunique1.
    + intros r' token value deadline. cbn [user_sessions redis set_console].
      apply Hcoherent1.
  - split.
    + intros s1 s2. cbn [user_sessions set_redis]. apply Hunique1.
    + intros r' token value deadline. cbn [user_sessions redis set_redis].
      intros [= <-]. cbn [entries]. intros Hentry Hact.
      apply lookup_insert_Some in Hentry as [[Hkey Hvalue]|[Hkey Hentry]].
      * apply session_key_inj in Hkey. exists row. rewrite Hs.
        split; [apply in_or_app; right; now left|].
        split; [congruence|exact Hactive].
      * apply (Hcoherent1 r token value deadline); [congruence|exact Hentry|exact Hact].
Qed.

(** What [findSessionByToken] can change: nothing in the Ledger, and in the
    cache at most the entry of [token], which it sets to an active row of
    the Ledger with that token. *)
Lemma findSessionByToken_effect now token w :
  user_sessions (exec (TokenService.findSessionByToken now token) w) = user_sessions w
  /\ (redis (exec (TokenService.findSessionByToken now token) w) = redis w
      \/ exists r session deadline,
           redis w = Some r
           /\ In session (user_sessions w)
           /\ s_session_token session = token /\ s_is_active session = true
           /\ redis (exec (TokenService.findSessionByToken now token) w)
              = Some (mkRedis
                        (<[TokenService.session_key token := (FullRow session, deadline)]>
                           (entries r))
                        (rejects r))).
Proof.
  unfold exec, TokenService.findSessionByToken. unfold_m.
  unfold redis_configured, redis_get, redis_setex.
  destruct (List.filter (TokenService.ledger_match now token) (user_sessions w))
    as [|session rest] eqn:Hf.
  { repeat case_match; simplify_eq; cbn; (split; [reflexivity|now left]). }
  assert (Hsession : In session (user_sessions w)
                     /\ TokenService.ledger_match now token session = true).
  { apply filter_In. rewrite Hf. now left. }
  destruct Hsession as [Hin Hmatch].
  unfold TokenService.ledger_match in Hmatch.
  repeat (apply andb_true_iff in Hmatch as [Hmatch ?]).
  apply String.eqb_eq in Hmatch.
  destruct (redis w) as [r|] eqn:Hredis; cbv beta iota; rewrite ?Hredis;
    [|split; [reflexivity|now left]].
  repeat case_match; simplify_eq; cbn [snd user_sessions redis set_redis set_console];
    (split; [reflexivity|]); try (now left).
  all: right; exists r, session; eexists; repeat split; try eassumption; reflexivity.
Qed.

Lemma findSessionByToken_keeps_invariants now token w :
  session_tokens_unique w -> cache_coherent w ->
  session_tokens_unique (exec (TokenService.findSessionByToken now token) w)
  /\ cache_coherent (exec (TokenService.findSessionByToken now token) w).
Proof.
  intros Hunique Hcoherent.
  destruct (findSessionByToken_effect now token w) as [Hsessions Hcache].
  split.
  - intros s1 s2. rewrite Hsessions. apply Hunique.
  - intros r' token' value deadline'. rewrite Hsessions.
    destruct Hcache as [->|(r & session & deadline & Hredis & Hin & Htoken & Hactive & ->)].
    + apply Hcoherent.
    + intros [= <-]. cbn [entries]. intros Hentry Hact.
      apply lookup_insert_Some in Hentry as [[Hkey Hvalue]|[Hkey Hentry]].
      * apply session_key_inj in Hkey. exists session. subst token'.
        repeat split; assumption.
      * now apply (Hcoherent r token' value deadline').
Qed.

(** * Further properties *)

(** ** Sessions *)

Lemma ledger_insert_ok `{Crypto} now sessionData data row w w1 :
  ledger_insert now sessionData data w = (Ok row, w1) ->
  row = mkSession (user_sessions_id_seq w) (sd_user_id sessionData)
          (sd_access_token sessionData) (Some (sha256_hex data))
          (sd_device_info sessionData) (sd_ip_address sessionData)
          (sd_user_agent sessionData) now now
          (now + (if sd_is_remembered sessionData then 24 * 30 else 24) * 60 * 60 * 1000)
          true (sd_is_remembered sessionData) false
  /\ user_sessions w1 = (user_sessions w ++ [row])%list
  /\ redis w1 = redis w
  /\ audit_logs w1 = audit_logs w
  /\ List.filter (fun s => String.eqb (s_session_token s) (sd_access_token sessionData))
       (user_sessions w) = []
  /\ List.filter (fun s => opt_string_eqb (s_refresh_token s) (sha256_hex data))
       (user_sessions w) = [].
Proof.
  unfold ledger_insert, insert_user_session. cbn [user_sessions set_user_sessions_id_seq].
  destruct (existsb _ (user_sessions w)) eqn:Htoken; [discriminate|].
  destruct (existsb (fun s => opt_string_eqb (s_refresh_token s) (sha256_hex data))
              (user_sessions w)) eqn:Hrefresh; [discriminate|].
  destruct (negb _); [discriminate|].
  intros [= <- <-]. apply existsb_filter_nil in Htoken, Hrefresh.
  now repeat split.
Qed.

(** What [createSession] leaves in the Ledger and the cache when the
    insert goes through, whatever becomes of the cache write. *)
Lemma createSession_world `{Crypto} now sessionData data row w w1 :
  TokenService.digest_input (sd_refresh_token sessionData) = Some data ->
  ledger_insert now sessionData data w = (Ok row, w1) ->
  user_sessions (exec (TokenService.createSession now sessionData) w)
  = (user_sessions w ++ [row])%list
  /\ audit_logs (exec (TokenService.createSession now sessionData) w) = audit_logs w.
Proof.
  intros Hdata Hinsert.
  destruct (ledger_insert_ok _ _ _ _ _ _ Hinsert) as (_ & Hs & _ & Ha & _).
  unfold exec. rewrite (createSession_run now sessionData data row w w1 Hdata Hinsert).
  destruct (redis w) as [r|]; [|now split].
  destruct (rejects r _); now split.
Qed.

Lemma findSessionByToken_cache_off now token w :
  redis w = None ->
  TokenService.findSessionByToken now token w
  = (Ok (option_map FullRow
           (head (List.filter (TokenService.ledger_match now token) (user_sessions w)))),
     w).
Proof.
  intros Hoff. unfold TokenService.findSessionByToken. unfold_m.
  unfold redis_configured. rewrite Hoff.
  now destruct (List.filter _ (user_sessions w)).
Qed.

(** X1.  A session is served for its lifetime and no longer.  After a
    [createSession] at [now] whose insert goes through, on a cache that
    turns nothing down (or none), [findSessionByToken] with the access
    token answers non-null at exactly the instants before [now] plus one
    day, or plus thirty days for a remembered session. *)
Theorem session_served_for_its_lifetime `{Crypto} (now later : Timestamp)
    (sessionData : SessionData) (data : string) (row : SessionRow) (w w1 : World) :
  TokenService.digest_input (sd_refresh_token sessionData) = Some data ->
  ledger_insert now sessionData data w = (Ok row, w1) ->
  cache_healthy w ->
  exists answer,
    run (TokenService.findSessionByToken later (sd_access_token sessionData))
      (exec (TokenService.createSession now sessionData) w) = Ok answer
    /\ (answer <> None <-> later < now + lifetime sessionData).
Proof.
  intros Hdata Hinsert Hhealthy.
  destruct (ledger_insert_ok _ _ _ _ _ _ Hinsert)
    as (Hrow & Hsessions & Hredis & _ & Hfresh & _).
  assert (Hexpires : s_expires_at row = now + lifetime sessionData).
  { rewrite Hrow. cbn [s_expires_at]. unfold lifetime, hours.
    destruct (sd_is_remembered sessionData); lia. }
  assert (Hledger : forall w',
            user_sessions w' = (user_sessions w ++ [row])%list ->
            List.filter (TokenService.ledger_match later (sd_access_token sessionData))
              (user_sessions w')
            = if later <? now + lifetime sessionData then [row] else []).
  { intros w' ->. rewrite List.filter_app.
    assert (Hold : List.filter
                     (TokenService.ledger_match later (sd_access_token sessionData))
                     (user_sessions w) = []).
    { unfold TokenService.ledger_match.
      rewrite filter_andb, filter_andb, filter_andb, Hfresh. reflexivity. }
    rewrite Hold. cbn [app List.filter]. unfold TokenService.ledger_match.
    assert (Hfields : s_session_token row = sd_access_token sessionData
                      /\ s_is_active row = true /\ s_force_logout row = false)
      by (rewrite Hrow; repeat split).
    destruct Hfields as (-> & -> & ->). rewrite Hexpires, String.eqb_refl.
    cbn [andb negb]. rewrite andb_true_r.
    now destruct (later <? now + lifetime sessionData). }
  unfold exec. rewrite (createSession_run now sessionData data row w w1 Hdata Hinsert).
  destruct (redis w) as [r|] eqn:Hr.
  - rewrite (Hhealthy r _ Hr). cbn [snd].
    destruct (later <? now + lifetime sessionData) eqn:Hlive.
    + exists (Some (Compact (s_id row) (s_user_id row) true (s_expires_at row))).
      split.
      * unfold run.
        erewrite findSessionByToken_cache_hit; [reflexivity|reflexivity| | | | |reflexivity].
        -- cbn [rejects]. now apply (Hhealthy r).
        -- cbn [entries]. apply lookup_insert_eq.
        -- apply Z.ltb_lt in Hlive. unfold lifetime, hours in Hlive.
           destruct (sd_is_remembered sessionData); lia.
        -- cbn [obj_expires_at]. rewrite Hexpires. now apply Z.ltb_lt.
      * split; [intros _; now apply Z.ltb_lt|discriminate].
    + exists None. split.
      * unfold run, TokenService.findSessionByToken. unfold_m.
        unfold redis_configured, redis_get.
        cbn [redis set_redis rejects entries user_sessions].
        rewrite (Hhealthy r _ Hr), lookup_insert_eq.
        assert (Hdead : (later <? now + (if sd_is_remembered sessionData then 24 * 30 else 24)
                                    * 3600 * 1000) = false).
        { apply Z.ltb_ge. apply Z.ltb_ge in Hlive. unfold lifetime, hours in Hlive.
          destruct (sd_is_remembered sessionData); lia. }
        rewrite Hdead. cbv beta iota.
        rewrite (Hledger w1 Hsessions). reflexivity.
      * split; [congruence|]. intros Hlt. apply Z.ltb_ge in Hlive. lia.
  - destruct (later <? now + lifetime sessionData) eqn:Hlive.
    + exists (Some (FullRow row)). split.
      * unfold run. cbn [snd].
        rewrite findSessionByToken_cache_off by congruence.
        rewrite (Hledger w1 Hsessions). reflexivity.
      * split; [intros _; now apply Z.ltb_lt|discriminate].
    + exists None. split.
      * unfold run. cbn [snd].
        rewrite findSessionByToken_cache_off by congruence.
        rewrite (Hledger w1 Hsessions). reflexivity.
      * split; [congruence|]. intros Hlt. apply Z.ltb_ge in Hlive. lia.
Qed.

Lemma session_served_for_its_lifetime_witness :
  exists answer,
    run (TokenService.findSessionByToken 86399999 "tok-alice")
      (exec (@TokenService.createSession toy_crypto 0 alice_login)
         (with_cache accept_all two_users)) = Ok answer
    /\ (answer <> None <-> 86399999 < 0 + lifetime alice_login).
Proof.
  apply (@session_served_for_its_lifetime toy_crypto 0 86399999 alice_login
           "refresh-alice" alice_session (with_cache accept_all two_users)
           (set_user_sessions (fun rows => (rows ++ [alice_session])%list)
              (set_user_sessions_id_seq Z.succ (with_cache accept_all two_users)))).
  - reflexivity.
  - reflexivity.
  - intros r cmd [= <-]. reflexivity.
Defined.

Lemma verifyRefreshToken_run `{Crypto} now refreshToken w :
  TokenService.verifyRefreshToken now refreshToken w
  = (Ok (head (List.filter (fun s => s_is_active s && (now <? s_expires_at s))
                 (List.filter
                    (fun s => opt_string_eqb (s_refresh_token s) (sha256_hex refreshToken))
                    (user_sessions w)))),
     w).
Proof.
  unfold TokenService.verifyRefreshToken. unfold_m. f_equal. f_equal. f_equal.
  rewrite <- filter_andb. apply List.filter_ext. intros s.
  now rewrite andb_assoc.
Qed.

(** X2.  The refresh token comes back.  The pair that
    [generateRefreshToken] makes of a non-empty draw, handed to
    [createSession], is stored so that [verifyRefreshToken] with the raw
    token finds the new session until it expires, and nothing after; this
    whether or not the cache took the write. *)
Theorem refresh_token_round_trip `{Crypto} (now later : Timestamp) (raw : string)
    (sessionData : SessionData) (row : SessionRow) (w w1 : World) :
  raw <> "" ->
  run (TokenService.generateRefreshToken raw) w = Ok (sd_refresh_token sessionData) ->
  ledger_insert now sessionData raw w = (Ok row, w1) ->
  run (TokenService.verifyRefreshToken later raw)
    (exec (TokenService.createSession now sessionData) w)
  = Ok (if later <? now + lifetime sessionData then Some row else None).
Proof.
  intros Hraw Hpair Hinsert.
  assert (Hdata : TokenService.digest_input (sd_refresh_token sessionData) = Some raw).
  { unfold run, TokenService.generateRefreshToken in Hpair. unfold_m.
    cbn in Hpair. injection Hpair as <-. cbn. destruct raw; [congruence|reflexivity]. }
  destruct (createSession_world now sessionData raw row w w1 Hdata Hinsert) as [Hs _].
  destruct (ledger_insert_ok _ _ _ _ _ _ Hinsert) as (Hrow & _ & _ & _ & _ & Hfresh).
  unfold run. rewrite verifyRefreshToken_run. cbn [fst].
  rewrite Hs, List.filter_app, Hfresh. cbn [app List.filter].
  assert (Hfields : s_refresh_token row = Some (sha256_hex raw)
                    /\ s_is_active row = true
                    /\ s_expires_at row = now + lifetime sessionData).
  { rewrite Hrow. cbn. repeat split. unfold lifetime, hours.
    destruct (sd_is_remembered sessionData); lia. }
  destruct Hfields as (Hr & Ha & He). rewrite Hr. cbn [opt_string_eqb].
  rewrite String.eqb_refl. cbn [List.filter]. rewrite Ha, He. cbn [andb].
  now destruct (later <? now + lifetime sessionData).
Qed.

Lemma refresh_token_round_trip_witness :
  run (@TokenService.verifyRefreshToken toy_crypto 5000 "refresh-alice")
    (exec (@TokenService.createSession toy_crypto 0
             (mkSessionData 7 "tok-alice"
                (RefreshPair "refresh-alice" "sha256:refresh-alice") "{}" None None false))
       (with_cache reject_writes two_users))
  = Ok (Some alice_session).
Proof.
  apply (@refresh_token_round_trip toy_crypto 0 5000 "refresh-alice"
           (mkSessionData 7 "tok-alice"
              (RefreshPair "refresh-alice" "sha256:refresh-alice") "{}" None None false)
           alice_session (with_cache reject_writes two_users)
           (set_user_sessions (fun rows => (rows ++ [alice_session])%list)
              (set_user_sessions_id_seq Z.succ (with_cache reject_writes two_users)))).
  - discriminate.
  - reflexivity.
  - reflexivity.
Defined.

(** X3.  Refreshing does not look at [force_logout].  For a session that is
    active and unexpired but force-logged-out, the Ledger query of
    [findSessionByToken] answers null, while [verifyRefreshToken] with its
    refresh token still answers the session. *)
Theorem refresh_ignores_force_logout `{Crypto} (now : Timestamp) (raw : string)
    (s : SessionRow) (w : World) :
  redis w = None ->
  In s (user_sessions w) ->
  session_tokens_unique w ->
  List.filter (fun x => opt_string_eqb (s_refresh_token x) (sha256_hex raw))
    (user_sessions w) = [s] ->
  s_is_active s = true -> now < s_expires_at s -> s_force_logout s = true ->
  run (TokenService.findSessionByToken now (s_session_token s)) w = Ok None
  /\ run (TokenService.verifyRefreshToken now raw) w = Ok (Some s).
Proof.
  intros Hoff Hin Hunique Hrefresh Hactive Hlive Hforce. split.
  - unfold run. rewrite findSessionByToken_cache_off by exact Hoff.
    rewrite (ledger_query_unique now s w Hin Hunique).
    unfold session_valid. now rewrite Hforce, andb_false_r.
  - unfold run. rewrite verifyRefreshToken_run, Hrefresh. cbn [fst List.filter].
    apply Z.ltb_lt in Hlive. now rewrite Hactive, Hlive.
Qed.

Lemma refresh_ignores_force_logout_witness :
  run (TokenService.findSessionByToken 1000 "tok-alice")
    (set_redis (fun _ => None) force_logged_out_world) = Ok None
  /\ exists s,
       run (@TokenService.verifyRefreshToken toy_crypto 1000 "refresh-alice")
         (set_redis (fun _ => None) force_logged_out_world) = Ok (Some s)
       /\ s_force_logout s = true.
Proof.
  destruct (@refresh_ignores_force_logout toy_crypto 1000 "refresh-alice"
              (mkSession 1 7 "tok-alice" (Some "sha256:refresh-alice") "{}" None None
                 0 0 86400000 true false true)
              (set_redis (fun _ => None) force_logged_out_world))
    as [Hfind Hrefresh]; try reflexivity.
  - now left.
  - intros s1 s2 [<-|[]] [<-|[]] _. reflexivity.
  - split; [exact Hfind|]. eexists. split; [exact Hrefresh|reflexivity].
Defined.

(** ** Ending sessions *)

Lemma redis_eta (r : Redis) : mkRedis (entries r) (rejects r) = r.
Proof. now destruct r. Qed.

(** [invalidateSession] of the one row with the id [s_id s], on a healthy
    cache. *)
Lemma invalidateSession_healthy s w :
  cache_healthy w -> session_ids_unique w -> In s (user_sessions w) ->
  exists w',
    TokenService.invalidateSession (s_id s) w = (Ok tt, w')
    /\ user_sessions w' = map (deactivate_session (s_id s)) (user_sessions w)
    /\ audit_logs w' = audit_logs w /\ users w' = users w
    /\ match redis w with
       | None => redis w' = None
       | Some r =>
           redis w'
           = Some (mkRedis (delete (TokenService.session_key (s_session_token s))
                              (entries r)) (rejects r))
       end.
Proof.
  intros Hhealthy Hids Hin.
  assert (Hrows : exists rest,
            List.filter (fun x => s_id x =? s_id s) (user_sessions w) = s :: rest).
  { destruct (List.filter (fun x => s_id x =? s_id s) (user_sessions w)) as [|x rest] eqn:Hf.
    - assert (Hs : In s (List.filter (fun x => s_id x =? s_id s) (user_sessions w))).
      { apply filter_In. split; [exact Hin|apply Z.eqb_refl]. }
      rewrite Hf in Hs. destruct Hs.
    - assert (Hx : In x (List.filter (fun x => s_id x =? s_id s) (user_sessions w)))
        by (rewrite Hf; now left).
      apply filter_In in Hx as [Hx Hid]. apply Z.eqb_eq in Hid.
      rewrite (Hids x s Hx Hin Hid). now exists rest. }
  destruct Hrows as [rest Hrows].
  unfold TokenService.invalidateSession. unfold_m. rewrite Hrows.
  unfold redis_configured, redis_del. cbv beta iota.
  cbn [redis set_user_sessions].
  destruct (redis w) as [r|] eqn:Hr; cbv beta iota; cbn [redis set_user_sessions];
    rewrite ?Hr.
  - rewrite (Hhealthy r _ Hr). eexists. split; [reflexivity|]. now repeat split.
  - eexists. split; [reflexivity|]. cbn. now rewrite Hr.
Qed.

(** X4.  Logging out ends the session.  On a cache that turns nothing down,
    with session tokens and ids unique: when [findSessionByToken] answers
    the token of the stored session [s] with an object carrying the id of
    [s], [logout] succeeds and, from then on, [findSessionByToken] answers
    null for that token.  When it answers null, [logout] succeeds all the
    same and no session row changes. *)
Theorem logout_ends_session (now : Timestamp) (s : SessionRow) (w : World) :
  cache_healthy w -> session_tokens_unique w -> session_ids_unique w ->
  In s (user_sessions w) ->
  (forall session,
     run (TokenService.findSessionByToken now (s_session_token s)) w = Ok (Some session) ->
     obj_id session = s_id s ->
     run (AuthService.logout now (s_session_token s)) w = Ok "Logout successful"
     /\ forall later,
          run (TokenService.findSessionByToken later (s_session_token s))
            (exec (AuthService.logout now (s_session_token s)) w) = Ok None)
  /\ (run (TokenService.findSessionByToken now (s_session_token s)) w = Ok None ->
      run (AuthService.logout now (s_session_token s)) w = Ok "Logout successful"
      /\ user_sessions (exec (AuthService.logout now (s_session_token s)) w)
         = user_sessions w).
Proof.
  intros Hhealthy Hunique Hids Hin.
  pose proof (findSessionByToken_effect now (s_session_token s) w) as [Hsess0 Hredis0].
  unfold run, exec in *.
  destruct (TokenService.findSessionByToken now (s_session_token s) w)
    as [answer w0] eqn:Hfind.
  cbn [fst snd] in *. split.
  - intros session [= ->] Hid.
    assert (Hhealthy0 : cache_healthy w0).
    { intros r0 cmd Hr0.
      destruct Hredis0 as [Heq|(r & x & d & Hr & _ & _ & _ & Heq)].
      - apply (Hhealthy r0 cmd). congruence.
      - rewrite Heq in Hr0. injection Hr0 as <-. cbn [rejects]. now apply (Hhealthy r). }
    assert (Hids0 : session_ids_unique w0).
    { intros s1 s2. rewrite Hsess0. apply Hids. }
    assert (Hin0 : In s (user_sessions w0)) by now rewrite Hsess0.
    destruct (invalidateSession_healthy s w0 Hhealthy0 Hids0 Hin0)
      as (w1 & Hinv & Hsess1 & _ & _ & Hredis1).
    destruct (logEvent_frame
                (mkAudit (Some (obj_user_id session)) (Some (obj_id session))
                   "logout" "authentication" true None) w1)
      as (w2 & Hlog & _ & Hsess2 & Hredis2).
    assert (Hrun : AuthService.logout now (s_session_token s) w
                   = (Ok "Logout successful", w2)).
    { unfold AuthService.logout. unfold_m. rewrite Hfind, Hid, Hinv.
      rewrite <- Hid, Hlog. reflexivity. }
    rewrite Hrun. cbn [fst snd]. split; [reflexivity|].
    intros later. apply findSessionByToken_null.
    + intros r2 Hr2. rewrite Hredis2 in Hr2.
      destruct (redis w0) as [r0|] eqn:Hr0; [|congruence].
      rewrite Hredis1 in Hr2. injection Hr2 as <-. cbn [rejects entries]. split.
      * now apply (Hhealthy0 r0).
      * intros value deadline. rewrite lookup_delete_eq. discriminate.
    + rewrite Hsess2, Hsess1, Hsess0.
      destruct (List.filter _ (map _ (user_sessions w))) as [|x rest] eqn:Hf;
        [reflexivity|exfalso].
      assert (Hx : In x (List.filter (TokenService.ledger_match later (s_session_token s))
                           (map (deactivate_session (s_id s)) (user_sessions w))))
        by (rewrite Hf; now left).
      apply filter_In in Hx as [Hx Hmatch].
      apply in_map_iff in Hx as (x0 & <- & Hx0).
      unfold TokenService.ledger_match in Hmatch.
      repeat (apply andb_true_iff in Hmatch as [Hmatch ?]).
      apply String.eqb_eq in Hmatch. unfold deactivate_session in *.
      destruct (s_id x0 =? s_id s) eqn:Hown.
      * cbn in *. discriminate.
      * rewrite (Hunique x0 s Hx0 Hin Hmatch), Z.eqb_refl in Hown. discriminate.
  - intros [= ->].
    assert (Hrun : AuthService.logout now (s_session_token s) w
                   = (Ok "Logout successful", w0)).
    { unfold AuthService.logout. unfold_m. now rewrite Hfind. }
    rewrite Hrun. cbn [fst snd]. split; [reflexivity|exact Hsess0].
Qed.

Lemma logout_ends_session_witness :
  run (AuthService.logout 1000 "tok-alice") reset_pending_world
  = Ok "Logout successful"
  /\ run (TokenService.findSessionByToken 2000 "tok-alice")
       (exec (AuthService.logout 1000 "tok-alice") reset_pending_world)
     = Ok None.
Proof.
  destruct (logout_ends_session 1000 alice_session reset_pending_world)
    as [Hlive _].
  - intros r cmd [= <-]. reflexivity.
  - intros s1 s2 [<-|[]] [<-|[]] _. reflexivity.
  - intros s1 s2 [<-|[]] [<-|[]] _. reflexivity.
  - now left.
  - destruct (Hlive (Compact 1 7 true 86400000) eq_refl eq_refl) as [Hok Hnull].
    split; [exact Hok|apply Hnull].
Defined.

Lemma redis_del_all_nil w :
  redis_configured w = true -> redis_del_all [] w = (Ok tt, w).
Proof.
  unfold redis_configured, redis_del_all. destruct w as [? ? ? ? ? ? ? ? [r|] ? ?];
    [|discriminate]. intros _. cbn. now rewrite redis_eta.
Qed.

(** X5.  "Log out the other devices".  With no session to spare
    ([exceptSessionId] null or undefined) [invalidateAllUserSessionsExcept]
    succeeds and logs nobody out: Ledger and cache are as before, even on a
    cache that would turn a deletion down.  With a session to spare, on a
    healthy cache, every other session of the user is made inactive, and
    the spared session and the sessions of other users are untouched. *)
Theorem logout_others (userId : Z) (w : World) :
  (TokenService.invalidateAllUserSessionsExcept userId None w = (Ok tt, w))
  /\ (forall keep,
        cache_healthy w ->
        run (TokenService.invalidateAllUserSessionsExcept userId (Some keep)) w = Ok tt
        /\ Forall2 (after_logout_others userId keep) (user_sessions w)
             (user_sessions
                (exec (TokenService.invalidateAllUserSessionsExcept userId (Some keep)) w))).
Proof.
  split.
  - unfold TokenService.invalidateAllUserSessionsExcept. unfold_m.
    cbn [TokenService.id_differs].
    assert (Hnone : List.filter (fun s => (s_user_id s =? userId) && s_is_active s && false)
                      (user_sessions w) = []).
    { induction (user_sessions w) as [|x l IH]; [reflexivity|].
      cbn [List.filter]. now rewrite andb_false_r. }
    assert (Hsame : set_user_sessions
                      (map (fun s => if (s_user_id s =? userId) && false
                                     then with_session_is_active false s else s)) w = w).
    { assert (Hmap : forall l : list SessionRow,
                map (fun s => if (s_user_id s =? userId) && false
                              then with_session_is_active false s else s) l = l).
      { induction l as [|x l IH]; [reflexivity|].
        cbn [map]. rewrite andb_false_r, IH. reflexivity. }
      destruct w. unfold set_user_sessions. cbn [user_sessions users roles permissions
        role_permissions user_roles user_sessions_id_seq audit_logs redis console
        bcrypt_compares]. now rewrite Hmap. }
    rewrite Hnone, Hsame. cbn [map].
    destruct (redis_configured w) eqn:Hc; [|reflexivity].
    now rewrite redis_del_all_nil.
  - intros keep Hhealthy.
    unfold run, exec, TokenService.invalidateAllUserSessionsExcept. unfold_m.
    cbn [TokenService.id_differs].
    assert (Hrel : Forall2 (after_logout_others userId keep) (user_sessions w)
              (map (fun s => if (s_user_id s =? userId) && negb (s_id s =? keep)
                             then with_session_is_active false s else s)
                 (user_sessions w))).
    { apply Forall2_map_same. intros s _. unfold after_logout_others.
      now destruct ((s_user_id s =? userId) && negb (s_id s =? keep)). }
    unfold redis_configured. destruct (redis w) as [r|] eqn:Hr; [|now split].
    rewrite (redis_del_all_healthy _ _ r); [now split|exact Hr|].
    intros cmd. now apply (Hhealthy r).
Qed.

Lemma logout_others_witness :
  run (TokenService.invalidateAllUserSessionsExcept 7 (Some 1)) reset_pending_world
  = Ok tt
  /\ user_sessions
       (exec (TokenService.invalidateAllUserSessionsExcept 7 (Some 1)) reset_pending_world)
     = [alice_session]
  /\ user_sessions
       (exec (TokenService.invalidateAllUserSessionsExcept 7 (Some 2)) reset_pending_world)
     = [with_session_is_active false alice_session].
Proof.
  destruct (logout_others 7 reset_pending_world) as [_ Hkeep].
  split; [|split; reflexivity].
  apply (Hkeep 1). intros r cmd [= <-]. reflexivity.
Defined.

(** ** The sweep of expired sessions *)

Lemma delete_from_user_sessions_unreferenced now w :
  sweep_unreferenced now w ->
  TokenService.delete_from_user_sessions (TokenService.cleanup_match now) w
  = (Ok (Z.of_nat (length (List.filter (TokenService.cleanup_match now) (user_sessions w)))),
     set_user_sessions
       (List.filter (fun s => negb (TokenService.cleanup_match now s))) w).
Proof.
  intros Hfree. unfold TokenService.delete_from_user_sessions. unfold_m.
  destruct (existsb _ (audit_logs w)) eqn:Href; [exfalso|reflexivity].
  apply existsb_exists in Href as (a & Ha & Href).
  destruct (a_session_id a) as [sid|] eqn:Hsid; [|discriminate].
  apply existsb_exists in Href as (s & Hs & Hid).
  apply filter_In in Hs as [Hs Hmatch]. apply Z.eqb_eq in Hid.
  rewrite (Hfree a sid s Ha Hsid Hs Hid) in Hmatch. discriminate.
Qed.

Lemma filter_negb_filter {A} (q : A -> bool) (l : list A) :
  List.filter q (List.filter (fun x => negb (q x)) l) = [].
Proof.
  induction l as [|x l IH]; [reflexivity|]. cbn [List.filter].
  destruct (q x) eqn:E; cbn [negb List.filter]; [exact IH|now rewrite E].
Qed.

Lemma filter_negb_id {A} (q : A -> bool) (l : list A) :
  List.filter q l = [] -> List.filter (fun x => negb (q x)) l = l.
Proof.
  induction l as [|x l IH]; [reflexivity|]. cbn [List.filter].
  destruct (q x); [discriminate|]. intros Hnil. cbn [negb]. now rewrite IH.
Qed.

(** X6.  The sweep, and the sweep again.  When no audit record points to a
    session it would delete, and the cache turns nothing down,
    [cleanupExpiredSessions] resolves to the number of rows that had
    expired or were force-logged-out and leaves exactly the others; every
    valid session is among them.  A second sweep at the same instant
    resolves to 0 and changes nothing in the Ledger. *)
Theorem cleanup_sweeps_once (now : Timestamp) (w : World) :
  sweep_unreferenced now w -> cache_healthy w ->
  run (TokenService.cleanupExpiredSessions now) w
  = Ok (Z.of_nat (length (List.filter (TokenService.cleanup_match now) (user_sessions w))))
  /\ user_sessions (exec (TokenService.cleanupExpiredSessions now) w)
     = List.filter (fun s => negb (TokenService.cleanup_match now s)) (user_sessions w)
  /\ (forall s, In s (user_sessions w) -> session_valid now s = true ->
        In s (user_sessions (exec (TokenService.cleanupExpiredSessions now) w)))
  /\ run (TokenService.cleanupExpiredSessions now)
       (exec (TokenService.cleanupExpiredSessions now) w) = Ok 0
  /\ user_sessions
       (exec (TokenService.cleanupExpiredSessions now)
          (exec (TokenService.cleanupExpiredSessions now) w))
     = user_sessions (exec (TokenService.cleanupExpiredSessions now) w).
Proof.
  intros Hfree Hhealthy.
  set (kept := List.filter (fun s => negb (TokenService.cleanup_match now s))
                 (user_sessions w)).
  assert (Hfirst : exists w',
            TokenService.cleanupExpiredSessions now w
            = (Ok (Z.of_nat (length (List.filter (TokenService.cleanup_match now)
                                       (user_sessions w)))), w')
            /\ user_sessions w' = kept /\ audit_logs w' = audit_logs w).
  { unfold TokenService.cleanupExpiredSessions. unfold_m.
    rewrite (delete_from_user_sessions_unreferenced now w Hfree).
    destruct (List.filter (TokenService.cleanup_match now) (user_sessions w))
      as [|x rest] eqn:Hdoomed.
    - eexists. split; [reflexivity|]. now split.
    - unfold redis_configured. destruct (redis w) as [r|] eqn:Hr.
      + rewrite (redis_del_all_healthy _ _ r); [|exact Hr|intros cmd; now apply (Hhealthy r)].
        eexists. split; [reflexivity|]. now split.
      + eexists. split; [reflexivity|]. now split. }
  destruct Hfirst as (w' & Hrun & Hkept & Haudit).
  assert (Hnone : List.filter (TokenService.cleanup_match now) (user_sessions w') = []).
  { rewrite Hkept. apply filter_negb_filter. }
  assert (Hfree' : sweep_unreferenced now w').
  { intros a sid s _ _ Hs _.
    destruct (TokenService.cleanup_match now s) eqn:Hm; [exfalso|reflexivity].
    assert (Hin : In s (List.filter (TokenService.cleanup_match now) (user_sessions w')))
      by (apply filter_In; now split).
    rewrite Hnone in Hin. destruct Hin. }
  assert (Hsecond : TokenService.cleanupExpiredSessions now w' = (Ok 0, w')).
  { unfold TokenService.cleanupExpiredSessions. unfold_m.
    rewrite (delete_from_user_sessions_unreferenced now w' Hfree'), Hnone.
    cbn. f_equal. destruct w'. unfold set_user_sessions. cbn in *. f_equal.
    now apply filter_negb_id. }
  unfold run, exec. rewrite Hrun. cbn [fst snd]. rewrite Hsecond. cbn [fst snd].
  split; [reflexivity|]. split; [exact Hkept|]. split; [|now split].
  intros s Hs Hvalid. rewrite Hkept. apply filter_In. split; [exact Hs|].
  unfold session_valid in Hvalid. unfold TokenService.cleanup_match.
  apply andb_true_iff in Hvalid as [Hvalid Hlive].
  apply andb_true_iff in Hvalid as [_ Hforce].
  apply negb_true_iff in Hforce. rewrite Hforce, orb_false_r.
  apply Z.ltb_lt in Hlive. apply negb_true_iff. apply Z.ltb_ge. lia.
Qed.

Lemma cleanup_sweeps_once_witness :
  run (TokenService.cleanupExpiredSessions 1000) force_logged_out_world = Ok 1
  /\ user_sessions (exec (TokenService.cleanupExpiredSessions 1000) force_logged_out_world)
     = []
  /\ run (TokenService.cleanupExpiredSessions 1000)
       (exec (TokenService.cleanupExpiredSessions 1000) force_logged_out_world) = Ok 0.
Proof.
  destruct (cleanup_sweeps_once 1000 force_logged_out_world)
    as (Hcount & Hkept & _ & Hagain & _).
  - intros a sid s [].
  - intros r cmd [= <-]. reflexivity.
  - split; [exact Hcount|]. split; [exact Hkept|exact Hagain].
Defined.

(** X7.  An audited session blocks the sweep.  When an audit record points
    to a session that has expired or is force-logged-out,
    [cleanupExpiredSessions] throws the foreign-key error of [audit_logs]
    and deletes nothing, the other expired sessions included.  [logout]
    writes such a record for the session it ends. *)
Theorem cleanup_blocked_by_audit (now : Timestamp) (w : World) (a : AuditEvent)
    (s : SessionRow) :
  In a (audit_logs w) -> a_session_id a = Some (s_id s) ->
  In s (user_sessions w) -> TokenService.cleanup_match now s = true ->
  run (TokenService.cleanupExpiredSessions now) w
  = Throw (PgError foreign_key_violation "audit_logs_session_id_fkey")
  /\ user_sessions (exec (TokenService.cleanupExpiredSessions now) w) = user_sessions w
  /\ redis (exec (TokenService.cleanupExpiredSessions now) w) = redis w.
Proof.
  intros Ha Hsid Hs Hmatch.
  assert (Href : existsb (fun a =>
            match a_session_id a with
            | Some sid =>
                existsb (fun s => s_id s =? sid)
                  (List.filter (TokenService.cleanup_match now) (user_sessions w))
            | None => false
            end) (audit_logs w) = true).
  { apply existsb_exists. exists a. split; [exact Ha|]. rewrite Hsid.
    apply existsb_exists. exists s. split; [|apply Z.eqb_refl].
    apply filter_In. now split. }
  unfold run, exec, TokenService.cleanupExpiredSessions,
    TokenService.delete_from_user_sessions. unfold_m.
  rewrite Href. now repeat split.
Qed.

Lemma cleanup_blocked_by_audit_witness :
  run (TokenService.cleanupExpiredSessions 90000000)
    (exec (AuthService.logout 1000 "tok-alice") reset_pending_world)
  = Throw (PgError foreign_key_violation "audit_logs_session_id_fkey")
  /\ user_sessions
       (exec (TokenService.cleanupExpiredSessions 90000000)
          (exec (AuthService.logout 1000 "tok-alice") reset_pending_world))
     = [with_session_is_active false alice_session].
Proof.
  destruct (cleanup_blocked_by_audit 90000000
              (exec (AuthService.logout 1000 "tok-alice") reset_pending_world)
              (mkAudit (Some 7) (Some 1) "logout" "authentication" true None)
              (with_session_is_active false alice_session))
    as (Hthrows & Hsessions & _); try reflexivity.
  - now left.
  - now left.
  - split; [exact Hthrows|]. rewrite Hsessions. reflexivity.
Defined.

(** ** Reset tokens and the lock *)

Lemma filter_update_rows {A} (c q : A -> bool) (f : A -> A) (l : list A) :
  (forall x, In x l -> c x = false -> q x = false) ->
  List.filter q (map (fun x => if c x then f x else x) l)
  = List.filter q (map f (List.filter c l)).
Proof.
  induction l as [|x l IH]; intros Hq; [reflexivity|].
  cbn [map List.filter]. destruct (c x) eqn:Hc.
  - cbn [map List.filter]. rewrite IH; [reflexivity|]. intros y Hy. apply Hq. now right.
  - rewrite (Hq x (or_introl eq_refl) Hc). apply IH. intros y Hy. apply Hq. now right.
Qed.

Lemma opt_string_eqb_false (o : option string) (s : string) :
  o <> Some s -> opt_string_eqb o s = false.
Proof.
  intros Hne. destruct o as [x|]; [|reflexivity]. cbn.
  apply String.eqb_neq. congruence.
Qed.

Lemma generatePasswordResetToken_run now token this w :
  User.generatePasswordResetToken now token this w
  = (Ok (with_password_reset (Some token) (Some (now + hours 1)) this, token),
     set_users (map (fun x =>
       if u_id x =? u_id this
       then before_update_users now
              (with_password_reset (Some token) (Some (now + hours 1)) x)
       else x)) w).
Proof. reflexivity. Qed.

Lemma verifyPasswordResetToken_after_request now later token asked this r w :
  only_row r w -> u_id this = u_id r ->
  token_unused_by_others asked (u_id r) w ->
  run (User.verifyPasswordResetToken later asked)
    (exec (User.generatePasswordResetToken now token this) w)
  = Ok (if String.eqb token asked && (later <? now + hours 1)
        then Some (before_update_users now
                     (with_password_reset (Some token) (Some (now + hours 1)) r))
        else None).
Proof.
  intros [Hrow _] Hid Hothers.
  unfold exec. rewrite generatePasswordResetToken_run. cbn [snd].
  unfold run, User.verifyPasswordResetToken. unfold_m.
  cbn [users set_users]. rewrite Hid.
  rewrite (filter_update_rows (fun x => u_id x =? u_id r)).
  - rewrite Hrow. cbn [map List.filter].
    rewrite before_update_users_reset_token.
    cbn [u_password_reset_token with_password_reset opt_string_eqb].
    destruct (String.eqb token asked); [|reflexivity]. cbn [andb].
    assert (Hexp : u_password_reset_expires
                     (before_update_users now
                        (with_password_reset (Some token) (Some (now + hours 1)) r))
                   = Some (now + hours 1)).
    { unfold before_update_users, update_updated_at_column, check_account_lockout.
      repeat case_match; reflexivity. }
    rewrite Hexp. now destruct (later <? now + hours 1).
  - intros x Hx Hc. apply Z.eqb_neq in Hc.
    rewrite (opt_string_eqb_false _ _ (Hothers x Hx Hc)). reflexivity.
Qed.

(** X8.  A reset token is good for one hour, and replaces the one before.
    Let the user have one row and let no other user store the drawn token.
    After [generatePasswordResetToken] at [now], which resolves to that
    token, [verifyPasswordResetToken] finds the user with it at every
    instant before [now] + 1 hour and nobody from then on; and any other
    token, the user's previous one included, that no other user stores
    finds nobody at all. *)
Theorem reset_token_round_trip (now later : Timestamp) (token : string)
    (this r : UserRow) (w : World) :
  only_row r w -> u_id this = u_id r ->
  token_unused_by_others token (u_id r) w ->
  exists r',
    u_id r' = u_id r
    /\ run (User.generatePasswordResetToken now token this) w
       = Ok (with_password_reset (Some token) (Some (now + hours 1)) this, token)
    /\ run (User.verifyPasswordResetToken later token)
         (exec (User.generatePasswordResetToken now token this) w)
       = Ok (if later <? now + hours 1 then Some r' else None)
    /\ (forall old,
          old <> token -> token_unused_by_others old (u_id r) w ->
          run (User.verifyPasswordResetToken later old)
            (exec (User.generatePasswordResetToken now token this) w) = Ok None).
Proof.
  intros Honly Hid Hothers.
  exists (before_update_users now
            (with_password_reset (Some token) (Some (now + hours 1)) r)).
  split; [now rewrite before_update_users_id|].
  split; [reflexivity|]. split.
  - rewrite (verifyPasswordResetToken_after_request now later token token this r w)
      by assumption.
    now rewrite String.eqb_refl.
  - intros old Hold Hothers'.
    rewrite (verifyPasswordResetToken_after_request now later token old this r w)
      by assumption.
    assert (Hne : String.eqb token old = false) by (apply String.eqb_neq; congruence).
    now rewrite Hne.
Qed.

Lemma reset_token_round_trip_witness :
  (exists r',
     u_id r' = 7
     /\ run (User.verifyPasswordResetToken 3000000 "reset-456")
          (exec (User.generatePasswordResetToken 1000 "reset-456" alice)
             reset_pending_world)
        = Ok (Some r'))
  /\ run (User.verifyPasswordResetToken 3601000 "reset-456")
       (exec (User.generatePasswordResetToken 1000 "reset-456" alice) reset_pending_world)
     = Ok None
  /\ run (User.verifyPasswordResetToken 2000 "reset-123")
       (exec (User.generatePasswordResetToken 1000 "reset-456" alice) reset_pending_world)
     = Ok None.
Proof.
  assert (Honly : only_row
            (mkUser 7 "alice@example.org" (Some "$2a$correct horse") (Some "reset-123")
               (Some 3600500) None 0 None None true 500) reset_pending_world)
    by (split; reflexivity).
  assert (Hothers : forall token,
            token_unused_by_others token 7 reset_pending_world).
  { intros token x [<-|[<-|[]]] Hid; [now contradiction Hid|discriminate]. }
  split; [|split].
  - destruct (reset_token_round_trip 1000 3000000 "reset-456" alice _ _
                Honly eq_refl (Hothers _)) as (r' & Hid & _ & Hfound & _).
    exists r'. split; [exact Hid|exact Hfound].
  - destruct (reset_token_round_trip 1000 3601000 "reset-456" alice _ _
                Honly eq_refl (Hothers _)) as (r' & _ & _ & Hfound & _).
    exact Hfound.
  - destruct (reset_token_round_trip 1000 2000 "reset-456" alice _ _
                Honly eq_refl (Hothers _)) as (r' & _ & _ & _ & Hold).
    apply Hold; [discriminate|apply Hothers].
Defined.

Lemma check_account_lockout_lock now r :
  5 <= u_failed_login_attempts r ->
  u_account_locked_until (check_account_lockout now r)
  = Some (now + lock_window (u_failed_login_attempts r)).
Proof.
  intros Hfive. unfold check_account_lockout, lock_window.
  destruct (5 <=? u_failed_login_attempts r) eqn:E5; [|lia]. cbn.
  destruct (10 <=? u_failed_login_attempts r) eqn:E10;
    destruct (u_failed_login_attempts r <? 10) eqn:L10; try lia; cbn;
    destruct (15 <=? u_failed_login_attempts r) eqn:E15;
    destruct (u_failed_login_attempts r <? 15) eqn:L15; try lia; reflexivity.
Qed.

Lemma lock_window_least n : minutes 30 <= lock_window n.
Proof. unfold lock_window, minutes, hours. repeat case_match; lia. Qed.

(** X9.  Asking for a password reset locks the account again.  The lockout
    trigger fires on every [UPDATE] of [users], so
    [generatePasswordResetToken] at [now] on a user who has 5 or more
    failed attempts on record sets the lock to [now] plus the window of
    that count (30 minutes, 1 hour from 10, 24 hours from 15), whether or
    not an earlier lock had run out; the count stays.  For the 30 minutes
    that follow, [verifyPassword] on the user as then loaded throws the
    locked-account error for every password, the right one included. *)
Theorem reset_request_relocks `{Crypto} (now : Timestamp) (token : string)
    (this r : UserRow) (w : World) :
  only_row r w -> u_id this = u_id r -> 5 <= u_failed_login_attempts r ->
  exists r',
    only_row r' (exec (User.generatePasswordResetToken now token this) w)
    /\ u_failed_login_attempts r' = u_failed_login_attempts r
    /\ u_account_locked_until r'
       = Some (now + lock_window (u_failed_login_attempts r))
    /\ (forall that later plain,
          loaded_from r' that -> later < now + minutes 30 ->
          run (User.verifyPassword later that plain)
            (exec (User.generatePasswordResetToken now token this) w)
          = Throw User.AccountLockedError).
Proof.
  intros Honly Hid Hfive.
  set (r' := before_update_users now
               (with_password_reset (Some token) (Some (now + hours 1)) r)).
  assert (Hlock : u_account_locked_until r'
                  = Some (now + lock_window (u_failed_login_attempts r))).
  { unfold r', before_update_users, update_updated_at_column.
    cbn [u_account_locked_until with_updated_at].
    now rewrite check_account_lockout_lock. }
  exists r'. split; [|split; [|split; [exact Hlock|]]].
  - unfold exec. rewrite generatePasswordResetToken_run. cbn [snd]. rewrite Hid.
    exact (only_row_update now
             (with_password_reset (Some token) (Some (now + hours 1))) r w
             (fun _ => eq_refl) (fun _ => eq_refl) Honly).
  - unfold r', before_update_users, update_updated_at_column, check_account_lockout.
    repeat case_match; reflexivity.
  - intros that later plain (_ & _ & _ & Hthat) Hlater.
    unfold run. rewrite verifyPassword_locked_run; [reflexivity|].
    unfold User.isAccountLocked. rewrite Hthat, Hlock.
    pose proof (lock_window_least (u_failed_login_attempts r)).
    apply Z.ltb_lt. lia.
Qed.

Lemma reset_request_relocks_witness :
  User.isAccountLocked 5000000 carol = false
  /\ exists r',
       u_account_locked_until r' = Some (5000000 + minutes 30)
       /\ forall that plain,
            loaded_from r' that ->
            run (@User.verifyPassword toy_crypto 6000000 that plain)
              (exec (User.generatePasswordResetToken 5000000 "reset-9" carol) two_users)
            = Throw User.AccountLockedError.
Proof.
  split; [reflexivity|].
  destruct (@reset_request_relocks toy_crypto 5000000 "reset-9" carol carol two_users)
    as (r' & _ & _ & Hlock & Hlocked).
  - split; reflexivity.
  - reflexivity.
  - cbn. lia.
  - exists r'. split; [exact Hlock|].
    intros that plain Hthat. apply Hlocked; [exact Hthat|reflexivity].
Defined.

(** X10.  A password reset unlocks the account, and the new password is
    good at once.  On a healthy cache, for the one user who stores the
    token, unexpired, and whatever the count of failed attempts and the
    lock on the row: after [AuthService.resetPassword] the row has a count
    of 0 and no lock, and [verifyPassword] with the new password, on the
    user as then loaded, resolves to [true] at any instant (given that
    bcrypt accepts a password against its own hash). *)
Theorem reset_then_login `{Crypto} (now later : Timestamp)
    (token newPassword : string) (u : UserRow) (w : World) :
  cache_healthy w -> holds_reset_token now token u w -> only_row u w ->
  bcrypt_compare newPassword (bcrypt_hash newPassword 12) = true ->
  exists u',
    only_row u' (exec (AuthService.resetPassword now token newPassword) w)
    /\ u_failed_login_attempts u' = 0
    /\ u_account_locked_until u' = None
    /\ (forall that,
          loaded_from u' that ->
          exists that',
            run (User.verifyPassword later that newPassword)
              (exec (AuthService.resetPassword now token newPassword) w)
            = Ok (that', true)).
Proof.
  intros Hhealthy Hholds Honly Haccepts.
  destruct (AuthService_resetPassword_run now token newPassword u w Hhealthy Hholds)
    as (message & w' & Hrun & Husers & _).
  unfold exec. rewrite Hrun. cbn [snd].
  set (u' := reset_row now newPassword (u_id u) u).
  assert (Hu' : u' = before_update_users now
                  (with_account_locked_until None
                     (with_failed_login_attempts 0
                        (with_last_password_change (Some now)
                           (with_password_reset None None
                              (with_password_hash (Some (bcrypt_hash newPassword 12)) u)))))).
  { unfold u', reset_row. now rewrite Z.eqb_refl. }
  assert (Hcount : u_failed_login_attempts u' = 0).
  { rewrite Hu'. unfold before_update_users, update_updated_at_column.
    cbn [u_failed_login_attempts with_updated_at].
    now rewrite check_account_lockout_below by (cbn; lia). }
  assert (Hnolock : u_account_locked_until u' = None).
  { rewrite Hu'. unfold before_update_users, update_updated_at_column.
    cbn [u_account_locked_until with_updated_at].
    now rewrite check_account_lockout_below by (cbn; lia). }
  assert (Hhash : u_password_hash u' = Some (bcrypt_hash newPassword 12)).
  { rewrite Hu'. now rewrite before_update_users_password_hash. }
  assert (Honly' : only_row u' w').
  { pose proof (only_row_update now
                  (fun r => with_account_locked_until None
                     (with_failed_login_attempts 0
                        (with_last_password_change (Some now)
                           (with_password_reset None None
                              (with_password_hash (Some (bcrypt_hash newPassword 12)) r)))))
                  u w (fun _ => eq_refl) (fun _ => eq_refl) Honly) as Hupd.
    unfold only_row. rewrite Husers, Hu'. exact Hupd. }
  exists u'. split; [exact Honly'|]. split; [exact Hcount|]. split; [exact Hnolock|].
  intros that (Hid & Hemail & _ & Hthat).
  destruct Honly' as [_ Hbyemail].
  unfold run.
  rewrite (verifyPassword_unlocked_run later that newPassword w' u' []
             (bcrypt_hash newPassword 12)).
  - rewrite Haccepts, resetFailedLoginAttempts_run. eexists. reflexivity.
  - apply unlocked_without_lock. now rewrite Hthat.
  - rewrite Hemail. exact Hbyemail.
  - exact Hhash.
Qed.

Lemma reset_then_login_witness :
  exists u',
    u_failed_login_attempts u' = 0
    /\ forall that,
         loaded_from u' that ->
         exists that',
           run (@User.verifyPassword toy_crypto 2000 that "battery staple")
             (exec (@AuthService.resetPassword toy_crypto 1000 "reset-123" "battery staple")
                reset_pending_world)
           = Ok (that', true).
Proof.
  destruct (@reset_then_login toy_crypto 1000 2000 "reset-123" "battery staple"
              (mkUser 7 "alice@example.org" (Some "$2a$correct horse") (Some "reset-123")
                 (Some 3600500) None 0 None None true 500) reset_pending_world)
    as (u' & _ & Hcount & _ & Hlogin).
  - intros r cmd [= <-]. reflexivity.
  - split; [reflexivity|]. exists 3600500. split; [reflexivity|lia].
  - split; reflexivity.
  - reflexivity.
  - exists u'. split; [exact Hcount|exact Hlogin].
Defined.

(** X11.  A wrong current password in [changePassword] is not a failed
    login.  For a user on record, the call throws "Current password is
    incorrect" and leaves the [users] table as it was: the attempt is not
    counted and never locks the account, and a lock on the account does not
    stand in its way; no session changes; the failure is in the audit
    log. *)
Theorem changePassword_wrong_current `{Crypto} (now : Timestamp) (userId : Z)
    (currentPassword newPassword : string) (w : World)
    (user account : UserRow) (others others' : list UserRow) (hash : string) :
  List.filter (fun r => u_id r =? userId) (users w) = user :: others ->
  List.filter (fun r => String.eqb (u_email r) (u_email user)) (users w)
  = account :: others' ->
  u_password_hash account = Some hash ->
  bcrypt_compare currentPassword hash = false ->
  run (AuthService.changePassword now userId currentPassword newPassword) w
  = Throw (Error "Current password is incorrect")
  /\ users (exec (AuthService.changePassword now userId currentPassword newPassword) w)
     = users w
  /\ user_sessions (exec (AuthService.changePassword now userId currentPassword newPassword) w)
     = user_sessions w
  /\ redis (exec (AuthService.changePassword now userId currentPassword newPassword) w)
     = redis w
  /\ audit_logs (exec (AuthService.changePassword now userId currentPassword newPassword) w)
     = (audit_logs w
        ++ [AuthService.audit (Some userId) "password_change_failed" false
              (Some "Current password is incorrect")])%list.
Proof.
  intros Huser Haccount Hhash Hwrong.
  assert (Hrun :
    AuthService.changePassword now userId currentPassword newPassword w
    = (Throw (Error "Current password is incorrect"),
       set_audit_logs (fun rows =>
         (rows ++ [AuthService.audit (Some userId) "password_change_failed" false
                     (Some "Current password is incorrect")])%list)
         (set_bcrypt_compares (cons (currentPassword, hash)) w))).
  { unfold AuthService.changePassword, User.findById, User.findByEmail.
    unfold_m. rewrite Huser. cbv beta iota.
    cbn [u_email User.public_columns]. rewrite Haccount. cbv beta iota.
    unfold await_bcrypt_compare. rewrite Hhash. unfold_m. rewrite Hwrong.
    cbn [negb]. cbv beta iota.
    rewrite logEvent_stored; [reflexivity| |reflexivity].
    cbn [a_user_id AuthService.audit user_ref_ok]. unfold user_exists.
    cbn [users set_bcrypt_compares].
    exact (existsb_filter_cons _ _ _ _ Huser). }
  unfold run, exec. rewrite Hrun. now repeat split.
Qed.

Lemma changePassword_wrong_current_witness :
  run (@AuthService.changePassword toy_crypto 1000 9 "guess" "battery staple") two_users
  = Throw (Error "Current password is incorrect")
  /\ users (exec (@AuthService.changePassword toy_crypto 1000 9 "guess" "battery staple")
              two_users)
     = [alice; carol].
Proof.
  destruct (@changePassword_wrong_current toy_crypto 1000 9 "guess" "battery staple"
              two_users carol carol [] [] "$2a$tr0ub4dor"
              eq_refl eq_refl eq_refl eq_refl)
    as (Hthrows & Husers & _).
  split; [exact Hthrows|exact Husers].
Defined.

(** ** Granting and revoking *)

Lemma hasPermission_true now this name w :
  run (User.hasPermission now this name) w = Ok true
  <-> granted_through_a_role now (u_id this) name w.
Proof.
  rewrite <- hasPermission_rows_nonempty.
  unfold run, User.hasPermission. unfold_m. cbn [fst].
  destruct (User.hasPermission_rows now (u_id this) name w); cbn.
  - split; [discriminate|congruence].
  - split; [discriminate|reflexivity].
Qed.

Lemma granted_split now user_id name w :
  granted_through_a_role now user_id name w
  <-> exists role_id, holds_role now user_id role_id w /\ role_grants role_id name w.
Proof.
  unfold granted_through_a_role, holds_role, role_grants. split.
  - intros (ur & rp & p & Hur & Huser & Heff & Hrp & Hrole & Hgranted & Hp & Hpid & Hname).
    exists (ur_role_id ur). split; [exists ur|exists rp, p]; split_and!; auto.
  - intros (role_id & (ur & Hur & Huser & Hrole & Heff)
            & (rp & p & Hrp & Hrole' & Hgranted & Hp & Hpid & Hname)).
    exists ur, rp, p. split_and!; auto. congruence.
Qed.

Lemma existsb_conflict_row (q : RolePermissionRow -> bool) rows :
  existsb q rows = true -> exists rp, In rp rows /\ q rp = true.
Proof. intros Hex. apply existsb_exists in Hex. exact Hex. Qed.

Lemma addPermission_run this permissionId grantedBy w :
  role_exists (r_id this) w = true ->
  Role.permission_exists permissionId w = true ->
  user_ref_ok grantedBy w = true ->
  exists w',
    Role.addPermission this permissionId grantedBy w = (Ok tt, w')
    /\ user_roles w' = user_roles w /\ permissions w' = permissions w
    /\ role_permissions w'
       = (let conflict rp :=
            (rp_role_id rp =? r_id this) && (rp_permission_id rp =? permissionId) in
          if existsb conflict (role_permissions w)
          then map (fun rp =>
                 if conflict rp
                 then mkRolePermission (rp_role_id rp) (rp_permission_id rp) true grantedBy
                 else rp) (role_permissions w)
          else (role_permissions w
                ++ [mkRolePermission (r_id this) permissionId true grantedBy])%list).
Proof.
  intros Hrole Hperm Href. unfold Role.addPermission. unfold_m.
  rewrite Hrole, Hperm, Href. cbn [negb]. cbv zeta.
  destruct (existsb _ (role_permissions w)); eexists; split; try reflexivity;
    now repeat split.
Qed.

(** X12.  Granting a permission to a role reaches exactly the holders of
    the role.  With the role, the permission and the granter on record,
    [addPermission] succeeds, whether or not the pair was on record before
    (a revoked edge is granted again); afterwards [hasPermission] resolves
    to [true] for a user and a name exactly when it did before, or the user
    holds the role through an assignment in force and the name is that of
    the permission granted. *)
Theorem addPermission_grants (this : RoleRow) (permissionId : Z)
    (grantedBy : option Z) (w : World) :
  role_exists (r_id this) w = true ->
  Role.permission_exists permissionId w = true ->
  user_ref_ok grantedBy w = true ->
  run (Role.addPermission this permissionId grantedBy) w = Ok tt
  /\ forall later user name,
       run (User.hasPermission later user name)
         (exec (Role.addPermission this permissionId grantedBy) w) = Ok true
       <-> (run (User.hasPermission later user name) w = Ok true
            \/ (holds_role later (u_id user) (r_id this) w
                /\ permission_named permissionId name w)).
Proof.
  intros Hrole Hperm Href.
  destruct (addPermission_run this permissionId grantedBy w Hrole Hperm Href)
    as (w' & Hrun & Hur & Hp & Hrp).
  unfold run, exec. rewrite Hrun. cbn [fst snd]. split; [reflexivity|].
  intros later user name.
  change (run (User.hasPermission later user name) w' = Ok true
          <-> run (User.hasPermission later user name) w = Ok true
              \/ (holds_role later (u_id user) (r_id this) w
                  /\ permission_named permissionId name w)).
  rewrite !hasPermission_true, !granted_split.
  unfold holds_role, role_grants, permission_named. rewrite Hur, Hp, Hrp. cbv zeta.
  set (conflict := fun rp =>
         (rp_role_id rp =? r_id this) && (rp_permission_id rp =? permissionId)).
  assert (Hconflict : forall rp, conflict rp = true
            <-> rp_role_id rp = r_id this /\ rp_permission_id rp = permissionId).
  { intros rp. unfold conflict. now rewrite andb_true_iff, !Z.eqb_eq. }
  split.
  - intros (role_id & Hholds & (rp' & p & Hin & Hrole' & Hgranted & Hpin & Hpid & Hname)).
    destruct (existsb conflict (role_permissions w)) eqn:Hex.
    + apply in_map_iff in Hin as (rp & <- & Hin).
      destruct (conflict rp) eqn:Hc.
      * apply Hconflict in Hc as [Hc1 Hc2]. cbn in Hrole', Hpid. right. split.
        -- destruct Hholds as (ur & ? & ? & ? & ?). exists ur. split_and!; auto. congruence.
        -- exists p. split_and!; auto. congruence.
      * left. exists role_id. split; [exact Hholds|]. exists rp, p. split_and!; auto.
    + apply in_app_iff in Hin as [Hin|[<-|[]]].
      * left. exists role_id. split; [exact Hholds|]. exists rp', p. split_and!; auto.
      * cbn in Hrole', Hpid. right. split.
        -- destruct Hholds as (ur & ? & ? & ? & ?). exists ur. split_and!; auto. congruence.
        -- exists p. split_and!; auto.
  - intros [(role_id & Hholds & (rp & p & Hin & Hrole' & Hgranted & Hpin & Hpid & Hname))
           | [Hholds (p & Hpin & Hpid & Hname)]].
    + exists role_id. split; [exact Hholds|].
      destruct (existsb conflict (role_permissions w)) eqn:Hex.
      * exists (if conflict rp
                then mkRolePermission (rp_role_id rp) (rp_permission_id rp) true grantedBy
                else rp), p.
        split; [apply in_map_iff; exists rp; now split|].
        destruct (conflict rp); split_and!; auto.
      * exists rp, p. split_and!; auto. apply in_app_iff. now left.
    + exists (r_id this). split; [exact Hholds|].
      destruct (existsb conflict (role_permissions w)) eqn:Hex.
      * apply existsb_conflict_row in Hex as (rp & Hin & Hc).
        exists (mkRolePermission (rp_role_id rp) (rp_permission_id rp) true grantedBy), p.
        apply Hconflict in Hc as Hc'. destruct Hc' as [Hc1 Hc2].
        split; [apply in_map_iff; exists rp; rewrite Hc; now split|].
        cbn. split_and!; auto. congruence.
      * exists (mkRolePermission (r_id this) permissionId true grantedBy), p.
        split; [apply in_app_iff; right; now left|]. cbn. split_and!; auto.
Qed.

Lemma addPermission_grants_witness :
  run (User.hasPermission 1000 alice "content.update") hierarchy_world = Ok false
  /\ run (User.hasPermission 1000 alice "content.update")
       (exec (Role.addPermission
                (mkRole 2 "Junior Editor" None false false (Some 1) 1 0 None) 30 None)
          hierarchy_world)
     = Ok true.
Proof.
  split; [reflexivity|].
  destruct (addPermission_grants
              (mkRole 2 "Junior Editor" None false false (Some 1) 1 0 None) 30 None
              hierarchy_world eq_refl eq_refl eq_refl) as [_ Hiff].
  apply Hiff. right. split.
  - exists (mkUserRole 7 2 0 None None true).
    split; [now left|]. split; [reflexivity|]. split; [reflexivity|].
    split; [reflexivity|now left].
  - exists (mkPermission 30 "content.update" "content" "update" (Some "content") false).
    split; [now left|]. split; reflexivity.
Defined.

Lemma removePermission_run this permissionId w :
  Role.removePermission this permissionId w
  = (Ok tt,
     mkWorld (users w) (roles w) (permissions w)
       (map (fun rp =>
          if (rp_role_id rp =? r_id this) && (rp_permission_id rp =? permissionId)
          then mkRolePermission (rp_role_id rp) (rp_permission_id rp) false
                 (rp_granted_by rp)
          else rp) (role_permissions w))
       (user_roles w) (user_sessions w) (user_sessions_id_seq w) (audit_logs w)
       (redis w) (console w) (bcrypt_compares w)).
Proof. reflexivity. Qed.

(** X13.  Revoking a permission from a role.  [removePermission] always
    succeeds, on a pair that is not on record too.  Afterwards the role
    grants no permission of the id revoked; what any role grants under a
    name that is not that permission's is as before, and so is what every
    other role grants.  So for a name that only the revoked permission
    carries, [hasPermission] resolves to [true] exactly for the users who
    hold, in force, another role that grants it. *)
Theorem removePermission_revokes (this : RoleRow) (permissionId : Z) (w : World) :
  run (Role.removePermission this permissionId) w = Ok tt
  /\ (forall later user name,
        (forall p, In p (permissions w) -> p_name p = name -> p_id p = permissionId) ->
        run (User.hasPermission later user name)
          (exec (Role.removePermission this permissionId) w) = Ok true
        <-> exists role_id,
              role_id <> r_id this
              /\ holds_role later (u_id user) role_id w /\ role_grants role_id name w)
  /\ (forall later user name,
        ~ permission_named permissionId name w ->
        run (User.hasPermission later user name)
          (exec (Role.removePermission this permissionId) w)
        = run (User.hasPermission later user name) w).
Proof.
  split; [reflexivity|].
  set (revoked := fun rp =>
         if (rp_role_id rp =? r_id this) && (rp_permission_id rp =? permissionId)
         then mkRolePermission (rp_role_id rp) (rp_permission_id rp) false
                (rp_granted_by rp)
         else rp).
  assert (Hgrants : forall role_id name,
            role_grants role_id name (exec (Role.removePermission this permissionId) w)
            <-> exists rp p,
                  In rp (role_permissions w) /\ rp_role_id rp = role_id
                  /\ rp_granted rp = true
                  /\ In p (permissions w) /\ p_id p = rp_permission_id rp
                  /\ p_name p = name
                  /\ ~ (role_id = r_id this /\ rp_permission_id rp = permissionId)).
  { intros role_id name. unfold exec. rewrite removePermission_run. cbn [snd].
    unfold role_grants. cbn [role_permissions permissions]. fold revoked. split.
    - intros (rp' & p & Hin & Hrole & Hgranted & Hp & Hpid & Hname).
      apply in_map_iff in Hin as (rp & <- & Hin). unfold revoked in *.
      destruct ((rp_role_id rp =? r_id this) && (rp_permission_id rp =? permissionId))
        eqn:Hc; [discriminate|].
      exists rp, p. split_and!; auto. intros [Hr Hq].
      rewrite Hrole, Hr, Hq, !Z.eqb_refl in Hc. discriminate.
    - intros (rp & p & Hin & Hrole & Hgranted & Hp & Hpid & Hname & Hnot).
      exists rp, p. split_and!; auto. apply in_map_iff. exists rp. split; [|exact Hin].
      unfold revoked.
      destruct ((rp_role_id rp =? r_id this) && (rp_permission_id rp =? permissionId))
        eqn:Hc; [|reflexivity].
      apply andb_true_iff in Hc as [Hr Hq]. apply Z.eqb_eq in Hr, Hq.
      exfalso. apply Hnot. split; congruence. }
  assert (Hholds : forall later user_id role_id,
            holds_role later user_id role_id
              (exec (Role.removePermission this permissionId) w)
            <-> holds_role later user_id role_id w) by reflexivity.
  split.
  - intros later user name Honly.
    rewrite hasPermission_true, granted_split. split.
    + intros (role_id & Hh & Hg). apply Hholds in Hh. apply Hgrants in Hg.
      destruct Hg as (rp & p & Hin & Hrole & Hgranted & Hp & Hpid & Hname & Hnot).
      exists role_id. split.
      * intros ->. apply Hnot. split; [reflexivity|]. rewrite <- Hpid. now apply Honly.
      * split; [exact Hh|]. exists rp, p. split_and!; auto.
    + intros (role_id & Hne & Hh & (rp & p & Hin & Hrole & Hgranted & Hp & Hpid & Hname)).
      exists role_id. split; [now apply Hholds|]. apply Hgrants.
      exists rp, p. split_and!; auto. intros [Hr _]. contradiction.
  - intros later user name Hother.
    assert (Hiff : run (User.hasPermission later user name)
                     (exec (Role.removePermission this permissionId) w) = Ok true
                   <-> run (User.hasPermission later user name) w = Ok true).
    { rewrite !hasPermission_true, !granted_split. split.
      - intros (role_id & Hh & Hg). apply Hholds in Hh. apply Hgrants in Hg.
        destruct Hg as (rp & p & Hin & Hrole & Hgranted & Hp & Hpid & Hname & _).
        exists role_id. split; [exact Hh|]. exists rp, p. split_and!; auto.
      - intros (role_id & Hh & (rp & p & Hin & Hrole & Hgranted & Hp & Hpid & Hname)).
        exists role_id. split; [now apply Hholds|]. apply Hgrants.
        exists rp, p. split_and!; auto. intros [_ Hq]. apply Hother.
        exists p. split_and!; auto. congruence. }
    unfold run in *. unfold User.hasPermission in *. unfold_m. cbn [fst] in *.
    destruct (0 <? _) eqn:E1; destruct (0 <? Z.of_nat (length
      (User.hasPermission_rows later (u_id user) name w))) eqn:E2; try reflexivity.
    + destruct Hiff as [Hiff _]. specialize (Hiff eq_refl). discriminate.
    + destruct Hiff as [_ Hiff]. specialize (Hiff eq_refl). discriminate.
Qed.

Lemma effective_active now ur : effective now ur -> ur_is_active ur = true.
Proof. now intros [Hactive _]. Qed.

(** X14.  Taking a role from a user.  [removeRole] always succeeds, for a
    role the user never had too, and afterwards the user holds, in force,
    exactly the other roles held before; no other user's roles change.  So
    [hasPermission] then resolves to [true] for that user exactly when a
    role other than the one removed, held in force, grants the name. *)
Theorem removeRole_revokes (this : UserRow) (roleId : Z) (w : World) :
  run (User.removeRole this roleId) w = Ok tt
  /\ (forall later user_id role_id,
        holds_role later user_id role_id (exec (User.removeRole this roleId) w)
        <-> holds_role later user_id role_id w
            /\ ~ (user_id = u_id this /\ role_id = roleId))
  /\ (forall later name,
        run (User.hasPermission later this name) (exec (User.removeRole this roleId) w)
        = Ok true
        <-> exists role_id,
              role_id <> roleId
              /\ holds_role later (u_id this) role_id w /\ role_grants role_id name w).
Proof.
  split; [reflexivity|].
  set (removed := fun ur =>
         if (ur_user_id ur =? u_id this) && (ur_role_id ur =? roleId)
         then mkUserRole (ur_user_id ur) (ur_role_id ur) (ur_assigned_at ur)
                (ur_assigned_by ur) (ur_expires_at ur) false
         else ur).
  assert (Hholds : forall later user_id role_id,
            holds_role later user_id role_id (exec (User.removeRole this roleId) w)
            <-> holds_role later user_id role_id w
                /\ ~ (user_id = u_id this /\ role_id = roleId)).
  { intros later user_id role_id. unfold holds_role.
    change (user_roles (exec (User.removeRole this roleId) w))
      with (map removed (user_roles w)). split.
    - intros (ur' & Hin & Huser & Hrole & Heff).
      apply in_map_iff in Hin as (ur & <- & Hin). unfold removed in *.
      destruct ((ur_user_id ur =? u_id this) && (ur_role_id ur =? roleId)) eqn:Hc.
      + apply effective_active in Heff. discriminate.
      + split; [exists ur; split_and!; auto|]. intros [Hu Hr].
        rewrite Huser, Hrole, Hu, Hr, !Z.eqb_refl in Hc. discriminate.
    - intros [(ur & Hin & Huser & Hrole & Heff) Hnot].
      exists ur. split_and!; auto. apply in_map_iff. exists ur. split; [|exact Hin].
      unfold removed.
      destruct ((ur_user_id ur =? u_id this) && (ur_role_id ur =? roleId)) eqn:Hc;
        [|reflexivity].
      apply andb_true_iff in Hc as [Hu Hr]. apply Z.eqb_eq in Hu, Hr.
      exfalso. apply Hnot. split; congruence. }
  split; [exact Hholds|].
  intros later name. rewrite hasPermission_true, granted_split. split.
  - intros (role_id & Hh & Hg). apply Hholds in Hh as [Hh Hnot].
    exists role_id. split; [|split; [exact Hh|exact Hg]].
    intros ->. now apply Hnot.
  - intros (role_id & Hne & Hh & Hg). exists role_id. split; [|exact Hg].
    apply Hholds. split; [exact Hh|]. intros [_ Hr]. contradiction.
Qed.

Lemma assignRole_holds (now : Timestamp) (this : UserRow) (roleId : Z)
    (assignedBy : option Z) (expiresAt : option Timestamp) (w : World) :
  user_exists (u_id this) w = true ->
  role_exists roleId w = true ->
  user_ref_ok assignedBy w = true ->
  run (User.assignRole now this roleId assignedBy expiresAt) w = Ok tt
  /\ forall later user_id role_id,
       holds_role later user_id role_id
         (exec (User.assignRole now this roleId assignedBy expiresAt) w)
       <-> if (user_id =? u_id this) && (role_id =? roleId)
           then not_yet later expiresAt
           else holds_role later user_id role_id w.
Proof.
  intros Huser Hrole Href.
  unfold run, exec. rewrite assignRole_run by assumption. cbn [fst snd].
  split; [reflexivity|]. intros later user_id role_id.
  unfold holds_role. cbn [user_roles set_user_roles].
  set (fresh := mkUserRole (u_id this) roleId now assignedBy expiresAt true).
  assert (Hfresh : effective later fresh <-> not_yet later expiresAt).
  { unfold effective, not_yet, fresh. cbn [ur_is_active ur_expires_at].
    destruct expiresAt as [e|]; split.
    - intros [_ [Hnone|(e' & [= <-] & Hlt)]]; [discriminate|exact Hlt].
    - intros Hlt. split; [reflexivity|]. right. now exists e.
    - trivial.
    - intros _. split; [reflexivity|now left]. }
  assert (Hpair : forall ur, same_pair (u_id this) roleId ur = true
            -> mkUserRole (ur_user_id ur) (ur_role_id ur) now assignedBy expiresAt true
               = fresh).
  { intros ur Hc. apply same_pair_eq in Hc as [-> ->]. reflexivity. }
  destruct ((user_id =? u_id this) && (role_id =? roleId)) eqn:Htarget.
  - apply andb_true_iff in Htarget as [Hu Hr]. apply Z.eqb_eq in Hu, Hr. subst.
    rewrite <- Hfresh. split.
    + intros (ur' & Hin & Hu & Hr & Heff).
      destruct (existsb (same_pair (u_id this) roleId) (user_roles w)) eqn:Hex.
      * apply in_map_iff in Hin as (ur & <- & Hin).
        destruct (same_pair (u_id this) roleId ur) eqn:Hc.
        -- now rewrite (Hpair ur Hc) in Heff.
        -- unfold same_pair in Hc. rewrite Hu, Hr, !Z.eqb_refl in Hc. discriminate.
      * apply in_app_iff in Hin as [Hin|[<-|[]]]; [exfalso|exact Heff].
        assert (Hyes : existsb (same_pair (u_id this) roleId) (user_roles w) = true).
        { apply existsb_exists. exists ur'. split; [exact Hin|].
          unfold same_pair. now rewrite Hu, Hr, !Z.eqb_refl. }
        congruence.
    + intros Heff. exists fresh. split; [|now split_and!].
      destruct (existsb (same_pair (u_id this) roleId) (user_roles w)) eqn:Hex.
      * apply existsb_exists in Hex as (ur & Hur & Hc).
        apply in_map_iff. exists ur. split; [|exact Hur]. rewrite Hc. now apply Hpair.
      * apply in_app_iff. right. now left.
  - assert (Hother : forall ur, ur_user_id ur = user_id -> ur_role_id ur = role_id ->
              same_pair (u_id this) roleId ur = false).
    { intros ur Hu Hr. unfold same_pair. now rewrite Hu, Hr. }
    split.
    + intros (ur' & Hin & Hu & Hr & Heff).
      destruct (existsb (same_pair (u_id this) roleId) (user_roles w)).
      * apply in_map_iff in Hin as (ur & <- & Hin).
        destruct (same_pair (u_id this) roleId ur) eqn:Hc.
        -- cbn in Hu, Hr. apply same_pair_eq in Hc as [Hc1 Hc2].
           rewrite <- Hu, <- Hr, Hc1, Hc2, !Z.eqb_refl in Htarget. discriminate.
        -- exists ur. now split_and!.
      * apply in_app_iff in Hin as [Hin|[<-|[]]]; [exists ur'; now split_and!|].
        cbn in Hu, Hr. rewrite <- Hu, <- Hr, !Z.eqb_refl in Htarget. discriminate.
    + intros (ur & Hin & Hu & Hr & Heff). exists ur. split; [|now split_and!].
      destruct (existsb (same_pair (u_id this) roleId) (user_roles w)).
      * apply in_map_iff. exists ur. split; [|exact Hin].
        now rewrite (Hother ur Hu Hr).
      * apply in_app_iff. now left.
Qed.



Lemma role_exists_first (q : RoleRow -> bool) d rest w :
  List.filter q (roles w) = d :: rest -> role_exists (r_id d) w = true.
Proof.
  intros Hfilter. unfold role_exists. apply existsb_exists. exists d.
  split; [|apply Z.eqb_refl].
  assert (Hin : In d (List.filter q (roles w))) by (rewrite Hfilter; now left).
  now apply filter_In in Hin.
Qed.

(** X16.  The default role of a new user.  For a user on record,
    [assignDefaultRole] succeeds.  When no role is marked as default it
    changes nothing and raises no error; otherwise the user holds from then
    on, with no end date, the first role marked as default, and only that
    one of them; everything else is held as before. *)
Theorem assignDefaultRole_first (now : Timestamp) (this : UserRow) (w : World) :
  user_exists (u_id this) w = true ->
  run (User.assignDefaultRole now this) w = Ok tt
  /\ match List.filter r_is_default (roles w) with
     | [] => exec (User.assignDefaultRole now this) w = w
     | d :: _ =>
         forall later user_id role_id,
           holds_role later user_id role_id (exec (User.assignDefaultRole now this) w)
           <-> (user_id = u_id this /\ role_id = r_id d)
               \/ holds_role later user_id role_id w
     end.
Proof.
  intros Huser.
  destruct (List.filter r_is_default (roles w)) as [|d rest] eqn:Hdefault.
  - unfold run, exec, User.assignDefaultRole. unfold_m. now rewrite Hdefault.
  - pose proof (role_exists_first _ _ _ _ Hdefault) as Hrole.
    destruct (assignRole_holds now this (r_id d) None None w Huser Hrole eq_refl)
      as [Hok Hiff].
    assert (Hsame : User.assignDefaultRole now this w
                    = User.assignRole now this (r_id d) None None w).
    { unfold User.assignDefaultRole at 1. unfold_m. rewrite Hdefault.
      rewrite assignRole_run by (assumption || reflexivity). reflexivity. }
    unfold run, exec in *. rewrite Hsame. split; [exact Hok|].
    intros later user_id role_id. rewrite Hiff.
    destruct ((user_id =? u_id this) && (role_id =? r_id d)) eqn:Htarget.
    + apply andb_true_iff in Htarget as [Hu Hr]. apply Z.eqb_eq in Hu, Hr.
      cbn. split; [now left|trivial].
    + split; [now right|]. intros [[Hu Hr]|Hheld]; [|exact Hheld].
      rewrite Hu, Hr, !Z.eqb_refl in Htarget. discriminate.
Qed.

Lemma assignDefaultRole_first_witness :
  exec (User.assignDefaultRole 1000 alice) expired_assignment_world
  = expired_assignment_world
  /\ holds_role 5000 7 3
       (exec (User.assignDefaultRole 1000 alice)
          (set_roles (fun _ => [mkRole 2 "Admin" None true false None 0 0 None;
                                mkRole 3 "Member" None false true None 0 0 None;
                                mkRole 4 "Guest" None false true None 0 0 None])
             two_users))
  /\ ~ holds_role 5000 7 4
         (exec (User.assignDefaultRole 1000 alice)
            (set_roles (fun _ => [mkRole 2 "Admin" None true false None 0 0 None;
                                  mkRole 3 "Member" None false true None 0 0 None;
                                  mkRole 4 "Guest" None false true None 0 0 None])
               two_users)).
Proof.
  split; [|split].
  - destruct (assignDefaultRole_first 1000 alice expired_assignment_world eq_refl)
      as [_ Hnone]. exact Hnone.
  - destruct (assignDefaultRole_first 1000 alice
                (set_roles (fun _ => [mkRole 2 "Admin" None true false None 0 0 None;
                                      mkRole 3 "Member" None false true None 0 0 None;
                                      mkRole 4 "Guest" None false true None 0 0 None])
                   two_users) eq_refl) as [_ Hfirst].
    apply (Hfirst 5000 7 3). now left.
  - destruct (assignDefaultRole_first 1000 alice
                (set_roles (fun _ => [mkRole 2 "Admin" None true false None 0 0 None;
                                      mkRole 3 "Member" None false true None 0 0 None;
                                      mkRole 4 "Guest" None false true None 0 0 None])
                   two_users) eq_refl) as [_ Hfirst].
    intros Hheld. apply (Hfirst 5000 7 4) in Hheld as [[_ Hr]|(ur & [] & _)].
    discriminate.
Defined.

(** ** Creating roles, and the hierarchy *)

Lemma role_is_new_check id name w :
  existsb (fun r => (r_id r =? id) || String.eqb (r_name r) name) (roles w) = false
  <-> role_is_new id name w.
Proof.
  unfold role_is_new. split.
  - intros Hnone r Hr.
    assert (Hr' : ((r_id r =? id) || String.eqb (r_name r) name) = false).
    { destruct ((r_id r =? id) || String.eqb (r_name r) name) eqn:E; [|reflexivity].
      assert (Hex : existsb (fun r => (r_id r =? id) || String.eqb (r_name r) name)
                      (roles w) = true)
        by (apply existsb_exists; now exists r).
      congruence. }
    apply orb_false_iff in Hr' as [Hid Hname].
    split; [now apply Z.eqb_neq|now apply String.eqb_neq].
  - intros Hnew.
    destruct (existsb _ (roles w)) eqn:Hex; [exfalso|reflexivity].
    apply existsb_exists in Hex as (r & Hr & Htaken).
    destruct (Hnew r Hr) as [Hid Hname].
    apply orb_true_iff in Htaken as [E|E];
      [apply Z.eqb_eq in E|apply String.eqb_eq in E]; contradiction.
Qed.






Lemma hierarchy_sound_map (g : RoleRow -> RoleRow) w w' :
  (forall r, r_id (g r) = r_id r /\ r_parent_role_id (g r) = r_parent_role_id r
             /\ r_level (g r) = r_level r) ->
  roles w' = map g (roles w) ->
  hierarchy_sound w -> hierarchy_sound w'.
Proof.
  intros Hg Hroles [Hids Hparents Hlevels]. split; rewrite Hroles.
  - intros r1' r2' H1 H2 Heq.
    apply in_map_iff in H1 as (r1 & <- & H1). apply in_map_iff in H2 as (r2 & <- & H2).
    destruct (Hg r1) as (E1 & _). destruct (Hg r2) as (E2 & _).
    rewrite E1, E2 in Heq. now rewrite (Hids r1 r2 H1 H2 Heq).
  - intros r' pid Hr Hpar. apply in_map_iff in Hr as (r & <- & Hr).
    destruct (Hg r) as (_ & E & _). rewrite E in Hpar.
    destruct (Hparents r pid Hr Hpar) as (parent & Hp & Hpid).
    exists (g parent). split; [apply in_map_iff; now exists parent|].
    destruct (Hg parent) as (E' & _). congruence.
  - intros r' p' Hr Hp Hpar.
    apply in_map_iff in Hr as (r & <- & Hr). apply in_map_iff in Hp as (p & <- & Hp).
    destruct (Hg r) as (_ & Er & El). destruct (Hg p) as (Ep & _ & Elp).
    rewrite Er, Ep in Hpar. rewrite El, Elp. now apply Hlevels.
Qed.

Lemma hierarchy_sound_same w w' :
  roles w' = roles w -> hierarchy_sound w -> hierarchy_sound w'.
Proof.
  intros Hroles. apply (hierarchy_sound_map (fun r => r)); [now intros r|].
  now rewrite map_id.
Qed.

Lemma update_roles now this updateData updatedBy w :
  exists g,
    (forall r, r_id (g r) = r_id r /\ r_parent_role_id (g r) = r_parent_role_id r
               /\ r_level (g r) = r_level r)
    /\ roles (exec (Role.update now this updateData updatedBy) w) = map g (roles w).
Proof.
  assert (Hsame : forall w' : World, roles w' = roles w ->
            exists g,
              (forall r, r_id (g r) = r_id r
                         /\ r_parent_role_id (g r) = r_parent_role_id r
                         /\ r_level (g r) = r_level r)
              /\ roles w' = map g (roles w)).
  { intros w' Hw'. exists (fun r => r). split; [now intros r|]. now rewrite map_id. }
  unfold exec, Role.update. unfold_m.
  destruct updateData as [name description is_default].
  destruct name as [n|], description as [d|], is_default as [b|];
    try (apply Hsame; reflexivity);
    (destruct (List.filter _ (roles w)); [apply Hsame; reflexivity|]);
    repeat (match goal with
            | |- context [if ?c then _ else _] =>
                destruct c; [apply Hsame; reflexivity|]
            end);
    cbn [snd roles set_roles];
    (eexists; split; [|reflexivity]);
    intros x; cbv beta; destruct (r_id x =? r_id this); now repeat split.
Qed.

Lemma delete_roles this w :
  roles (exec (Role.delete this) w) = roles w
  \/ (roles (exec (Role.delete this) w)
      = List.filter (fun r => negb (r_id r =? r_id this)) (roles w)
      /\ forall r parent,
           In r (roles w) -> In parent (roles w) -> r_id r <> r_id this ->
           r_parent_role_id r = Some (r_id parent) -> r_id parent <> r_id this).
Proof.
  unfold exec, Role.delete, delete_from_roles. unfold_m.
  destruct (r_is_system_role this); [now left|].
  destruct (0 <? _); [now left|].
  destruct (existsb (fun r => r_id r =? r_id this) (roles w)
            && existsb _ (roles w)) eqn:Hfk; [now left|].
  right. split; [reflexivity|].
  intros r parent Hr Hp Hne Hpar Heq.
  assert (H1 : existsb (fun r => r_id r =? r_id this) (roles w) = true).
  { apply existsb_exists. exists parent. split; [exact Hp|now apply Z.eqb_eq]. }
  assert (H2 : existsb (fun r => negb (r_id r =? r_id this)
                                 && match r_parent_role_id r with
                                    | Some parent => parent =? r_id this
                                    | None => false
                                    end) (roles w) = true).
  { apply existsb_exists. exists r. split; [exact Hr|].
    rewrite Hpar. apply andb_true_iff. split.
    - apply negb_true_iff. now apply Z.eqb_neq.
    - now apply Z.eqb_eq. }
  rewrite H1, H2 in Hfk. discriminate.
Qed.

(** X18.  The role hierarchy stays sound.  In a table where ids are
    unique, every parent named is on record and every role sits one level
    below its parent, that is still so after [Role.update] and after
    [Role.delete], whatever they are given and whether they succeed or
    throw, and after [Role.create] unless the new role names as its parent
    the id 0 or the id it is itself given. *)
Theorem hierarchy_stays_sound (w : World) :
  hierarchy_sound w ->
  (forall now this updateData updatedBy,
     hierarchy_sound (exec (Role.update now this updateData updatedBy) w))
  /\ (forall this, hierarchy_sound (exec (Role.delete this) w))
  /\ (forall now id roleData createdBy,
        rd_parent_role_id roleData <> Some 0 ->
        rd_parent_role_id roleData <> Some id ->
        hierarchy_sound (exec (Role.create now id roleData createdBy) w)).
Proof.
  intros Hsound. split; [|split].
  - intros now this updateData updatedBy.
    destruct (update_roles now this updateData updatedBy w) as (g & Hg & Hroles).
    exact (hierarchy_sound_map g w _ Hg Hroles Hsound).
  - intros this. destruct (delete_roles this w) as [Hsame|[Hroles Hnochild]].
    + exact (hierarchy_sound_same w _ Hsame Hsound).
    + destruct Hsound as [Hids Hparents Hlevels]. split; rewrite Hroles.
      * intros r1 r2 H1 H2. apply filter_In in H1 as [H1 _], H2 as [H2 _].
        now apply Hids.
      * intros r pid Hr Hpar. apply filter_In in Hr as [Hr Hkeep].
        destruct (Hparents r pid Hr Hpar) as (parent & Hp & Hpid).
        exists parent. split; [|exact Hpid]. apply filter_In. split; [exact Hp|].
        apply negb_true_iff, Z.eqb_neq.
        apply (Hnochild r parent Hr Hp); [|congruence].
        apply negb_true_iff in Hkeep. now apply Z.eqb_neq.
      * intros r parent Hr Hp. apply filter_In in Hr as [Hr _], Hp as [Hp _].
        now apply Hlevels.
  - intros now id roleData createdBy Hzero Hself.
    unfold exec, Role.create. unfold_m. cbv zeta.
    match goal with
    | |- context [int4_max <? ?level] => destruct (int4_max <? level)
    end; [exact Hsound|].
    destruct (negb (fits_varchar 100 (rd_name roleData))); [exact Hsound|].
    destruct (existsb (fun r => (r_id r =? id)
                                || String.eqb (r_name r) (rd_name roleData)) (roles w))
      eqn:Hcheck; [exact Hsound|].
    apply role_is_new_check in Hcheck.
    destruct (negb match rd_parent_role_id roleData with
                   | Some parent_role_id =>
                       (parent_role_id =? id) || role_exists parent_role_id w
                   | None => true
                   end) eqn:Hfk; [exact Hsound|].
    destruct (negb (user_ref_ok createdBy w)); [exact Hsound|].
    cbn [snd]. apply negb_false_iff in Hfk.
    destruct Hsound as [Hids Hparents Hlevels].
    split; cbn [roles set_roles].
    + intros r1 r2 H1 H2 Heq.
      apply in_app_iff in H1 as [H1|[<-|[]]]; apply in_app_iff in H2 as [H2|[<-|[]]].
      * now apply Hids.
      * cbn in Heq. now destruct (Hcheck r1 H1).
      * cbn in Heq. symmetry in Heq. now destruct (Hcheck r2 H2).
      * reflexivity.
    + intros r pid Hr Hpar. apply in_app_iff in Hr as [Hr|[<-|[]]].
      * destruct (Hparents r pid Hr Hpar) as (parent & Hp & Hpid).
        exists parent. split; [apply in_app_iff; now left|exact Hpid].
      * cbn in Hpar. rewrite Hpar in Hfk, Hself.
        apply orb_true_iff in Hfk as [Hfk|Hfk];
          [apply Z.eqb_eq in Hfk; congruence|].
        apply existsb_exists in Hfk as (parent & Hp & Hpid). apply Z.eqb_eq in Hpid.
        exists parent. split; [apply in_app_iff; now left|exact Hpid].
    + intros r parent Hr Hp Hpar.
      apply in_app_iff in Hr as [Hr|[<-|[]]]; apply in_app_iff in Hp as [Hp|[<-|[]]].
      * now apply Hlevels.
      * cbn in Hpar. destruct (Hparents r id Hr Hpar) as (p & Hpin & Hpid).
        now destruct (Hcheck p Hpin).
      * cbn in Hpar. cbn [r_level]. rewrite Hpar.
        destruct (r_id parent =? 0) eqn:Hz;
          [apply Z.eqb_eq in Hz; rewrite Hz in Hpar; contradiction|].
        destruct (List.filter (fun r => r_id r =? r_id parent) (roles w))
          as [|first rest] eqn:Hfilter.
        -- assert (Hin : In parent (List.filter (fun r => r_id r =? r_id parent)
                                      (roles w)))
             by (apply filter_In; split; [exact Hp|apply Z.eqb_refl]).
           rewrite Hfilter in Hin. destruct Hin.
        -- assert (Hin : In first (List.filter (fun r => r_id r =? r_id parent)
                                     (roles w))) by (rewrite Hfilter; now left).
           apply filter_In in Hin as [Hin Hsameid]. apply Z.eqb_eq in Hsameid.
           now rewrite (Hids first parent Hin Hp Hsameid).
      * cbn in Hpar. contradiction.
Qed.

Lemma hierarchy_stays_sound_witness :
  hierarchy_sound
    (exec (Role.create 1000 3 (mkRoleData "Trainee" None (Some 2) false) None)
       hierarchy_world)
  /\ hierarchy_sound
       (exec (Role.delete (mkRole 1 "Editor" None false false None 0 0 None))
          hierarchy_world).
Proof.
  assert (Hsound : hierarchy_sound hierarchy_world).
  { split.
    - intros r1 r2 [<-|[<-|[]]] [<-|[<-|[]]]; (reflexivity || discriminate).
    - intros r pid [<-|[<-|[]]] [= <-].
      exists (mkRole 1 "Editor" None false false None 0 0 None). split; [now left|reflexivity].
    - intros r parent [<-|[<-|[]]] [<-|[<-|[]]]; (reflexivity || discriminate). }
  destruct (hierarchy_stays_sound hierarchy_world Hsound) as (_ & Hdelete & Hcreate).
  split; [apply Hcreate; discriminate|apply Hdelete].
Defined.

(** ** The role controller *)

Lemma delete_true_or_throw this w :
  (exists e w', Role.delete this w = (Throw e, w'))
  \/ (exists w', Role.delete this w = (Ok true, w')).
Proof.
  rewrite delete_run. destruct (r_is_system_role this); [left; eauto|].
  destruct (Role.active_assignments (r_id this) w); [|left; eauto].
  destruct (delete_from_roles (r_id this) w) as [[[]|e] w']; [right|left]; eauto.
Qed.

Lemma head_filter_id roleId role w :
  head (List.filter (fun r => r_id r =? roleId) (roles w)) = Some role ->
  In role (roles w) /\ r_id role = roleId.
Proof.
  destruct (List.filter _ (roles w)) as [|x rest] eqn:Hf; [discriminate|].
  intros [= ->].
  assert (Hin : In role (List.filter (fun r => r_id r =? roleId) (roles w)))
    by (rewrite Hf; now left).
  apply filter_In in Hin as [Hin Hid]. now apply Z.eqb_eq in Hid.
Qed.

(** X19.  Deleting a role that is in use answers 500, not 400.  For a role
    id that parses, [deleteRole] never sends a 400: [Role.delete] resolves
    to [true] or throws, so the answer "Role cannot be deleted (may have
    assigned users)" is out of reach.  A role that is not a system role and
    has an assignment with [is_active] set is answered with 500 "Failed to
    delete role", and no role or assignment is touched. *)
Theorem deleteRole_in_use_is_500 (roleId req_user_id : Z) (w : World) :
  (exists response,
     run (RoleController.deleteRole (Some roleId) req_user_id) w = Ok response
     /\ status response <> 400)
  /\ (forall role ur,
        head (List.filter (fun r => r_id r =? roleId) (roles w)) = Some role ->
        r_is_system_role role = false ->
        In ur (user_roles w) -> ur_role_id ur = roleId -> ur_is_active ur = true ->
        run (RoleController.deleteRole (Some roleId) req_user_id) w
        = Ok (mkResponse 500 false (Some "Failed to delete role"))
        /\ roles (exec (RoleController.deleteRole (Some roleId) req_user_id) w) = roles w
        /\ user_roles (exec (RoleController.deleteRole (Some roleId) req_user_id) w)
           = user_roles w).
Proof.
  split.
  - unfold run, RoleController.deleteRole, Role.findById. unfold_m.
    destruct (head (List.filter (fun r => r_id r =? roleId) (roles w))) as [role|];
      [|eexists; split; [reflexivity|discriminate]].
    destruct (r_is_system_role role);
      [eexists; split; [reflexivity|discriminate]|].
    destruct (delete_true_or_throw role w) as [(e & w' & Hdel)|(w' & Hdel)];
      rewrite Hdel; cbv beta iota; cbn [negb].
    + eexists. split; [reflexivity|discriminate].
    + destruct (logEvent_frame (RoleController.admin_event req_user_id "role_deleted") w')
        as (w'' & Hlog & _).
      rewrite Hlog. eexists. split; [reflexivity|discriminate].
  - intros role ur Hrole Hsystem Hur Hassigned Hactive.
    destruct (head_filter_id _ _ _ Hrole) as [_ Hid].
    assert (Hdel : Role.delete role w
                   = (Throw Role.RoleAssignedError,
                      set_console (cons ("Error deleting role:", Role.RoleAssignedError)) w)).
    { rewrite delete_run, Hsystem.
      destruct (Role.active_assignments (r_id role) w) eqn:Hnone; [exfalso|reflexivity].
      apply (proj2 (active_assignments_nonempty (r_id role) w)); [|exact Hnone].
      exists ur. rewrite Hid. auto. }
    unfold run, exec, RoleController.deleteRole, Role.findById. unfold_m.
    rewrite Hrole, Hsystem, Hdel. now repeat split.
Qed.

Lemma deleteRole_in_use_is_500_witness :
  run (RoleController.deleteRole (Some 20) 7) expired_assignment_world
  = Ok (mkResponse 500 false (Some "Failed to delete role")).
Proof.
  destruct (deleteRole_in_use_is_500 20 7 expired_assignment_world) as [_ Hinuse].
  destruct (Hinuse (mkRole 20 "Reviewer" None false false None 0 0 None)
              (mkUserRole 7 20 0 None (Some 500) true)
              eq_refl eq_refl (or_introl eq_refl) eq_refl eq_refl) as [Hanswer _].
  exact Hanswer.
Defined.

(** Stored or not, an audit event leaves every other table as it is. *)
Lemma logEvent_tables ev w :
  exists w',
    AuditService.logEvent ev w = (Ok tt, w')
    /\ users w' = users w /\ roles w' = roles w /\ permissions w' = permissions w
    /\ role_permissions w' = role_permissions w /\ user_roles w' = user_roles w
    /\ user_sessions w' = user_sessions w /\ redis w' = redis w.
Proof.
  unfold AuditService.logEvent. unfold_m.
  destruct (user_ref_ok (a_user_id ev) w); cbn [negb].
  - destruct (a_session_id ev) as [sid|].
    + destruct (existsb _ (user_sessions w)); cbn [negb];
        eexists; (split; [reflexivity|]); now repeat split.
    + eexists; (split; [reflexivity|]); now repeat split.
  - eexists; (split; [reflexivity|]); now repeat split.
Qed.

Lemma filter_none {A} (q : A -> bool) (l : list A) :
  (forall x, In x l -> q x = false) -> List.filter q l = [].
Proof.
  induction l as [|x l IH]; intros Hq; [reflexivity|]. cbn [List.filter].
  rewrite (Hq x (or_introl eq_refl)). apply IH. intros y Hy. apply Hq. now right.
Qed.




(** ** The authorization middleware *)

Lemma findById_on_record id w :
  user_exists id w = true ->
  exists user, User.findById id w = (Ok (Some user), w) /\ u_id user = id.
Proof.
  intros Hrecord. unfold User.findById. unfold_m.
  destruct (List.filter (fun r => u_id r =? id) (users w)) as [|row rest] eqn:Hf.
  - apply existsb_filter_nil in Hf. unfold user_exists in Hrecord. congruence.
  - exists (User.public_columns row). split; [reflexivity|].
    assert (Hin : In row (List.filter (fun r => u_id r =? id) (users w)))
      by (rewrite Hf; now left).
    apply filter_In in Hin as [_ Hid]. now apply Z.eqb_eq in Hid.
Qed.

Lemma reload_run req user w :
  req_user_has_permissions req = true \/ user_exists (u_id user) w = true ->
  exists user',
    Authorization.reload req user w = (Ok (Some user'), w) /\ u_id user' = u_id user.
Proof.
  intros Hloaded. unfold Authorization.reload.
  destruct (req_user_has_permissions req); [now exists user|].
  destruct Hloaded as [Hloaded|Hrecord]; [discriminate|].
  now apply findById_on_record.
Qed.

Lemma reload_missing req user w :
  req_user_has_permissions req = false -> user_exists (u_id user) w = false ->
  Authorization.reload req user w = (Ok None, w).
Proof.
  intros Hloaded Hmissing. unfold Authorization.reload. rewrite Hloaded.
  unfold User.findById. unfold_m.
  apply existsb_filter_nil in Hmissing. now rewrite Hmissing.
Qed.

Lemma hasPermission_run now this name w :
  exists answer,
    User.hasPermission now this name w = (Ok answer, w)
    /\ (answer = true <-> granted_through_a_role now (u_id this) name w).
Proof.
  exists (0 <? Z.of_nat (length (User.hasPermission_rows now (u_id this) name w))).
  split; [reflexivity|].
  rewrite <- hasPermission_rows_nonempty.
  destruct (User.hasPermission_rows now (u_id this) name w); cbn.
  - split; [discriminate|congruence].
  - split; [discriminate|reflexivity].
Qed.

(** X21.  [requirePermission] lets through exactly the users granted the
    permission.  For a request that carries a user who is on record, or
    whose permissions are already loaded, the middleware never answers 500:
    it calls [next()] exactly when an assignment of the user in force at
    that instant is to a role with a granted edge to the permission, and
    answers 403 "Insufficient permissions" otherwise.  It writes to the
    audit log and the console only. *)
Theorem requirePermission_decides (now : Timestamp) (permissionName : string)
    (logSuccess : bool) (req : Request) (user : UserRow) (w : World) :
  req_user req = Some user ->
  req_user_has_permissions req = true \/ user_exists (u_id user) w = true ->
  exists outcome w',
    Authorization.requirePermission now permissionName logSuccess req w
    = (Ok outcome, w')
    /\ (outcome = Next <-> granted_through_a_role now (u_id user) permissionName w)
    /\ (outcome <> Next ->
        outcome = Respond (mkResponse 403 false (Some "Insufficient permissions")))
    /\ users w' = users w /\ roles w' = roles w /\ permissions w' = permissions w
    /\ role_permissions w' = role_permissions w /\ user_roles w' = user_roles w
    /\ user_sessions w' = user_sessions w /\ redis w' = redis w.
Proof.
  intros Huser Hloaded.
  destruct (reload_run req user w Hloaded) as (user' & Hreload & Hid).
  destruct (hasPermission_run now user' permissionName w) as (answer & Hanswer & Hiff).
  rewrite Hid in Hiff.
  unfold Authorization.requirePermission. unfold_m. rewrite Huser. cbv beta iota.
  rewrite Hreload. cbv beta iota. rewrite Hanswer. cbv beta iota.
  destruct answer; cbn [negb].
  - destruct logSuccess.
    + destruct (logEvent_tables
                  (mkAudit (Some (u_id user')) (req_session_id req)
                     "authorization_granted" "authorization" true None) w)
        as (w' & Hlog & Htables).
      rewrite Hlog. exists Next, w'. split; [reflexivity|].
      split; [split; [intros _; now apply Hiff|reflexivity]|].
      split; [congruence|exact Htables].
    + exists Next, w. split; [reflexivity|].
      split; [split; [intros _; now apply Hiff|reflexivity]|].
      split; [congruence|now repeat split].
  - destruct (logEvent_tables
                (Authorization.denied (Some (u_id user')) (req_session_id req)
                   "authorization_denied" ("Missing permission: " +:+ permissionName)) w)
      as (w' & Hlog & Htables).
    rewrite Hlog. eexists _, w'. split; [reflexivity|].
    split; [split; [discriminate|]|].
    + intros Hgranted. apply Hiff in Hgranted. discriminate.
    + split; [reflexivity|exact Htables].
Qed.

Lemma requirePermission_decides_witness :
  run (Authorization.requirePermission 1000 "content.update" false
         (mkRequest (Some alice) false None)) hierarchy_world
  = Ok (Respond (mkResponse 403 false (Some "Insufficient permissions")))
  /\ exists outcome w',
       Authorization.requirePermission 1000 "content.update" true
         (mkRequest (Some alice) false None)
         (exec (Role.addPermission
                  (mkRole 2 "Junior Editor" None false false (Some 1) 1 0 None) 30 None)
            hierarchy_world)
       = (Ok outcome, w')
       /\ (outcome = Next
           <-> granted_through_a_role 1000 7 "content.update"
                 (exec (Role.addPermission
                          (mkRole 2 "Junior Editor" None false false (Some 1) 1 0 None)
                          30 None) hierarchy_world)).
Proof.
  split; [reflexivity|].
  destruct (requirePermission_decides 1000 "content.update" true
              (mkRequest (Some alice) false None) alice
              (exec (Role.addPermission
                       (mkRole 2 "Junior Editor" None false false (Some 1) 1 0 None)
                       30 None) hierarchy_world)
              eq_refl (or_intror eq_refl))
    as (outcome & w' & Hrun & Hiff & _).
  exists outcome, w'. split; [exact Hrun|exact Hiff].
Defined.

Lemma hasPermissions_run now user permissions w :
  exists answers,
    Authorization.hasPermissions now user permissions w = (Ok answers, w)
    /\ (existsb (fun answer => answer) answers = true
        <-> exists permission,
              In permission permissions
              /\ granted_through_a_role now (u_id user) permission w).
Proof.
  induction permissions as [|permission rest IH].
  - exists []. split; [reflexivity|]. cbn. split; [discriminate|].
    intros (permission & [] & _).
  - destruct IH as (answers & Hrest & Hiff).
    destruct (hasPermission_run now user permission w) as (answer & Hanswer & Hfirst).
    exists (answer :: answers). split.
    + cbn [Authorization.hasPermissions]. unfold_m. rewrite Hanswer. cbv beta iota.
      rewrite Hrest. reflexivity.
    + cbn [existsb]. rewrite orb_true_iff, Hiff, Hfirst. split.
      * intros [Hgranted|(p & Hp & Hgranted)].
        -- exists permission. split; [now left|exact Hgranted].
        -- exists p. split; [now right|exact Hgranted].
      * intros (p & [<-|Hp] & Hgranted); [now left|right].
        exists p. now split.
Qed.

(** X22.  [requireAnyPermission] lets through the users granted one of the
    permissions listed.  For a request that carries a user who is on
    record, or whose permissions are already loaded, it calls [next()]
    exactly when the user is granted, at that instant, some permission of
    the list, and answers 403 otherwise: always so for an empty list.
    When the user of the request is no longer on record the answer is 500
    "Permission verification failed", where [requirePermission] answers
    401. *)
Theorem requireAnyPermission_decides (now : Timestamp) (permissions : list string)
    (req : Request) (user : UserRow) (w : World) :
  req_user req = Some user ->
  (req_user_has_permissions req = true \/ user_exists (u_id user) w = true ->
   exists outcome,
     run (Authorization.requireAnyPermission now permissions req) w = Ok outcome
     /\ (outcome = Next
         <-> exists permission,
               In permission permissions
               /\ granted_through_a_role now (u_id user) permission w)
     /\ (outcome <> Next ->
         outcome = Respond (mkResponse 403 false (Some "Insufficient permissions"))))
  /\ (req_user_has_permissions req = false -> user_exists (u_id user) w = false ->
      run (Authorization.requireAnyPermission now permissions req) w
      = Ok (Respond (mkResponse 500 false (Some "Permission verification failed")))
      /\ forall permissionName logSuccess,
           run (Authorization.requirePermission now permissionName logSuccess req) w
           = Ok (Respond (mkResponse 401 false (Some "User not found")))).
Proof.
  intros Huser. split.
  - intros Hloaded.
    destruct (reload_run req user w Hloaded) as (user' & Hreload & Hid).
    destruct (hasPermissions_run now user' permissions w) as (answers & Hanswers & Hiff).
    rewrite Hid in Hiff.
    unfold run, Authorization.requireAnyPermission. unfold_m. rewrite Huser.
    cbv beta iota. rewrite Hreload. cbv beta iota. rewrite Hanswers. cbv beta iota.
    destruct (existsb (fun answer => answer) answers) eqn:Hany; cbn [negb].
    + exists Next. split; [reflexivity|].
      split; [split; [intros _; now apply Hiff|reflexivity]|congruence].
    + destruct (logEvent_tables
                  (Authorization.denied (Some (u_id user')) None "authorization_denied"
                     ("Missing any of permissions: " +:+ Authorization.join permissions)) w)
        as (w' & Hlog & _).
      rewrite Hlog. eexists. split; [reflexivity|].
      split; [split; [discriminate|]|reflexivity].
      intros Hgranted. apply Hiff in Hgranted. discriminate.
  - intros Hnotloaded Hmissing. split.
    + unfold run, Authorization.requireAnyPermission. unfold_m. rewrite Huser.
      cbv beta iota. rewrite (reload_missing req user w Hnotloaded Hmissing).
      cbv beta iota. destruct permissions; reflexivity.
    + intros permissionName logSuccess.
      unfold run, Authorization.requirePermission. unfold_m. rewrite Huser.
      cbv beta iota. rewrite (reload_missing req user w Hnotloaded Hmissing).
      reflexivity.
Qed.

Lemma requireAnyPermission_decides_witness :
  run (Authorization.requireAnyPermission 1000 [] (mkRequest (Some alice) true None))
    hierarchy_world
  = Ok (Respond (mkResponse 403 false (Some "Insufficient permissions")))
  /\ run (Authorization.requireAnyPermission 1000 ["system.admin"; "system.config"]
            (mkRequest (Some alice) false None)) empty_world
     = Ok (Respond (mkResponse 500 false (Some "Permission verification failed"))).
Proof.
  split.
  - destruct (requireAnyPermission_decides 1000 [] (mkRequest (Some alice) true None)
                alice hierarchy_world eq_refl) as [Hdecides _].
    destruct (Hdecides (or_introl eq_refl)) as (outcome & Hrun & Hiff & Hdenied).
    rewrite Hrun. f_equal. apply Hdenied. intros Hnext.
    apply Hiff in Hnext as (permission & [] & _).
  - destruct (requireAnyPermission_decides 1000 ["system.admin"; "system.config"]
                (mkRequest (Some alice) false None) alice empty_world eq_refl)
      as [_ Hmissing].
    now destruct (Hmissing eq_refl eq_refl).
Defined.

(** ** Forced logout *)

(** Once the sessions of a user are inactive in the Ledger and the keys of
    those that were active are out of the cache, none of them is found. *)
Lemma sessions_of_user_ended userId w w' :
  session_tokens_unique w -> cache_faithful_to userId w -> cache_healthy w ->
  user_sessions w' = map (deactivate_sessions_of userId) (user_sessions w) ->
  match redis w with
  | None => redis w' = None
  | Some r =>
      redis w'
      = Some (mkRedis
                (fold_right delete (entries r)
                   (map (fun row => TokenService.session_key (s_session_token row))
                      (active_sessions_of userId w)))
                (rejects r))
  end ->
  forall s later,
    In s (user_sessions w) -> s_user_id s = userId ->
    run (TokenService.findSessionByToken later (s_session_token s)) w' = Ok None.
Proof.
  intros Hunique Hfaithful Hhealthy Hsessions Hredis s later Hs Howner.
  apply findSessionByToken_null.
  - intros r' Hredis'. destruct (redis w) as [r|] eqn:Hr; [|congruence].
    rewrite Hredis in Hredis'. injection Hredis' as <-. cbn [rejects entries].
    split; [now apply (Hhealthy r)|].
    intros value deadline Hentry.
    destruct (obj_is_active value) eqn:Hactive; [exfalso|reflexivity].
    pose proof (lookup_fold_delete_kept _ _ _ _ Hentry) as Hbefore.
    pose proof (Hfaithful r s value deadline Hr Hs Howner Hbefore Hactive) as Hactive'.
    rewrite lookup_fold_delete_deleted in Hentry; [discriminate|].
    apply in_map_iff. exists s. split; [reflexivity|].
    apply filter_In. split; [exact Hs|].
    now rewrite Howner, Z.eqb_refl, Hactive'.
  - rewrite Hsessions. apply filter_none.
    intros x Hx. apply in_map_iff in Hx as (x0 & <- & Hx0).
    destruct (TokenService.ledger_match later (s_session_token s)
                (deactivate_sessions_of userId x0)) eqn:Hmatch; [exfalso|reflexivity].
    unfold TokenService.ledger_match in Hmatch.
    repeat (apply andb_true_iff in Hmatch as [Hmatch ?]).
    apply String.eqb_eq in Hmatch.
    unfold deactivate_sessions_of in *.
    destruct (s_user_id x0 =? userId) eqn:Hown.
    + cbn in *. discriminate.
    + assert (x0 = s) by now apply Hunique. subst x0.
      rewrite Howner, Z.eqb_refl in Hown. discriminate.
Qed.

(** X23.  The administrator's forced logout.  For a user on record, in a
    world whose session tokens are unique and whose cache turns no command
    down and shows no inactive session of the user as active,
    [forceLogout] answers 200; afterwards [findSessionByToken] answers
    null for the token of every session the user had, at any instant, and
    no refresh token resolves to a session of the user.  The sessions of
    other users are untouched, and the [force_logout] column is as it
    was: the forced logout does not set it. *)
Theorem forceLogout_ends_sessions `{Crypto} (userId req_user_id : Z) (w : World) :
  user_exists userId w = true ->
  session_tokens_unique w -> cache_faithful_to userId w -> cache_healthy w ->
  run (UserController.forceLogout (Some userId) req_user_id) w
  = Ok (mkResponse 200 true None)
  /\ (forall s later,
        In s (user_sessions w) -> s_user_id s = userId ->
        run (TokenService.findSessionByToken later (s_session_token s))
          (exec (UserController.forceLogout (Some userId) req_user_id) w) = Ok None)
  /\ (forall raw later s,
        run (TokenService.verifyRefreshToken later raw)
          (exec (UserController.forceLogout (Some userId) req_user_id) w) = Ok (Some s) ->
        s_user_id s <> userId)
  /\ (forall s,
        In s (user_sessions w) -> s_user_id s <> userId ->
        In s (user_sessions (exec (UserController.forceLogout (Some userId) req_user_id) w)))
  /\ map s_force_logout
       (user_sessions (exec (UserController.forceLogout (Some userId) req_user_id) w))
     = map s_force_logout (user_sessions w).
Proof.
  intros Huser Hunique Hfaithful Hhealthy.
  destruct (findById_on_record userId w Huser) as (user & Hfind & Hid).
  destruct (invalidateAllUserSessions_healthy userId w Hhealthy)
    as (w1 & Hinvalidate & _ & Hsessions & Hredis).
  destruct (logEvent_tables (mkAudit (Some req_user_id) None "force_logout" "admin" true None)
              w1) as (w2 & Hlog & _ & _ & _ & _ & _ & Hsessions2 & Hredis2).
  assert (Hrun : UserController.forceLogout (Some userId) req_user_id w
                 = (Ok (mkResponse 200 true None), w2)).
  { unfold UserController.forceLogout, UserController.find_user. unfold_m.
    rewrite Hfind. cbv beta iota. rewrite Hid, Hinvalidate. cbv beta iota.
    rewrite Hlog. reflexivity. }
  unfold run, exec. rewrite Hrun. cbn [fst snd].
  rewrite <- Hsessions2 in Hsessions. rewrite <- Hredis2 in Hredis.
  split; [reflexivity|]. split; [|split; [|split]].
  - exact (sessions_of_user_ended userId w w2 Hunique Hfaithful Hhealthy Hsessions Hredis).
  - intros raw later s Hfound. rewrite verifyRefreshToken_run in Hfound.
    cbn [fst] in Hfound. injection Hfound as Hfound.
    destruct (List.filter _ (List.filter _ (user_sessions w2))) as [|x rest] eqn:Hf;
      [discriminate|].
    injection Hfound as ->.
    assert (Hin : In s (List.filter (fun s => s_is_active s && (later <? s_expires_at s))
                          (List.filter
                             (fun s => opt_string_eqb (s_refresh_token s) (sha256_hex raw))
                             (user_sessions w2)))) by (rewrite Hf; now left).
    apply filter_In in Hin as [Hin Hlive]. apply filter_In in Hin as [Hin _].
    rewrite Hsessions in Hin. apply in_map_iff in Hin as (s0 & <- & _).
    unfold deactivate_sessions_of in *.
    destruct (s_user_id s0 =? userId) eqn:Hown; [cbn in Hlive; discriminate|].
    now apply Z.eqb_neq.
  - intros s Hs Hother. rewrite Hsessions. apply in_map_iff. exists s.
    split; [|exact Hs]. unfold deactivate_sessions_of.
    apply Z.eqb_neq in Hother. now rewrite Hother.
  - rewrite Hsessions, map_map. apply map_ext. intros s.
    unfold deactivate_sessions_of. now destruct (s_user_id s =? userId).
Qed.

Lemma forceLogout_ends_sessions_witness :
  run (UserController.forceLogout (Some 7) 9) reset_pending_world
  = Ok (mkResponse 200 true None)
  /\ run (TokenService.findSessionByToken 1000 "tok-alice")
       (exec (UserController.forceLogout (Some 7) 9) reset_pending_world) = Ok None
  /\ map s_force_logout
       (user_sessions (exec (UserController.forceLogout (Some 7) 9) reset_pending_world))
     = [false].
Proof.
  destruct (@forceLogout_ends_sessions toy_crypto 7 9 reset_pending_world)
    as (Hanswer & Hended & _ & _ & Hflag).
  - reflexivity.
  - intros s1 s2 [<-|[]] [<-|[]] _. reflexivity.
  - intros r s value deadline _ [<-|[]] _ _ _. reflexivity.
  - intros r cmd [= <-]. reflexivity.
  - split; [exact Hanswer|]. split; [|exact Hflag].
    apply (Hended alice_session 1000); [now left|reflexivity].
Defined.

(** ** Backup codes *)

Section BackupCodeProofs.
Variable toUpperCase : string -> string.

Lemma indexOf_found array x :
  (exists index, TwoFactorService.indexOf array x = Some index) <-> In x array.
Proof.
  induction array as [|y rest IH]; cbn [TwoFactorService.indexOf].
  - split; [intros [? [=]]|intros []].
  - destruct (String.eqb y x) eqn:E.
    + apply String.eqb_eq in E. split; [now left|eauto].
    + apply String.eqb_neq in E. split.
      * intros [index Hindex]. right. apply IH.
        destruct (TwoFactorService.indexOf rest x); [eauto|discriminate].
      * intros [Heq|Hin]; [contradiction|].
        apply IH in Hin as [index ->]. cbn. eauto.
Qed.

Lemma splice1_count array x index c :
  TwoFactorService.indexOf array x = Some index ->
  count_occ string_dec array c
  = (count_occ string_dec (TwoFactorService.splice1 array index) c
     + if string_dec x c then 1 else 0)%nat.
Proof.
  revert index. induction array as [|y rest IH]; intros index; [discriminate|].
  cbn [TwoFactorService.indexOf].
  destruct (String.eqb y x) eqn:E.
  - apply String.eqb_eq in E. subst y. intros [= <-].
    cbn [TwoFactorService.splice1 count_occ].
    destruct (string_dec x c); lia.
  - destruct (TwoFactorService.indexOf rest x) as [i|] eqn:Hrest; [|discriminate].
    intros [= <-]. cbn [TwoFactorService.splice1 count_occ].
    specialize (IH i eq_refl). destruct (string_dec y c); lia.
Qed.

(** X24.  A backup code works once per copy stored.  [verifyBackupCode]
    answers [true] exactly when the upper-cased code is among the stored
    ones; it then takes one copy of that code, and nothing else, out of
    the array, and otherwise leaves the array alone.  So when the stored
    codes are all different, a code that was accepted is turned down the
    next time. *)
Theorem verifyBackupCode_once (storedCodes : list string) (providedCode : string) :
  let answer := fst (TwoFactorService.verifyBackupCode toUpperCase storedCodes providedCode) in
  let remaining :=
    snd (TwoFactorService.verifyBackupCode toUpperCase storedCodes providedCode) in
  (answer = true <-> In (toUpperCase providedCode) storedCodes)
  /\ (forall code,
        count_occ string_dec storedCodes code
        = (count_occ string_dec remaining code
           + if answer && String.eqb (toUpperCase providedCode) code then 1 else 0)%nat)
  /\ (answer = false -> remaining = storedCodes)
  /\ (List.NoDup storedCodes -> answer = true ->
      fst (TwoFactorService.verifyBackupCode toUpperCase remaining providedCode) = false).
Proof.
  cbv zeta.
  assert (Hcount : forall code,
            count_occ string_dec storedCodes code
            = (count_occ string_dec
                 (snd (TwoFactorService.verifyBackupCode toUpperCase storedCodes
                         providedCode)) code
               + if fst (TwoFactorService.verifyBackupCode toUpperCase storedCodes
                           providedCode)
                    && String.eqb (toUpperCase providedCode) code
                 then 1 else 0)%nat).
  { intros code. unfold TwoFactorService.verifyBackupCode.
    destruct (TwoFactorService.indexOf storedCodes (toUpperCase providedCode))
      as [index|] eqn:Hindex; cbn [fst snd andb]; [|lia].
    rewrite (splice1_count _ _ _ code Hindex).
    destruct (string_dec (toUpperCase providedCode) code) as [->|Hne].
    - now rewrite String.eqb_refl.
    - apply String.eqb_neq in Hne. now rewrite Hne. }
  assert (Hanswer : fst (TwoFactorService.verifyBackupCode toUpperCase storedCodes
                           providedCode) = true
                    <-> In (toUpperCase providedCode) storedCodes).
  { rewrite <- indexOf_found. unfold TwoFactorService.verifyBackupCode.
    destruct (TwoFactorService.indexOf storedCodes (toUpperCase providedCode));
      cbn [fst]; split; eauto; try discriminate. now intros [? [=]]. }
  split; [exact Hanswer|]. split; [exact Hcount|]. split.
  - unfold TwoFactorService.verifyBackupCode.
    destruct (TwoFactorService.indexOf storedCodes (toUpperCase providedCode));
      cbn [fst snd]; [discriminate|reflexivity].
  - intros Hnodup Htrue.
    destruct (fst (TwoFactorService.verifyBackupCode toUpperCase
                     (snd (TwoFactorService.verifyBackupCode toUpperCase storedCodes
                             providedCode)) providedCode)) eqn:Hagain; [exfalso|reflexivity].
    assert (Hin : In (toUpperCase providedCode)
                    (snd (TwoFactorService.verifyBackupCode toUpperCase storedCodes
                            providedCode))).
    { revert Hagain. unfold TwoFactorService.verifyBackupCode at 1.
      destruct (TwoFactorService.indexOf _ (toUpperCase providedCode)) eqn:Hindex;
        [intros _|discriminate].
      apply indexOf_found. eauto. }
    apply (count_occ_In string_dec) in Hin.
    pose proof (Hcount (toUpperCase providedCode)) as Hone.
    rewrite Htrue, String.eqb_refl in Hone. cbn [andb] in Hone.
    pose proof (proj1 (NoDup_count_occ string_dec storedCodes) Hnodup
                  (toUpperCase providedCode)).
    lia.
Qed.

End BackupCodeProofs.

(** ** Deleting a permission *)

(** X25.  Deleting a permission takes it from every role.  [delete] on a
    permission that is not a system permission resolves to [true] without
    looking at who holds it: the row and, by the cascade, every edge from a
    role to it are gone.  Afterwards [findById] finds nothing under its
    id; [hasPermission] resolves to [false], for every user, for a name
    that only this permission carried, and to what it did before for a
    name that this permission does not carry. *)
Theorem permission_delete_revokes (this : PermissionRow) (w : World) :
  p_is_system_permission this = false ->
  run (Permission.delete this) w = Ok true
  /\ run (Permission.findById (p_id this)) (exec (Permission.delete this) w) = Ok None
  /\ (forall rp,
        In rp (role_permissions (exec (Permission.delete this) w)) ->
        In rp (role_permissions w) /\ rp_permission_id rp <> p_id this)
  /\ (forall later user name,
        (forall p, In p (permissions w) -> p_name p = name -> p_id p = p_id this) ->
        run (User.hasPermission later user name) (exec (Permission.delete this) w)
        = Ok false)
  /\ (forall later user name,
        ~ permission_named (p_id this) name w ->
        (run (User.hasPermission later user name) (exec (Permission.delete this) w)
         = Ok true
         <-> run (User.hasPermission later user name) w = Ok true)).
Proof.
  intros Hsystem.
  assert (Hrun : Permission.delete this w
            = (Ok true,
               mkWorld (users w) (roles w)
                 (List.filter (fun p => negb (p_id p =? p_id this)) (permissions w))
                 (List.filter (fun rp => negb (rp_permission_id rp =? p_id this))
                    (role_permissions w))
                 (user_roles w) (user_sessions w) (user_sessions_id_seq w) (audit_logs w)
                 (redis w) (console w) (bcrypt_compares w))).
  { unfold Permission.delete. now rewrite Hsystem. }
  unfold run, exec. rewrite Hrun. cbn [fst snd].
  set (w' := mkWorld _ _ _ _ _ _ _ _ _ _ _).
  assert (Hgranted : forall later user_id name,
            granted_through_a_role later user_id name w'
            <-> exists ur rp p,
                  In ur (user_roles w) /\ ur_user_id ur = user_id /\ effective later ur
                  /\ In rp (role_permissions w) /\ rp_role_id rp = ur_role_id ur
                  /\ rp_granted rp = true
                  /\ In p (permissions w) /\ p_id p = rp_permission_id rp
                  /\ p_name p = name /\ p_id p <> p_id this).
  { intros later user_id name. unfold granted_through_a_role.
    cbn [w' user_roles role_permissions permissions]. split.
    - intros (ur & rp & p & Hur & Hu & Heff & Hrp & Hrole & Hg & Hp & Hpid & Hname).
      apply filter_In in Hrp as [Hrp _]. apply filter_In in Hp as [Hp Hkeep].
      apply negb_true_iff, Z.eqb_neq in Hkeep.
      exists ur, rp, p. split_and!; auto.
    - intros (ur & rp & p & Hur & Hu & Heff & Hrp & Hrole & Hg & Hp & Hpid & Hname & Hne).
      exists ur, rp, p. split_and!; auto.
      + apply filter_In. split; [exact Hrp|].
        apply negb_true_iff, Z.eqb_neq. congruence.
      + apply filter_In. split; [exact Hp|]. now apply negb_true_iff, Z.eqb_neq. }
  split; [reflexivity|]. split; [|split; [|split]].
  - unfold Permission.findById. unfold_m. cbn [fst w' permissions].
    rewrite filter_none; [reflexivity|].
    intros p Hp. apply filter_In in Hp as [_ Hkeep].
    apply negb_true_iff in Hkeep. exact Hkeep.
  - intros rp Hrp. cbn [w' role_permissions] in Hrp.
    apply filter_In in Hrp as [Hrp Hkeep]. split; [exact Hrp|].
    now apply negb_true_iff, Z.eqb_neq in Hkeep.
  - intros later user name Honly.
    destruct (hasPermission_run later user name w') as (answer & Hanswer & Hiff).
    change (run (User.hasPermission later user name) w' = Ok false).
    unfold run. rewrite Hanswer. cbn [fst]. destruct answer; [exfalso|reflexivity].
    destruct (proj1 (Hgranted _ _ _) (proj1 Hiff eq_refl))
      as (ur & rp & p & _ & _ & _ & _ & _ & _ & Hp & _ & Hname & Hne).
    apply Hne. now apply Honly.
  - intros later user name Hother.
    change (run (User.hasPermission later user name) w' = Ok true
            <-> run (User.hasPermission later user name) w = Ok true).
    rewrite !hasPermission_true, Hgranted. unfold granted_through_a_role. split.
    + intros (ur & rp & p & Hur & Hu & Heff & Hrp & Hrole & Hg & Hp & Hpid & Hname & _).
      exists ur, rp, p. split_and!; auto.
    + intros (ur & rp & p & Hur & Hu & Heff & Hrp & Hrole & Hg & Hp & Hpid & Hname).
      exists ur, rp, p. split_and!; auto.
      intros Hthis. apply Hother. exists p. now split_and!.
Qed.

Lemma permission_delete_revokes_witness :
  run (Permission.delete
         (mkPermission 30 "content.update" "content" "update" (Some "content") false))
    hierarchy_world = Ok true
  /\ role_permissions
       (exec (Permission.delete
                (mkPermission 30 "content.update" "content" "update" (Some "content") false))
          hierarchy_world) = []
  /\ run (User.hasPermission 1000 alice "content.update")
       (exec (Permission.delete
                (mkPermission 30 "content.update" "content" "update" (Some "content") false))
          hierarchy_world) = Ok false.
Proof.
  destruct (permission_delete_revokes
              (mkPermission 30 "content.update" "content" "update" (Some "content") false)
              hierarchy_world eq_refl) as (Hanswer & _ & _ & Hrevoked & _).
  split; [exact Hanswer|]. split; [reflexivity|].
  apply Hrevoked. intros p [<-|[]] _. reflexivity.
Defined.
